(** * linuxrc: the installation-source resolver (url.c)

    A shallow embedding of the URL model, the transfer pipeline and the
    mount orchestrator of [url.c], and the properties the specification
    states about them; then [url_read_file], [url_find_instsys] and the
    symbol comparison of insmod.c, and further properties of the code.

    Conventions.
    - A C string is a [string]; a [char *] that may be [NULL] is an
      [option string].  A C string ends at its first NUL byte ([cstr]).
    - [int] and [unsigned] are [Z]; where the code narrows or wraps a
      value the wrap-around is written out ([to_uint32], [to_int32]).
    - Functions, constants and tables of the repository that [url.c] only
      uses (global.h, file.c, util.c, net.c, ...) are members of the
      classes [Globals] and [Sys]; every definition is parametric in them.
    - libc and libcurl functions are modelled from their documentation. *)

From Stdlib Require Import ZArith NArith String Ascii List Bool Lia.
From Stdlib Require Import Numbers.DecimalString Numbers.DecimalPos.
From Stdlib Require Strings.Byte.
Import ListNotations.
Open Scope string_scope.
Open Scope Z_scope.

Set Implicit Arguments.

(* ===================================================================== *)
(** ** C strings *)
(* ===================================================================== *)

Definition NUL : ascii := Ascii.zero.

(** The C view of a character buffer: everything before the first NUL. *)
Fixpoint cstr (s : string) : string :=
  match s with
  | EmptyString => EmptyString
  | String a s' => if Ascii.eqb a NUL then EmptyString else String a (cstr s')
  end.

(** [if((s1 = strchr(s0, c))) *s1++ = 0;] : on success [s0] is cut to the
    text before the first [c] and [s1] is the text after it. *)
Fixpoint strchr_cut (c : ascii) (s : string) : option (string * string) :=
  match s with
  | EmptyString => None
  | String a s' =>
      if Ascii.eqb a c then Some (EmptyString, s')
      else match strchr_cut c s' with
           | Some (l, r) => Some (String a l, r)
           | None => None
           end
  end.

(** The same cut at the last occurrence: [strrchr]. *)
Fixpoint strrchr_cut (c : ascii) (s : string) : option (string * string) :=
  match s with
  | EmptyString => None
  | String a s' =>
      match strrchr_cut c s' with
      | Some (l, r) => Some (String a l, r)
      | None => if Ascii.eqb a c then Some (EmptyString, s') else None
      end
  end.

Fixpoint strmem (c : ascii) (set : string) : bool :=
  match set with
  | EmptyString => false
  | String a set' => Ascii.eqb a c || strmem c set'
  end.

(** [strcspn(s, reject)] *)
Fixpoint strcspn (s reject : string) : nat :=
  match s with
  | EmptyString => O
  | String a s' => if strmem a reject then O else S (strcspn s' reject)
  end.

(** [s + n] and [s[n] = 0] *)
Fixpoint str_skip (n : nat) (s : string) : string :=
  match n, s with
  | O, _ => s
  | S n', String _ s' => str_skip n' s'
  | S _, EmptyString => EmptyString
  end.

Fixpoint str_take (n : nat) (s : string) : string :=
  match n, s with
  | O, _ => EmptyString
  | S n', String a s' => String a (str_take n' s')
  | S _, EmptyString => EmptyString
  end.

(** [s[n]], NUL at and past the end *)
Definition str_at (n : nat) (s : string) : ascii :=
  match String.get n s with Some a => a | None => NUL end.

Definition str_nonempty (s : string) : bool :=
  match s with EmptyString => false | _ => true end.

Definition is_some {A} (o : option A) : bool :=
  match o with Some _ => true | None => false end.

Definition is_prefix (p s : string) : bool := String.prefix p s.

Definition code (a : ascii) : Z := Z.of_N (N_of_ascii a).

(** [isspace], [isdigit], [isxdigit] in the C locale *)
Definition isspace (a : ascii) : bool :=
  (code a =? 32) || ((9 <=? code a) && (code a <=? 13)).

Definition isdigit (a : ascii) : bool := (48 <=? code a) && (code a <=? 57).

Definition digit_val (a : ascii) : option Z :=
  let c := code a in
  if (48 <=? c) && (c <=? 57) then Some (c - 48)
  else if (97 <=? c) && (c <=? 122) then Some (c - 97 + 10)
  else if (65 <=? c) && (c <=? 90) then Some (c - 65 + 10)
  else None.

Definition isxdigit (a : ascii) : bool :=
  match digit_val a with Some d => d <? 16 | None => false end.

Fixpoint skip_space (s : string) : string :=
  match s with
  | String a s' => if isspace a then skip_space s' else s
  | EmptyString => EmptyString
  end.

(** [%u] *)
Definition print_u (n : Z) : string :=
  NilZero.string_of_uint (N.to_uint (Z.to_N n)).

(* ===================================================================== *)
(** ** Machine integers *)
(* ===================================================================== *)

Definition to_uint32 (n : Z) : Z := n mod 2 ^ 32.
Definition to_uint64 (n : Z) : Z := n mod 2 ^ 64.

(** Conversion to [int]: the value modulo 2^32 in the range of [int]. *)
Definition to_int32 (n : Z) : Z :=
  let m := n mod 2 ^ 32 in if m <? 2 ^ 31 then m else m - 2 ^ 32.

Definition ULONG_MAX : Z := 2 ^ 64 - 1.

(* ===================================================================== *)
(** ** libc: strtoul, sscanf("%*s %d") *)
(* ===================================================================== *)

(** The longest run of digits of [base]; returns the value, whether a
    digit was read and the rest. *)
Fixpoint read_digits (base acc : Z) (any : bool) (s : string) : Z * bool * string :=
  match s with
  | String a s' =>
      match digit_val a with
      | Some d => if d <? base then read_digits base (acc * base + d) true s'
                  else (acc, any, s)
      | None => (acc, any, s)
      end
  | EmptyString => (acc, any, s)
  end.

Definition read_sign (s : string) : bool * string :=
  match s with
  | String "-" s' => (true, s')
  | String "+" s' => (false, s')
  | _ => (false, s)
  end.

(** [strtoul(s, &end, 0)]: value and [end].  Without a digit the value is
    0 and [end] is [s]; a value past [ULONG_MAX] is [ULONG_MAX]; a leading
    minus negates in [unsigned long]. *)
Definition strtoul0 (s : string) : Z * string :=
  let (neg, s1) := read_sign (skip_space s) in
  let '(base, s2) :=
    match s1 with
    | String "0" (String x (String h t)) =>
        if (Ascii.eqb x "x" || Ascii.eqb x "X") && isxdigit h
        then (16, String h t) else (8, s1)
    | String "0" _ => (8, s1)
    | _ => (10, s1)
    end in
  let '(v, any, rest) := read_digits base 0 false s2 in
  if any then
    let v := if ULONG_MAX <? v then ULONG_MAX else v in
    (if neg then to_uint64 (- v) else v, rest)
  else (0, s).

Fixpoint skip_nonspace (s : string) : string :=
  match s with
  | String a s' => if isspace a then s else skip_nonspace s'
  | EmptyString => EmptyString
  end.

(** [sscanf(s, "%*s %d", &i) >= 1]: [Some n] when the conversion of [%d]
    succeeds, [n] being the number read; [i] then holds [n] as an [int]. *)
Definition sscanf_word_int (s : string) : option Z :=
  let s1 := skip_space s in
  if str_nonempty s1 then
    let s2 := skip_space (skip_nonspace s1) in
    let (neg, s3) := read_sign s2 in
    let '(v, any, _) := read_digits 10 0 false s3 in
    if any then Some (if neg then - v else v) else None
  else None.

(* ===================================================================== *)
(** ** libcurl: curl_easy_unescape, curl_easy_escape *)
(* ===================================================================== *)

Definition hex_digit (d : Z) : ascii :=
  ascii_of_N (Z.to_N (if d <? 10 then 48 + d else 65 + d - 10)).

Definition ascii_of_code (c : Z) : ascii := ascii_of_N (Z.to_N c).

(** Every [%XY] with two hexadecimal digits becomes the byte XY. *)
Fixpoint url_decode (s : string) : string :=
  match s with
  | String "%" (String h (String l t) as s') =>
      match digit_val h, digit_val l with
      | Some a, Some b =>
          if (a <? 16) && (b <? 16)
          then String (ascii_of_code (16 * a + b)) (url_decode t)
          else String "%" (url_decode s')
      | _, _ => String "%" (url_decode s')
      end
  | String a s' => String a (url_decode s')
  | EmptyString => EmptyString
  end.

(** [curl_easy_unescape(NULL, s, 0, NULL)], read back as a C string *)
Definition curl_easy_unescape (s : string) : string := cstr (url_decode s).

Definition curl_unreserved (a : ascii) : bool :=
  isdigit a
  || ((97 <=? code a) && (code a <=? 122))
  || ((65 <=? code a) && (code a <=? 90))
  || strmem a "-._~".

(** [curl_easy_escape(NULL, s, 0)] *)
Fixpoint curl_easy_escape (s : string) : string :=
  match s with
  | String a s' =>
      if curl_unreserved a then String a (curl_easy_escape s')
      else String "%" (String (hex_digit (code a / 16))
                         (String (hex_digit (code a mod 16)) (curl_easy_escape s')))
  | EmptyString => EmptyString
  end.

(** [<sys/stat.h>]: [S_ISBLK], [S_ISDIR] on [st_mode] *)
Definition S_IFMT : Z := 61440.   (* 0170000 *)
Definition S_ISBLK (mode : Z) : bool := Z.land mode S_IFMT =? 24576.  (* 0060000 *)
Definition S_ISDIR (mode : Z) : bool := Z.land mode S_IFMT =? 16384.  (* 0040000 *)

(** [<errno.h>] *)
Definition ENOENT : Z := 2.
Definition ENOTDIR : Z := 20.

(* ===================================================================== *)
(** ** What url.c takes from the rest of the repository *)
(* ===================================================================== *)

(** [slist_t]: a list of keys with optional values. *)
Definition slist_t : Type := list (string * option string).

(** Declarations of global.h, file.c and util.c that are used, not
    defined, in url.c.  [stat] is the file system as stat(2) shows it
    while a url is parsed: [None] is a failed call, [Some mode] gives
    [st_mode]. *)
Class Globals : Type := {
  (* instmode_t; inst_none is 0, see below *)
  inst_file : Z; inst_nfs : Z; inst_ftp : Z; inst_smb : Z; inst_http : Z;
  inst_tftp : Z; inst_cdrom : Z; inst_floppy : Z; inst_hd : Z; inst_dvd : Z;
  inst_slp : Z; inst_exec : Z; inst_rel : Z; inst_disk : Z;
  (* file.c *)
  file_sym2num : string -> Z;
  get_instmode_name : Z -> string;
  (* util.c *)
  short_dev : option string -> option string;
  long_dev : option string -> option string;
  slist_split : ascii -> string -> slist_t;
  (* stat(2) *)
  stat : string -> option Z;
  (* byte order of the host *)
  big_endian : bool
}.

(** Modelled from the spec: [slist_getentry] (util.c is not under src/);
    the query is an ordered list of key and value pairs whose keys need
    not be unique, and the first entry with the key is the one found. *)
Definition slist_getentry (sl : slist_t) (key : string)
  : option (string * option string) :=
  find (fun e => String.eqb (fst e) key) sl.

(** A url from [calloc] has scheme 0, and [url_set], [url_mount] and
    [url_setup_device] test [url->scheme] for being non-zero to tell a
    parsed url from none: [inst_none] is 0. *)
Definition inst_none : Z := 0.

(** [url_t] (url.h).  [is.x] is [is_x], [used.x] is [used_x]; of
    [used.server] only the name is kept. *)
Record url_t : Type := Build_url {
  str : option string;
  scheme : Z;
  server : option string;
  share : option string;
  path : option string;
  user : option string;
  password : option string;
  domain : option string;
  device : option string;
  instsys : option string;
  mount : option string;
  tmp_mount : option string;
  port : Z;
  query : slist_t;
  is_mountable : bool;
  is_network : bool;
  is_cdrom : bool;
  is_file : bool;
  is_wlan : bool;
  download : bool;
  used_device : option string;
  used_hwaddr : option string;
  used_model : option string;
  used_unique_id : option string;
  used_server : option string
}.

(** [calloc(1, sizeof *url)] *)
Definition url_calloc : url_t :=
  {| str := None; scheme := inst_none; server := None; share := None;
     path := None; user := None; password := None; domain := None;
     device := None; instsys := None; mount := None; tmp_mount := None;
     port := 0; query := []; is_mountable := false; is_network := false;
     is_cdrom := false; is_file := false; is_wlan := false;
     download := false; used_device := None; used_hwaddr := None;
     used_model := None; used_unique_id := None; used_server := None |}.

(** The part of the global [config] url.c reads or writes. *)
Record config_t : Type := Build_config {
  debug : Z;
  test : bool;
  hd_data : bool;                 (* config.hd_data != NULL *)
  net_configured : Z;             (* nc_none = 0, else configured *)
  net_device : option string;
  net_hwaddr : option string;
  net_cardname : option string;
  net_unique_id : option string;
  net_use_dhcp : bool;
  net_hostname_ok : bool;
  net_netmask_ok : bool;
  net_broadcast_ok : bool;
  win : bool;
  linemode : bool;
  proxy : option url_t            (* config.url.proxy *)
}.

Section UrlModel.

Context {G : Globals}.

(* --------------------------------------------------------------------- *)
(** *** url_set *)
(* --------------------------------------------------------------------- *)

(** Lines 361-404: scheme, the authority block [tmp], query and path. *)
Definition url_set_split (str : string)
  : Z * option string * slist_t * option string :=
  match strchr_cut ":" str with
  | Some (s0, s1) =>
      let i := file_sym2num s0 in
      let scheme := if 0 <=? i then i else inst_none in
      if scheme =? 0 then (scheme, None, [], None)
      else
        let s0 := s1 in
        let '(tmp, s0) :=
          if is_prefix "//" s0 then
            let i := strcspn (str_skip 2 s0) "/?" in
            (match i with
             | O => None
             | _ => Some (str_take i (str_skip 2 s0))
             end, str_skip (i + 2) s0)
          else (None, s0) in
        let '(s0, query) :=
          match strchr_cut "?" s0 with
          | Some (s0, s1) =>
              (s0, map (fun sl : string * option string =>
                          match strchr_cut "=" (fst sl) with
                          | Some (k, s2) => (k, Some s2)
                          | None => sl
                          end) (slist_split "&" s1))
          | None => (s0, [])
          end in
        (scheme, tmp, query,
         Some (match s0 with String "/" t => t | _ => s0 end))
  | None =>
      (* FIXME: should always be 'rel' *)
      let i := file_sym2num str in
      if 0 <=? i then (i, None, [], Some "")
      else if i =? -1 then (inst_rel, None, [], Some str)
      else (inst_none, None, [], None)
  end.

(** Lines 408-439: [domain;user:password@server:port]; yields domain,
    user, password, port and server. *)
Definition url_set_authority (tmp : string)
  : option string * option string * option string * Z * option string :=
  let s0 := tmp in
  let '(domain, s0) :=
    match strchr_cut ";" s0 with
    | Some (d, s1) => (Some d, s1)
    | None => (None, s0)
    end in
  let '(user, password, s0) :=
    match strchr_cut "@" s0 with
    | Some (up, s1) =>
        match strchr_cut ":" up with
        | Some (u, s2) => (Some u, Some s2, s1)
        | None => (Some up, None, s1)
        end
    | None => (None, None, s0)
    end in
  let '(port, s0) :=
    match strchr_cut ":" s0 with
    | Some (host, s1) =>
        (if str_nonempty s1 then
           let (u, rest) := strtoul0 s1 in
           if str_nonempty rest then 0 else to_uint32 u
         else 0, host)
    | None => (0, s0)
    end in
  (domain, user, password, port, Some s0).

(** Lines 441-450: for smb the first path element is the share. *)
Definition url_set_share (scheme : Z) (path : option string)
  : option string * option string :=
  match path with
  | Some p =>
      if scheme =? inst_smb then
        match strchr_cut "/" p with
        | Some (sh, s1) => (Some sh, Some s1)
        | None => (Some p, None)
        end
      else (None, path)
  | None => (None, path)
  end.

(** Lines 490-502, the probing loop.  [pre] is [tmp] up to and including
    the character [s0] points to, [rest] the text after it.  [None]: the
    result of [short_dev] was [NULL] and is dereferenced. *)
Fixpoint url_set_probe (fuel : nat) (pre rest : string)
    (device path : option string) : option (option string * option string) :=
  match fuel with
  | O => Some (device, path)
  | S fuel' =>
      let '(tmp, s0) :=
        match strchr_cut "/" rest with
        | Some (seg, after) => (pre ++ seg, Some after)
        | None => (pre ++ rest, None)
        end in
      match stat tmp with
      | None => Some (device, path)
      | Some mode =>
          let r :=
            if S_ISBLK mode then
              match short_dev (Some tmp) with
              | Some d => Some (Some d, s0)
              | None => None
              end
            else Some (device, path) in
          match r with
          | None => None
          | Some (device, path) =>
              if negb (S_ISDIR mode) then Some (device, path)
              else match s0 with
                   | Some after =>
                       url_set_probe fuel' (tmp ++ "/") after device path
                   | None => Some (device, path)
                   end
          end
      end
  end.

Definition disk_scheme (scheme : Z) : bool :=
  (scheme =? inst_disk) || (scheme =? inst_cdrom) || (scheme =? inst_dvd)
  || (scheme =? inst_floppy) || (scheme =? inst_hd).

(** Lines 468-506: disk/cdrom: allow path to begin with device name. *)
Definition url_set_device (scheme : Z) (path : option string)
  : option (option string * option string) :=
  match path with
  | Some p =>
      if disk_scheme scheme then
        let tmp :=
          "/" ++ (if negb (is_prefix "dev" p)
                     || (negb (Ascii.eqb (str_at 3 p) NUL)
                         && negb (Ascii.eqb (str_at 3 p) "/"))
                  then "dev/" else "") ++ p in
        url_set_probe (S (String.length tmp)) "/" (str_skip 1 tmp) None path
      else Some (None, path)
  | None => Some (None, path)
  end.

(** Lines 517-547 *)
Definition mountable_scheme (scheme : Z) : bool :=
  (scheme =? inst_file) || (scheme =? inst_nfs) || (scheme =? inst_smb)
  || (scheme =? inst_cdrom) || (scheme =? inst_floppy) || (scheme =? inst_hd)
  || (scheme =? inst_disk) || (scheme =? inst_dvd) || (scheme =? inst_exec).

Definition network_scheme (scheme : Z) : bool :=
  (scheme =? inst_slp) || (scheme =? inst_nfs) || (scheme =? inst_ftp)
  || (scheme =? inst_smb) || (scheme =? inst_http) || (scheme =? inst_tftp).

Definition cdrom_scheme (scheme : Z) : bool :=
  (scheme =? inst_cdrom) || (scheme =? inst_dvd).

(** Lines 549-559: ensure leading "/" if mountable. *)
Definition url_set_slash (mountable : bool) (path : option string)
  : option string :=
  if mountable then
    match path with
    | Some p => match p with
                | String "/" _ => Some p
                | _ => Some ("/" ++ p)
                end
    | None => Some "/"
    end
  else path.

(** [url_set(str)].  The result is [None] where the C code dereferences a
    null pointer ([short_dev] returning [NULL], as for a [device] key
    without a value); otherwise the url is returned, never [NULL]. *)
Definition url_set (str : option string) : option url_t :=
  match str with
  | None => Some url_calloc
  | Some str =>
      let str := cstr str in
      let '(scheme, tmp, query, path) := url_set_split str in
      let '(domain, user, password, port, server) :=
        match tmp with
        | Some tmp => url_set_authority tmp
        | None => (None, None, None, 0, None)
        end in
      let '(share, path) := url_set_share scheme path in
      (* unescape strings *)
      let server := option_map curl_easy_unescape server in
      let share := option_map curl_easy_unescape share in
      let path := option_map curl_easy_unescape path in
      let user := option_map curl_easy_unescape user in
      let password := option_map curl_easy_unescape password in
      let domain := option_map curl_easy_unescape domain in
      match url_set_device scheme path with
      | None => None
      | Some (device, path) =>
          let device' :=
            match slist_getentry query "device" with
            | Some (_, value) =>
                match short_dev value with
                | Some s0 => Some (if str_nonempty s0 then Some s0 else None)
                | None => None
                end
            | None => Some device
            end in
          match device' with
          | None => None
          | Some device =>
              let instsys :=
                match slist_getentry query "instsys" with
                | Some (_, value) => value
                | None => None
                end in
              let mountable := mountable_scheme scheme in
              Some {| str := Some str; scheme := scheme; server := server;
                      share := share;
                      path := url_set_slash mountable path;
                      user := user; password := password; domain := domain;
                      device := device; instsys := instsys;
                      mount := None; tmp_mount := None; port := port;
                      query := query;
                      is_mountable := mountable;
                      is_network := network_scheme scheme;
                      is_cdrom := cdrom_scheme scheme;
                      is_file := false; is_wlan := false; download := false;
                      used_device := None; used_hwaddr := None;
                      used_model := None; used_unique_id := None;
                      used_server := None |}
          end
      end
  end.

(* --------------------------------------------------------------------- *)
(** *** url_print *)
(* --------------------------------------------------------------------- *)

Definition opt_str (f : string -> string) (o : option string) : string :=
  match o with Some s => f s | None => "" end.

(** [%s] of a pointer that may be [NULL] *)
Definition print_s (o : option string) : string :=
  match o with Some s => s | None => "(null)" end.

(** [url_print(url, format)]; format 0: for logging, 1: without query
    part, 2: with device. *)
Definition url_print (config : config_t) (url : option url_t) (format : Z)
  : option string :=
  match url with
  | None => None
  | Some url =>
      let buf := get_instmode_name (scheme url) ++ ":" in
      let buf :=
        if is_some (domain url) || is_some (user url) || is_some (password url)
           || is_some (server url) || negb (port url =? 0)
        then
          buf ++ "//"
          ++ opt_str (fun d => d ++ ";") (domain url)
          ++ opt_str curl_easy_escape (user url)
          ++ opt_str (fun p => ":" ++ curl_easy_escape p) (password url)
          ++ (if is_some (user url) || is_some (password url) then "@" else "")
          ++ opt_str (fun s => s) (server url)
          ++ (if negb (port url =? 0) then ":" ++ print_u (port url) else "")
        else buf in
      let buf := buf ++ opt_str (fun sh => "/" ++ sh) (share url) in
      let buf :=
        match path url with
        | Some p =>
            if negb (scheme url =? inst_slp) || str_nonempty p then
              buf ++ "/"
              ++ (if (scheme url =? inst_ftp) && is_prefix "/" p
                  then "%2F" else "")
              ++ (match p with String "/" t => t | _ => p end)
            else buf
        | None => buf
        end in
      let (buf, q) :=
        if (format =? 0) || (format =? 2) then
          match (match used_device url with
                 | Some s => Some s
                 | None => device url
                 end) with
          | Some s => (buf ++ "?device=" ++ print_s (short_dev (Some s)), true)
          | None => (buf, false)
          end
        else (buf, false) in
      let buf :=
        if format =? 0 then
          match used_hwaddr url with
          | Some h =>
              if 2 <=? debug config
              then buf ++ (if q then "&" else "?") ++ "hwaddr=" ++ h
              else buf
          | None => buf
          end
        else buf in
      Some buf
  end.

End UrlModel.

(* ===================================================================== *)
(** ** Record updates of [url_t] *)
(* ===================================================================== *)

Definition set_mount (v : option string) (x : url_t) : url_t :=
  {| str := str x; scheme := scheme x; server := server x; share := share x;
     path := path x; user := user x; password := password x; domain :=
     domain x; device := device x; instsys := instsys x; mount := v;
     tmp_mount := tmp_mount x; port := port x; query := query x;
     is_mountable := is_mountable x; is_network := is_network x; is_cdrom :=
     is_cdrom x; is_file := is_file x; is_wlan := is_wlan x; download :=
     download x; used_device := used_device x; used_hwaddr := used_hwaddr x;
     used_model := used_model x; used_unique_id := used_unique_id x;
     used_server := used_server x |}.

Definition set_tmp_mount (v : option string) (x : url_t) : url_t :=
  {| str := str x; scheme := scheme x; server := server x; share := share x;
     path := path x; user := user x; password := password x; domain :=
     domain x; device := device x; instsys := instsys x; mount := mount x;
     tmp_mount := v; port := port x; query := query x; is_mountable :=
     is_mountable x; is_network := is_network x; is_cdrom := is_cdrom x;
     is_file := is_file x; is_wlan := is_wlan x; download := download x;
     used_device := used_device x; used_hwaddr := used_hwaddr x; used_model
     := used_model x; used_unique_id := used_unique_id x; used_server :=
     used_server x |}.

Definition set_is_cdrom (v : bool) (x : url_t) : url_t :=
  {| str := str x; scheme := scheme x; server := server x; share := share x;
     path := path x; user := user x; password := password x; domain :=
     domain x; device := device x; instsys := instsys x; mount := mount x;
     tmp_mount := tmp_mount x; port := port x; query := query x;
     is_mountable := is_mountable x; is_network := is_network x; is_cdrom :=
     v; is_file := is_file x; is_wlan := is_wlan x; download := download x;
     used_device := used_device x; used_hwaddr := used_hwaddr x; used_model
     := used_model x; used_unique_id := used_unique_id x; used_server :=
     used_server x |}.

Definition set_is_file (v : bool) (x : url_t) : url_t :=
  {| str := str x; scheme := scheme x; server := server x; share := share x;
     path := path x; user := user x; password := password x; domain :=
     domain x; device := device x; instsys := instsys x; mount := mount x;
     tmp_mount := tmp_mount x; port := port x; query := query x;
     is_mountable := is_mountable x; is_network := is_network x; is_cdrom :=
     is_cdrom x; is_file := v; is_wlan := is_wlan x; download := download x;
     used_device := used_device x; used_hwaddr := used_hwaddr x; used_model
     := used_model x; used_unique_id := used_unique_id x; used_server :=
     used_server x |}.

Definition set_is_wlan (v : bool) (x : url_t) : url_t :=
  {| str := str x; scheme := scheme x; server := server x; share := share x;
     path := path x; user := user x; password := password x; domain :=
     domain x; device := device x; instsys := instsys x; mount := mount x;
     tmp_mount := tmp_mount x; port := port x; query := query x;
     is_mountable := is_mountable x; is_network := is_network x; is_cdrom :=
     is_cdrom x; is_file := is_file x; is_wlan := v; download := download x;
     used_device := used_device x; used_hwaddr := used_hwaddr x; used_model
     := used_model x; used_unique_id := used_unique_id x; used_server :=
     used_server x |}.

Definition set_used_device (v : option string) (x : url_t) : url_t :=
  {| str := str x; scheme := scheme x; server := server x; share := share x;
     path := path x; user := user x; password := password x; domain :=
     domain x; device := device x; instsys := instsys x; mount := mount x;
     tmp_mount := tmp_mount x; port := port x; query := query x;
     is_mountable := is_mountable x; is_network := is_network x; is_cdrom :=
     is_cdrom x; is_file := is_file x; is_wlan := is_wlan x; download :=
     download x; used_device := v; used_hwaddr := used_hwaddr x; used_model
     := used_model x; used_unique_id := used_unique_id x; used_server :=
     used_server x |}.

Definition set_used_hwaddr (v : option string) (x : url_t) : url_t :=
  {| str := str x; scheme := scheme x; server := server x; share := share x;
     path := path x; user := user x; password := password x; domain :=
     domain x; device := device x; instsys := instsys x; mount := mount x;
     tmp_mount := tmp_mount x; port := port x; query := query x;
     is_mountable := is_mountable x; is_network := is_network x; is_cdrom :=
     is_cdrom x; is_file := is_file x; is_wlan := is_wlan x; download :=
     download x; used_device := used_device x; used_hwaddr := v; used_model
     := used_model x; used_unique_id := used_unique_id x; used_server :=
     used_server x |}.

Definition set_used_model (v : option string) (x : url_t) : url_t :=
  {| str := str x; scheme := scheme x; server := server x; share := share x;
     path := path x; user := user x; password := password x; domain :=
     domain x; device := device x; instsys := instsys x; mount := mount x;
     tmp_mount := tmp_mount x; port := port x; query := query x;
     is_mountable := is_mountable x; is_network := is_network x; is_cdrom :=
     is_cdrom x; is_file := is_file x; is_wlan := is_wlan x; download :=
     download x; used_device := used_device x; used_hwaddr := used_hwaddr x;
     used_model := v; used_unique_id := used_unique_id x; used_server :=
     used_server x |}.

Definition set_used_unique_id (v : option string) (x : url_t) : url_t :=
  {| str := str x; scheme := scheme x; server := server x; share := share x;
     path := path x; user := user x; password := password x; domain :=
     domain x; device := device x; instsys := instsys x; mount := mount x;
     tmp_mount := tmp_mount x; port := port x; query := query x;
     is_mountable := is_mountable x; is_network := is_network x; is_cdrom :=
     is_cdrom x; is_file := is_file x; is_wlan := is_wlan x; download :=
     download x; used_device := used_device x; used_hwaddr := used_hwaddr x;
     used_model := used_model x; used_unique_id := v; used_server :=
     used_server x |}.

Definition set_used_server (v : option string) (x : url_t) : url_t :=
  {| str := str x; scheme := scheme x; server := server x; share := share x;
     path := path x; user := user x; password := password x; domain :=
     domain x; device := device x; instsys := instsys x; mount := mount x;
     tmp_mount := tmp_mount x; port := port x; query := query x;
     is_mountable := is_mountable x; is_network := is_network x; is_cdrom :=
     is_cdrom x; is_file := is_file x; is_wlan := is_wlan x; download :=
     download x; used_device := used_device x; used_hwaddr := used_hwaddr x;
     used_model := used_model x; used_unique_id := used_unique_id x;
     used_server := v |}.

(* ===================================================================== *)
(** ** The transfer state [url_data_t] (url.h) *)
(* ===================================================================== *)

Record url_data_t : Type := Build_url_data {
  url : option url_t;
  file_name : option string;
  err : Z;                         (* int *)
  err_buf : string;
  curl_err_buf : string;
  err_buf_len : Z;                 (* unsigned *)
  p_now : Z;                       (* unsigned *)
  p_total : Z;                     (* unsigned *)
  zp_now : Z;                      (* unsigned *)
  zp_total : Z;                    (* unsigned *)
  flush : bool;
  cramfs : bool;
  unzip : bool;
  gzip : bool;
  label_shown : bool;
  file_opened : bool;
  image_size : Z;                  (* unsigned *)
  label : option string;
  percent : Z;                     (* int *)
  pipe_fd : Z;                     (* int *)
  tmp_file : option string;
  buf_len : Z;                     (* buf.len *)
  buf_max : Z;                     (* buf.max *)
  buf_data : list Byte.byte;            (* buf.data[0 .. buf.len) *)
  f : bool;                        (* f != NULL *)
  progress : bool;                 (* progress != NULL, then url_progress *)
  orig_name : option string;
  sha1_ctx : list Byte.byte;            (* the bytes digested so far *)
  sha1 : option string
}.

Definition set_url (v : option url_t) (x : url_data_t) : url_data_t :=
  {| url := v; file_name := file_name x; err := err x; err_buf := err_buf x;
     curl_err_buf := curl_err_buf x; err_buf_len := err_buf_len x; p_now :=
     p_now x; p_total := p_total x; zp_now := zp_now x; zp_total := zp_total
     x; flush := flush x; cramfs := cramfs x; unzip := unzip x; gzip := gzip
     x; label_shown := label_shown x; file_opened := file_opened x;
     image_size := image_size x; label := label x; percent := percent x;
     pipe_fd := pipe_fd x; tmp_file := tmp_file x; buf_len := buf_len x;
     buf_max := buf_max x; buf_data := buf_data x; f := f x; progress :=
     progress x; orig_name := orig_name x; sha1_ctx := sha1_ctx x; sha1 :=
     sha1 x |}.

Definition set_file_name (v : option string) (x : url_data_t) : url_data_t :=
  {| url := url x; file_name := v; err := err x; err_buf := err_buf x;
     curl_err_buf := curl_err_buf x; err_buf_len := err_buf_len x; p_now :=
     p_now x; p_total := p_total x; zp_now := zp_now x; zp_total := zp_total
     x; flush := flush x; cramfs := cramfs x; unzip := unzip x; gzip := gzip
     x; label_shown := label_shown x; file_opened := file_opened x;
     image_size := image_size x; label := label x; percent := percent x;
     pipe_fd := pipe_fd x; tmp_file := tmp_file x; buf_len := buf_len x;
     buf_max := buf_max x; buf_data := buf_data x; f := f x; progress :=
     progress x; orig_name := orig_name x; sha1_ctx := sha1_ctx x; sha1 :=
     sha1 x |}.

Definition set_unzip (v : bool) (x : url_data_t) : url_data_t :=
  {| url := url x; file_name := file_name x; err := err x; err_buf :=
     err_buf x; curl_err_buf := curl_err_buf x; err_buf_len := err_buf_len
     x; p_now := p_now x; p_total := p_total x; zp_now := zp_now x; zp_total
     := zp_total x; flush := flush x; cramfs := cramfs x; unzip := v; gzip
     := gzip x; label_shown := label_shown x; file_opened := file_opened x;
     image_size := image_size x; label := label x; percent := percent x;
     pipe_fd := pipe_fd x; tmp_file := tmp_file x; buf_len := buf_len x;
     buf_max := buf_max x; buf_data := buf_data x; f := f x; progress :=
     progress x; orig_name := orig_name x; sha1_ctx := sha1_ctx x; sha1 :=
     sha1 x |}.

Definition set_progress (v : bool) (x : url_data_t) : url_data_t :=
  {| url := url x; file_name := file_name x; err := err x; err_buf :=
     err_buf x; curl_err_buf := curl_err_buf x; err_buf_len := err_buf_len
     x; p_now := p_now x; p_total := p_total x; zp_now := zp_now x; zp_total
     := zp_total x; flush := flush x; cramfs := cramfs x; unzip := unzip x;
     gzip := gzip x; label_shown := label_shown x; file_opened :=
     file_opened x; image_size := image_size x; label := label x; percent :=
     percent x; pipe_fd := pipe_fd x; tmp_file := tmp_file x; buf_len :=
     buf_len x; buf_max := buf_max x; buf_data := buf_data x; f := f x;
     progress := v; orig_name := orig_name x; sha1_ctx := sha1_ctx x; sha1
     := sha1 x |}.

Definition set_label (v : option string) (x : url_data_t) : url_data_t :=
  {| url := url x; file_name := file_name x; err := err x; err_buf :=
     err_buf x; curl_err_buf := curl_err_buf x; err_buf_len := err_buf_len
     x; p_now := p_now x; p_total := p_total x; zp_now := zp_now x; zp_total
     := zp_total x; flush := flush x; cramfs := cramfs x; unzip := unzip x;
     gzip := gzip x; label_shown := label_shown x; file_opened :=
     file_opened x; image_size := image_size x; label := v; percent :=
     percent x; pipe_fd := pipe_fd x; tmp_file := tmp_file x; buf_len :=
     buf_len x; buf_max := buf_max x; buf_data := buf_data x; f := f x;
     progress := progress x; orig_name := orig_name x; sha1_ctx := sha1_ctx
     x; sha1 := sha1 x |}.

Definition set_err (v : Z) (x : url_data_t) : url_data_t :=
  {| url := url x; file_name := file_name x; err := v; err_buf := err_buf x;
     curl_err_buf := curl_err_buf x; err_buf_len := err_buf_len x; p_now :=
     p_now x; p_total := p_total x; zp_now := zp_now x; zp_total := zp_total
     x; flush := flush x; cramfs := cramfs x; unzip := unzip x; gzip := gzip
     x; label_shown := label_shown x; file_opened := file_opened x;
     image_size := image_size x; label := label x; percent := percent x;
     pipe_fd := pipe_fd x; tmp_file := tmp_file x; buf_len := buf_len x;
     buf_max := buf_max x; buf_data := buf_data x; f := f x; progress :=
     progress x; orig_name := orig_name x; sha1_ctx := sha1_ctx x; sha1 :=
     sha1 x |}.

Definition set_err_buf (v : string) (x : url_data_t) : url_data_t :=
  {| url := url x; file_name := file_name x; err := err x; err_buf := v;
     curl_err_buf := curl_err_buf x; err_buf_len := err_buf_len x; p_now :=
     p_now x; p_total := p_total x; zp_now := zp_now x; zp_total := zp_total
     x; flush := flush x; cramfs := cramfs x; unzip := unzip x; gzip := gzip
     x; label_shown := label_shown x; file_opened := file_opened x;
     image_size := image_size x; label := label x; percent := percent x;
     pipe_fd := pipe_fd x; tmp_file := tmp_file x; buf_len := buf_len x;
     buf_max := buf_max x; buf_data := buf_data x; f := f x; progress :=
     progress x; orig_name := orig_name x; sha1_ctx := sha1_ctx x; sha1 :=
     sha1 x |}.

Definition set_curl_err_buf (v : string) (x : url_data_t) : url_data_t :=
  {| url := url x; file_name := file_name x; err := err x; err_buf :=
     err_buf x; curl_err_buf := v; err_buf_len := err_buf_len x; p_now :=
     p_now x; p_total := p_total x; zp_now := zp_now x; zp_total := zp_total
     x; flush := flush x; cramfs := cramfs x; unzip := unzip x; gzip := gzip
     x; label_shown := label_shown x; file_opened := file_opened x;
     image_size := image_size x; label := label x; percent := percent x;
     pipe_fd := pipe_fd x; tmp_file := tmp_file x; buf_len := buf_len x;
     buf_max := buf_max x; buf_data := buf_data x; f := f x; progress :=
     progress x; orig_name := orig_name x; sha1_ctx := sha1_ctx x; sha1 :=
     sha1 x |}.

Definition set_p_now (v : Z) (x : url_data_t) : url_data_t :=
  {| url := url x; file_name := file_name x; err := err x; err_buf :=
     err_buf x; curl_err_buf := curl_err_buf x; err_buf_len := err_buf_len
     x; p_now := v; p_total := p_total x; zp_now := zp_now x; zp_total :=
     zp_total x; flush := flush x; cramfs := cramfs x; unzip := unzip x;
     gzip := gzip x; label_shown := label_shown x; file_opened :=
     file_opened x; image_size := image_size x; label := label x; percent :=
     percent x; pipe_fd := pipe_fd x; tmp_file := tmp_file x; buf_len :=
     buf_len x; buf_max := buf_max x; buf_data := buf_data x; f := f x;
     progress := progress x; orig_name := orig_name x; sha1_ctx := sha1_ctx
     x; sha1 := sha1 x |}.

Definition set_p_total (v : Z) (x : url_data_t) : url_data_t :=
  {| url := url x; file_name := file_name x; err := err x; err_buf :=
     err_buf x; curl_err_buf := curl_err_buf x; err_buf_len := err_buf_len
     x; p_now := p_now x; p_total := v; zp_now := zp_now x; zp_total :=
     zp_total x; flush := flush x; cramfs := cramfs x; unzip := unzip x;
     gzip := gzip x; label_shown := label_shown x; file_opened :=
     file_opened x; image_size := image_size x; label := label x; percent :=
     percent x; pipe_fd := pipe_fd x; tmp_file := tmp_file x; buf_len :=
     buf_len x; buf_max := buf_max x; buf_data := buf_data x; f := f x;
     progress := progress x; orig_name := orig_name x; sha1_ctx := sha1_ctx
     x; sha1 := sha1 x |}.

Definition set_zp_now (v : Z) (x : url_data_t) : url_data_t :=
  {| url := url x; file_name := file_name x; err := err x; err_buf :=
     err_buf x; curl_err_buf := curl_err_buf x; err_buf_len := err_buf_len
     x; p_now := p_now x; p_total := p_total x; zp_now := v; zp_total :=
     zp_total x; flush := flush x; cramfs := cramfs x; unzip := unzip x;
     gzip := gzip x; label_shown := label_shown x; file_opened :=
     file_opened x; image_size := image_size x; label := label x; percent :=
     percent x; pipe_fd := pipe_fd x; tmp_file := tmp_file x; buf_len :=
     buf_len x; buf_max := buf_max x; buf_data := buf_data x; f := f x;
     progress := progress x; orig_name := orig_name x; sha1_ctx := sha1_ctx
     x; sha1 := sha1 x |}.

Definition set_zp_total (v : Z) (x : url_data_t) : url_data_t :=
  {| url := url x; file_name := file_name x; err := err x; err_buf :=
     err_buf x; curl_err_buf := curl_err_buf x; err_buf_len := err_buf_len
     x; p_now := p_now x; p_total := p_total x; zp_now := zp_now x; zp_total
     := v; flush := flush x; cramfs := cramfs x; unzip := unzip x; gzip :=
     gzip x; label_shown := label_shown x; file_opened := file_opened x;
     image_size := image_size x; label := label x; percent := percent x;
     pipe_fd := pipe_fd x; tmp_file := tmp_file x; buf_len := buf_len x;
     buf_max := buf_max x; buf_data := buf_data x; f := f x; progress :=
     progress x; orig_name := orig_name x; sha1_ctx := sha1_ctx x; sha1 :=
     sha1 x |}.

Definition set_flush (v : bool) (x : url_data_t) : url_data_t :=
  {| url := url x; file_name := file_name x; err := err x; err_buf :=
     err_buf x; curl_err_buf := curl_err_buf x; err_buf_len := err_buf_len
     x; p_now := p_now x; p_total := p_total x; zp_now := zp_now x; zp_total
     := zp_total x; flush := v; cramfs := cramfs x; unzip := unzip x; gzip
     := gzip x; label_shown := label_shown x; file_opened := file_opened x;
     image_size := image_size x; label := label x; percent := percent x;
     pipe_fd := pipe_fd x; tmp_file := tmp_file x; buf_len := buf_len x;
     buf_max := buf_max x; buf_data := buf_data x; f := f x; progress :=
     progress x; orig_name := orig_name x; sha1_ctx := sha1_ctx x; sha1 :=
     sha1 x |}.

Definition set_cramfs (v : bool) (x : url_data_t) : url_data_t :=
  {| url := url x; file_name := file_name x; err := err x; err_buf :=
     err_buf x; curl_err_buf := curl_err_buf x; err_buf_len := err_buf_len
     x; p_now := p_now x; p_total := p_total x; zp_now := zp_now x; zp_total
     := zp_total x; flush := flush x; cramfs := v; unzip := unzip x; gzip :=
     gzip x; label_shown := label_shown x; file_opened := file_opened x;
     image_size := image_size x; label := label x; percent := percent x;
     pipe_fd := pipe_fd x; tmp_file := tmp_file x; buf_len := buf_len x;
     buf_max := buf_max x; buf_data := buf_data x; f := f x; progress :=
     progress x; orig_name := orig_name x; sha1_ctx := sha1_ctx x; sha1 :=
     sha1 x |}.

Definition set_gzip (v : bool) (x : url_data_t) : url_data_t :=
  {| url := url x; file_name := file_name x; err := err x; err_buf :=
     err_buf x; curl_err_buf := curl_err_buf x; err_buf_len := err_buf_len
     x; p_now := p_now x; p_total := p_total x; zp_now := zp_now x; zp_total
     := zp_total x; flush := flush x; cramfs := cramfs x; unzip := unzip x;
     gzip := v; label_shown := label_shown x; file_opened := file_opened x;
     image_size := image_size x; label := label x; percent := percent x;
     pipe_fd := pipe_fd x; tmp_file := tmp_file x; buf_len := buf_len x;
     buf_max := buf_max x; buf_data := buf_data x; f := f x; progress :=
     progress x; orig_name := orig_name x; sha1_ctx := sha1_ctx x; sha1 :=
     sha1 x |}.

Definition set_label_shown (v : bool) (x : url_data_t) : url_data_t :=
  {| url := url x; file_name := file_name x; err := err x; err_buf :=
     err_buf x; curl_err_buf := curl_err_buf x; err_buf_len := err_buf_len
     x; p_now := p_now x; p_total := p_total x; zp_now := zp_now x; zp_total
     := zp_total x; flush := flush x; cramfs := cramfs x; unzip := unzip x;
     gzip := gzip x; label_shown := v; file_opened := file_opened x;
     image_size := image_size x; label := label x; percent := percent x;
     pipe_fd := pipe_fd x; tmp_file := tmp_file x; buf_len := buf_len x;
     buf_max := buf_max x; buf_data := buf_data x; f := f x; progress :=
     progress x; orig_name := orig_name x; sha1_ctx := sha1_ctx x; sha1 :=
     sha1 x |}.

Definition set_file_opened (v : bool) (x : url_data_t) : url_data_t :=
  {| url := url x; file_name := file_name x; err := err x; err_buf :=
     err_buf x; curl_err_buf := curl_err_buf x; err_buf_len := err_buf_len
     x; p_now := p_now x; p_total := p_total x; zp_now := zp_now x; zp_total
     := zp_total x; flush := flush x; cramfs := cramfs x; unzip := unzip x;
     gzip := gzip x; label_shown := label_shown x; file_opened := v;
     image_size := image_size x; label := label x; percent := percent x;
     pipe_fd := pipe_fd x; tmp_file := tmp_file x; buf_len := buf_len x;
     buf_max := buf_max x; buf_data := buf_data x; f := f x; progress :=
     progress x; orig_name := orig_name x; sha1_ctx := sha1_ctx x; sha1 :=
     sha1 x |}.

Definition set_image_size (v : Z) (x : url_data_t) : url_data_t :=
  {| url := url x; file_name := file_name x; err := err x; err_buf :=
     err_buf x; curl_err_buf := curl_err_buf x; err_buf_len := err_buf_len
     x; p_now := p_now x; p_total := p_total x; zp_now := zp_now x; zp_total
     := zp_total x; flush := flush x; cramfs := cramfs x; unzip := unzip x;
     gzip := gzip x; label_shown := label_shown x; file_opened :=
     file_opened x; image_size := v; label := label x; percent := percent x;
     pipe_fd := pipe_fd x; tmp_file := tmp_file x; buf_len := buf_len x;
     buf_max := buf_max x; buf_data := buf_data x; f := f x; progress :=
     progress x; orig_name := orig_name x; sha1_ctx := sha1_ctx x; sha1 :=
     sha1 x |}.

Definition set_percent (v : Z) (x : url_data_t) : url_data_t :=
  {| url := url x; file_name := file_name x; err := err x; err_buf :=
     err_buf x; curl_err_buf := curl_err_buf x; err_buf_len := err_buf_len
     x; p_now := p_now x; p_total := p_total x; zp_now := zp_now x; zp_total
     := zp_total x; flush := flush x; cramfs := cramfs x; unzip := unzip x;
     gzip := gzip x; label_shown := label_shown x; file_opened :=
     file_opened x; image_size := image_size x; label := label x; percent :=
     v; pipe_fd := pipe_fd x; tmp_file := tmp_file x; buf_len := buf_len x;
     buf_max := buf_max x; buf_data := buf_data x; f := f x; progress :=
     progress x; orig_name := orig_name x; sha1_ctx := sha1_ctx x; sha1 :=
     sha1 x |}.

Definition set_pipe_fd (v : Z) (x : url_data_t) : url_data_t :=
  {| url := url x; file_name := file_name x; err := err x; err_buf :=
     err_buf x; curl_err_buf := curl_err_buf x; err_buf_len := err_buf_len
     x; p_now := p_now x; p_total := p_total x; zp_now := zp_now x; zp_total
     := zp_total x; flush := flush x; cramfs := cramfs x; unzip := unzip x;
     gzip := gzip x; label_shown := label_shown x; file_opened :=
     file_opened x; image_size := image_size x; label := label x; percent :=
     percent x; pipe_fd := v; tmp_file := tmp_file x; buf_len := buf_len x;
     buf_max := buf_max x; buf_data := buf_data x; f := f x; progress :=
     progress x; orig_name := orig_name x; sha1_ctx := sha1_ctx x; sha1 :=
     sha1 x |}.

Definition set_tmp_file (v : option string) (x : url_data_t) : url_data_t :=
  {| url := url x; file_name := file_name x; err := err x; err_buf :=
     err_buf x; curl_err_buf := curl_err_buf x; err_buf_len := err_buf_len
     x; p_now := p_now x; p_total := p_total x; zp_now := zp_now x; zp_total
     := zp_total x; flush := flush x; cramfs := cramfs x; unzip := unzip x;
     gzip := gzip x; label_shown := label_shown x; file_opened :=
     file_opened x; image_size := image_size x; label := label x; percent :=
     percent x; pipe_fd := pipe_fd x; tmp_file := v; buf_len := buf_len x;
     buf_max := buf_max x; buf_data := buf_data x; f := f x; progress :=
     progress x; orig_name := orig_name x; sha1_ctx := sha1_ctx x; sha1 :=
     sha1 x |}.

Definition set_buf_len (v : Z) (x : url_data_t) : url_data_t :=
  {| url := url x; file_name := file_name x; err := err x; err_buf :=
     err_buf x; curl_err_buf := curl_err_buf x; err_buf_len := err_buf_len
     x; p_now := p_now x; p_total := p_total x; zp_now := zp_now x; zp_total
     := zp_total x; flush := flush x; cramfs := cramfs x; unzip := unzip x;
     gzip := gzip x; label_shown := label_shown x; file_opened :=
     file_opened x; image_size := image_size x; label := label x; percent :=
     percent x; pipe_fd := pipe_fd x; tmp_file := tmp_file x; buf_len := v;
     buf_max := buf_max x; buf_data := buf_data x; f := f x; progress :=
     progress x; orig_name := orig_name x; sha1_ctx := sha1_ctx x; sha1 :=
     sha1 x |}.

Definition set_buf_max (v : Z) (x : url_data_t) : url_data_t :=
  {| url := url x; file_name := file_name x; err := err x; err_buf :=
     err_buf x; curl_err_buf := curl_err_buf x; err_buf_len := err_buf_len
     x; p_now := p_now x; p_total := p_total x; zp_now := zp_now x; zp_total
     := zp_total x; flush := flush x; cramfs := cramfs x; unzip := unzip x;
     gzip := gzip x; label_shown := label_shown x; file_opened :=
     file_opened x; image_size := image_size x; label := label x; percent :=
     percent x; pipe_fd := pipe_fd x; tmp_file := tmp_file x; buf_len :=
     buf_len x; buf_max := v; buf_data := buf_data x; f := f x; progress :=
     progress x; orig_name := orig_name x; sha1_ctx := sha1_ctx x; sha1 :=
     sha1 x |}.

Definition set_buf_data (v : list Byte.byte) (x : url_data_t) : url_data_t :=
  {| url := url x; file_name := file_name x; err := err x; err_buf :=
     err_buf x; curl_err_buf := curl_err_buf x; err_buf_len := err_buf_len
     x; p_now := p_now x; p_total := p_total x; zp_now := zp_now x; zp_total
     := zp_total x; flush := flush x; cramfs := cramfs x; unzip := unzip x;
     gzip := gzip x; label_shown := label_shown x; file_opened :=
     file_opened x; image_size := image_size x; label := label x; percent :=
     percent x; pipe_fd := pipe_fd x; tmp_file := tmp_file x; buf_len :=
     buf_len x; buf_max := buf_max x; buf_data := v; f := f x; progress :=
     progress x; orig_name := orig_name x; sha1_ctx := sha1_ctx x; sha1 :=
     sha1 x |}.

Definition set_f (v : bool) (x : url_data_t) : url_data_t :=
  {| url := url x; file_name := file_name x; err := err x; err_buf :=
     err_buf x; curl_err_buf := curl_err_buf x; err_buf_len := err_buf_len
     x; p_now := p_now x; p_total := p_total x; zp_now := zp_now x; zp_total
     := zp_total x; flush := flush x; cramfs := cramfs x; unzip := unzip x;
     gzip := gzip x; label_shown := label_shown x; file_opened :=
     file_opened x; image_size := image_size x; label := label x; percent :=
     percent x; pipe_fd := pipe_fd x; tmp_file := tmp_file x; buf_len :=
     buf_len x; buf_max := buf_max x; buf_data := buf_data x; f := v;
     progress := progress x; orig_name := orig_name x; sha1_ctx := sha1_ctx
     x; sha1 := sha1 x |}.

Definition set_orig_name (v : option string) (x : url_data_t) : url_data_t :=
  {| url := url x; file_name := file_name x; err := err x; err_buf :=
     err_buf x; curl_err_buf := curl_err_buf x; err_buf_len := err_buf_len
     x; p_now := p_now x; p_total := p_total x; zp_now := zp_now x; zp_total
     := zp_total x; flush := flush x; cramfs := cramfs x; unzip := unzip x;
     gzip := gzip x; label_shown := label_shown x; file_opened :=
     file_opened x; image_size := image_size x; label := label x; percent :=
     percent x; pipe_fd := pipe_fd x; tmp_file := tmp_file x; buf_len :=
     buf_len x; buf_max := buf_max x; buf_data := buf_data x; f := f x;
     progress := progress x; orig_name := v; sha1_ctx := sha1_ctx x; sha1 :=
     sha1 x |}.

Definition set_sha1_ctx (v : list Byte.byte) (x : url_data_t) : url_data_t :=
  {| url := url x; file_name := file_name x; err := err x; err_buf :=
     err_buf x; curl_err_buf := curl_err_buf x; err_buf_len := err_buf_len
     x; p_now := p_now x; p_total := p_total x; zp_now := zp_now x; zp_total
     := zp_total x; flush := flush x; cramfs := cramfs x; unzip := unzip x;
     gzip := gzip x; label_shown := label_shown x; file_opened :=
     file_opened x; image_size := image_size x; label := label x; percent :=
     percent x; pipe_fd := pipe_fd x; tmp_file := tmp_file x; buf_len :=
     buf_len x; buf_max := buf_max x; buf_data := buf_data x; f := f x;
     progress := progress x; orig_name := orig_name x; sha1_ctx := v; sha1
     := sha1 x |}.

Definition set_sha1 (v : option string) (x : url_data_t) : url_data_t :=
  {| url := url x; file_name := file_name x; err := err x; err_buf :=
     err_buf x; curl_err_buf := curl_err_buf x; err_buf_len := err_buf_len
     x; p_now := p_now x; p_total := p_total x; zp_now := zp_now x; zp_total
     := zp_total x; flush := flush x; cramfs := cramfs x; unzip := unzip x;
     gzip := gzip x; label_shown := label_shown x; file_opened :=
     file_opened x; image_size := image_size x; label := label x; percent :=
     percent x; pipe_fd := pipe_fd x; tmp_file := tmp_file x; buf_len :=
     buf_len x; buf_max := buf_max x; buf_data := buf_data x; f := f x;
     progress := progress x; orig_name := orig_name x; sha1_ctx := sha1_ctx
     x; sha1 := v |}.

(** [url_data_new()] without the allocation of the curl handle *)
Definition CURL_ERROR_SIZE : Z := 256.

Definition url_data_new : url_data_t :=
  {| url := None; file_name := None; err := 0; err_buf := "";
     curl_err_buf := ""; err_buf_len := CURL_ERROR_SIZE;
     p_now := 0; p_total := 0; zp_now := 0; zp_total := 0;
     flush := false; cramfs := false; unzip := false; gzip := false;
     label_shown := false; file_opened := false; image_size := 0;
     label := None; percent := -1; pipe_fd := -1; tmp_file := None;
     buf_len := 0; buf_max := 256; buf_data := []; f := false;
     progress := false; orig_name := None; sha1_ctx := []; sha1 := None |}.

(* ===================================================================== *)
(** ** The process state and the operating system *)
(* ===================================================================== *)

(** What reaches the operator.  Diagnostics on stderr are left out. *)
Inductive out_t : Type :=
| Printf (s : string)            (* printf("%s", s) *)
| Printf_percent (percent : Z)   (* printf("\x08\x08\x08\x08%3d%%", percent) *)
| Printf_kb (kb : Z)             (* printf("\x08...%6u kB", percent) *)
| Dia_status_on (s : string)    (* dia_status_on(&config.progress_win, s) *)
| Dia_status (percent : Z)      (* dia_status(&config.progress_win, percent) *)
| Dia_status_off
| Dia_message (s : string)      (* dia_message(s, MSGTYPE_ERROR) *)
| Disp_kb (kb : Z).             (* disp_gotoxy(..); disp_write_string("%6u kB") *)

(** What libcurl does during [curl_easy_perform]: it hands a buffer to the
    write callback or calls the progress callback. *)
Inductive curl_event : Type :=
| Curl_write (buffer : list Byte.byte)
| Curl_progress (dltotal dlnow : Z).

Definition CURLE_WRITE_ERROR : Z := 23.
Definition CURLE_ABORTED_BY_CALLBACK : Z := 42.

(** [hd_t] of libhd, as far as url.c reads it. *)
Inductive hd_hw_item_t : Type := hw_network_ctrl | hw_cdrom | hw_floppy | hw_block.

Inductive hd_res_t : Type :=
| res_hwaddr (addr : option string)
| res_any.

Record hd_t : Type := Build_hd {
  hd_res : list hd_res_t;
  hd_hw_class : list hd_hw_item_t;
  hd_child_ids : bool;                     (* hd->child_ids != NULL *)
  hd_unix_dev_name : option string;
  hd_unix_dev_names : list string;
  hd_model : option string;
  hd_unique_id : option string;
  hd_is_wlan : bool
}.

(** The operating system, libcurl, libhd and the parts of linuxrc outside
    url.c, acting on a world [W].  A call takes the world and gives its
    result and the world after it; calls that read or write [config] take
    and give it as well. *)
Class Sys (W : Type) : Type := {
  (* files and processes *)
  sys_mkstemp : string -> W -> Z * string * W;
  sys_open : option string -> W -> Z * W;
  sys_popen_gzip : Z -> Z -> W -> bool * W;
  sys_fopen : option string -> W -> bool * W;
  sys_fwrite : list Byte.byte -> W -> W;
  sys_lseek : Z -> W -> Z * W;
  sys_close : Z -> W -> W;
  sys_pclose : W -> Z * W;
  sys_fclose : W -> Z * W;
  sys_fread : string -> Z -> W -> string;
  sys_unlink : string -> W -> W;
  sys_strerror : W -> string;
  (* libcurl: the events of a transfer, its result and error text when
     no callback stops it *)
  curl_easy_setopt_url : option string -> W -> Z;
  curl_easy_perform : option string -> option string -> W
                      -> list curl_event * Z * string;
  sha1_hex : list Byte.byte -> string;
  (* util.c, net.c *)
  name2inet : option string -> W -> option string * W;
  net_check_address2 : option string -> W -> Z * W;
  util_umount : option string -> W -> Z * W;
  util_mount_ro : option string -> option string -> W -> Z * W;
  new_mountpoint : W -> string * W;
  new_download : W -> string * W;
  util_check_exist : option string -> W -> Z * W;
  util_is_mountable : option string -> W -> Z * W;
  util_fstype : option string -> W -> option string * W;
  net_mount_nfs : option string -> option string -> option string -> W -> Z * W;
  net_mount_smb : option string -> option string -> option string
                  -> option string -> option string -> option string
                  -> W -> Z * W;
  net_stop : config_t -> W -> config_t * W;
  wlan_setup : config_t -> W -> Z * config_t * W;
  net_config_mask : config_t -> W -> Z;
  net_dhcp : config_t -> W -> config_t * W;
  net_bootp : config_t -> W -> config_t * W;
  net_activate_ns : config_t -> W -> Z * config_t * W;
  net_ask_password : config_t -> W -> config_t * W;
  slp_get_install : url_t -> W -> option string * W;
  blk_ident : option string -> W -> string;
  match_netdevice : option string -> option string -> option string -> Z;
  (* hardware list *)
  update_device_list : config_t -> W -> config_t * W;
  hd_list : hd_hw_item_t -> W -> list hd_t * W;
  (* the copy of a file through the transfer pipeline,
     url_read_file(url, NULL, src, dst, NULL, flags) *)
  url_read_file : url_t -> option string -> string -> Z -> config_t -> W
                  -> Z * config_t * W
}.

Record state (W : Type) : Type := Build_state {
  config : config_t;
  console : list out_t;
  world : W
}.

(** Computations on the process state; [None] is a fault (a null pointer
    is dereferenced). *)
Definition M (W A : Type) : Type := state W -> option (A * state W).

Definition ret {W A} (a : A) : M W A := fun s => Some (a, s).

Definition bind {W A B} (m : M W A) (k : A -> M W B) : M W B :=
  fun s => match m s with
           | Some (a, s') => k a s'
           | None => None
           end.

Definition fault {W A} : M W A := fun _ => None.

Declare Scope m_scope.
Delimit Scope m_scope with M.
Notation "x <- m ;; k" := (bind m (fun x => k))
  (at level 61, m at next level, right associativity) : m_scope.
Notation "' p <- m ;; k" := (bind m (fun v => let p := v in k))
  (at level 61, p pattern, m at next level, right associativity) : m_scope.
Notation "m ;;; k" := (bind m (fun _ => k))
  (at level 61, right associativity) : m_scope.

(** A call that acts on the world only *)
Definition sys {W A} (f : W -> A * W) : M W A :=
  fun s => let (a, w) := f (world s) in
           Some (a, {| config := config s; console := console s; world := w |}).

Definition sys_ {W} (f : W -> W) : M W unit :=
  fun s => Some (tt, {| config := config s; console := console s;
                        world := f (world s) |}).

Definition sys_read {W A} (f : W -> A) : M W A :=
  fun s => Some (f (world s), s).

(** A call that acts on the world and on [config] *)
Definition sys_cfg {W A} (f : config_t -> W -> A * config_t * W) : M W A :=
  fun s => let '(a, c, w) := f (config s) (world s) in
           Some (a, {| config := c; console := console s; world := w |}).

Definition sys_cfg_ {W} (f : config_t -> W -> config_t * W) : M W unit :=
  fun s => let (c, w) := f (config s) (world s) in
           Some (tt, {| config := c; console := console s; world := w |}).

Definition get_config {W} : M W config_t := fun s => Some (config s, s).

Definition set_config {W} (f : config_t -> config_t) : M W unit :=
  fun s => Some (tt, {| config := f (config s); console := console s;
                        world := world s |}).

Definition put_out {W} (o : list out_t) : M W unit :=
  fun s => Some (tt, {| config := config s; console := console s ++ o;
                        world := world s |}).

Definition when {W} (b : bool) (m : M W unit) : M W unit :=
  if b then m else ret tt.

Definition set_net_configured (v : Z) (c : config_t) : config_t :=
  {| debug := debug c; test := test c; hd_data := hd_data c;
     net_configured := v; net_device := net_device c;
     net_hwaddr := net_hwaddr c; net_cardname := net_cardname c;
     net_unique_id := net_unique_id c; net_use_dhcp := net_use_dhcp c;
     net_hostname_ok := net_hostname_ok c; net_netmask_ok := net_netmask_ok c;
     net_broadcast_ok := net_broadcast_ok c; win := win c;
     linemode := linemode c; proxy := proxy c |}.

(** [str_copy] of [config.net.device], [hwaddr], [cardname], [unique_id] *)
Definition set_net_identity (dev hwaddr cardname unique_id : option string)
    (c : config_t) : config_t :=
  {| debug := debug c; test := test c; hd_data := hd_data c;
     net_configured := net_configured c; net_device := dev;
     net_hwaddr := hwaddr; net_cardname := cardname;
     net_unique_id := unique_id; net_use_dhcp := net_use_dhcp c;
     net_hostname_ok := net_hostname_ok c; net_netmask_ok := net_netmask_ok c;
     net_broadcast_ok := net_broadcast_ok c; win := win c;
     linemode := linemode c; proxy := proxy c |}.

Definition set_proxy (v : option url_t) (c : config_t) : config_t :=
  {| debug := debug c; test := test c; hd_data := hd_data c;
     net_configured := net_configured c; net_device := net_device c;
     net_hwaddr := net_hwaddr c; net_cardname := net_cardname c;
     net_unique_id := net_unique_id c; net_use_dhcp := net_use_dhcp c;
     net_hostname_ok := net_hostname_ok c; net_netmask_ok := net_netmask_ok c;
     net_broadcast_ok := net_broadcast_ok c; win := win c;
     linemode := linemode c; proxy := v |}.

Definition nc_none : Z := 0.
Definition nc_static : Z := 1.
Definition nc_bootp : Z := 2.
Definition nc_dhcp : Z := 3.

(* ===================================================================== *)
(** ** The transfer pipeline *)
(* ===================================================================== *)

Definition CRAMFS_SUPER_MAGIC : Z := 0x28cd3d45.
Definition CRAMFS_SUPER_MAGIC_BIG : Z := 0x453dcd28.

(** [struct cramfs_super_block]: ten [unsigned] and two arrays of 16
    bytes; [magic] is at offset 0 and [name] at offset 48. *)
Definition sizeof_cramfs_sb : Z := 64.
Definition cramfs_name_offset : nat := 48.
Definition sizeof_cramfs_name : nat := 16.

Definition byte_val (b : Byte.byte) : Z := Z.of_N (Byte.to_N b).

(** [data[k]] *)
Definition buf_at (k : nat) (data : list Byte.byte) : Z :=
  byte_val (nth k data Byte.x00).

(** The C string that starts at [data + k] when a NUL follows in [data] *)
Definition bytes_cstr (data : list Byte.byte) : string :=
  cstr (string_of_list_byte data).

(** An [unsigned] read from the first four bytes, in host byte order *)
Definition load_unsigned (be : bool) (data : list Byte.byte) : Z :=
  if be
  then buf_at 0 data * 2 ^ 24 + buf_at 1 data * 2 ^ 16
       + buf_at 2 data * 2 ^ 8 + buf_at 3 data
  else buf_at 3 data * 2 ^ 24 + buf_at 2 data * 2 ^ 16
       + buf_at 1 data * 2 ^ 8 + buf_at 0 data.

Definition print_d (n : Z) : string :=
  if n <? 0 then "-" ++ print_u (- n) else print_u n.

(** [snprintf(buf, len, ...)] keeps [len - 1] characters. *)
Definition snprintf (len : Z) (s : string) : string :=
  str_take (Z.to_nat (len - 1)) s.

Section TransferModel.

Context {G : Globals}.

Definition with_win (c : config_t) : bool := win c && negb (linemode c).

Definition progress_label (c : config_t) (url_data : url_data_t) : string :=
  match label url_data with
  | Some l => l
  | None => "Loading " ++ print_s (url_print c (url url_data) 0)
  end.

(** [((url_data->zp_total ?: url_data->p_total) + 1023) >> 10] *)
Definition progress_kb (url_data : url_data_t) : Z :=
  Z.shiftr (to_uint32 ((if zp_total url_data =? 0 then p_total url_data
                        else zp_total url_data) + 1023)) 10.

(** Lines 801-808: the percentage of an update, -1 without a total.  The
    quotient is computed in [uint64_t] and stored in an [int]. *)
Definition progress_percent (url_data : url_data_t) : Z :=
  let pct :=
    if negb (p_total url_data =? 0) then
      to_int32 (to_uint64 (100 * p_now url_data) / p_total url_data)
    else if negb (zp_total url_data =? 0) then
      to_int32 (to_uint64 (100 * zp_now url_data) / zp_total url_data)
    else -1 in
  if 100 <? pct then 100 else pct.

(** [url_progress(url_data, stage)]: the default progress indicator;
    stage 0 = init, 1 = update, 2 = done.  Gives the return value, the
    transfer state and what was shown. *)
Definition url_progress (c : config_t) (url_data : url_data_t) (stage : Z)
  : Z * url_data_t * list out_t :=
  if stage =? 0 then
    (0, url_data,
     if with_win c then [] else [Printf (progress_label c url_data)])
  else if stage =? 2 then
    (0, url_data,
     if with_win c then
       Dia_status_off ::
       (if negb (err url_data =? 0)
        then [Dia_message ("error " ++ print_d (err url_data) ++ ": "
                           ++ err_buf url_data ++ String "010" "")]
        else [])
     else
       if negb (err url_data =? 0) then
         Printf (" - failed" ++ String "010" "") ::
         (if negb (debug c =? 0)
          then [Printf ("error " ++ print_d (err url_data) ++ ": "
                       ++ err_buf url_data ++ String "010" "")]
          else [])
       else [Printf (String "010" "")])
  else
    (* update *)
    let pct := progress_percent url_data in
    let '(url_data, out1) :=
      if negb (label_shown url_data) then
        (set_label_shown true url_data,
         if with_win c then
           [Dia_status_on
              (progress_label c url_data
               ++ (if 0 <=? pct
                   then " (" ++ print_u (progress_kb url_data) ++ " kB)"
                   else ""))]
         else
           [Printf (if 0 <=? pct
                   then " (" ++ print_u (progress_kb url_data) ++ " kB) -     "
                   else " -          ")])
      else (url_data, []) in
    if 0 <=? pct then
      if negb (pct =? percent url_data) then
        (0, set_percent pct url_data,
         (out1 ++ [if with_win c then Dia_status pct
                   else Printf_percent pct])%list)
      else (0, url_data, out1)
    else
      let pct :=
        to_int32 (Z.shiftr (if zp_now url_data =? 0 then p_now url_data
                            else zp_now url_data) 10) in
      if (percent url_data + 100 <? pct) || flush url_data then
        (0, set_percent pct url_data,
         (out1 ++ [if with_win c then Disp_kb pct else Printf_kb pct])%list)
      else (0, url_data, out1).

End TransferModel.

(** [<sys/wait.h>] *)
Definition WIFEXITED (status : Z) : bool := Z.land status 0x7f =? 0.
Definition WEXITSTATUS (status : Z) : Z := Z.shiftr (Z.land status 0xff00) 8.

(** [i = strlen(buf) - 1; while(i > 0 && isspace(buf[i])) buf[i--] = 0;] *)
Fixpoint rstrip (s : string) : string :=
  match s with
  | EmptyString => EmptyString
  | String a s' =>
      let r := rstrip s' in
      if str_nonempty r then String a r
      else if isspace a then EmptyString else String a EmptyString
  end.

Definition rstrip_tail (s : string) : string :=
  match s with
  | EmptyString => EmptyString
  | String a s' => String a (rstrip s')
  end.

Section TransferSys.

Context {G : Globals} {W : Type} {OS : Sys W}.

Local Open Scope m_scope.

(** [url_data->progress(url_data, stage)]; the only function url.c
    stores in [progress] is [url_progress]. *)
Definition call_progress (url_data : url_data_t) (stage : Z)
  : M W (Z * url_data_t) :=
  c <- get_config ;;
  let '(r, url_data, out) := url_progress c url_data stage in
  put_out out ;;;
  ret (r, url_data).

(** Lines 215-239: gzip, or else a cramfs image, by its first bytes. *)
Definition url_write_cb_detect (url_data : url_data_t) : url_data_t :=
  let data := buf_data url_data in
  if unzip url_data && (buf_at 0 data =? 0x1f) && (buf_at 1 data =? 0x8b)
  then
    let url_data := set_gzip true url_data in
    if negb (Z.land (buf_at 3 data) 0x08 =? 0) then
      let name := firstn (Z.to_nat (buf_len url_data - 10)) (skipn 10 data) in
      let i := Z.of_nat (String.length (bytes_cstr name)) in
      if i <? buf_len url_data - 10
      then set_orig_name (Some (bytes_cstr name)) url_data
      else url_data
    else url_data
  else if sizeof_cramfs_sb <? buf_len url_data then
    let magic := load_unsigned big_endian data in
    if (magic =? CRAMFS_SUPER_MAGIC) || (magic =? CRAMFS_SUPER_MAGIC_BIG)
    then
      set_cramfs true
        (set_orig_name
           (Some (bytes_cstr (firstn sizeof_cramfs_name
                                (skipn cramfs_name_offset data))))
           url_data)
    else url_data
  else url_data.

(** Lines 241-248: the image size in kB from a name like "rootfs 51200". *)
Definition url_write_cb_size (url_data : url_data_t) : url_data_t :=
  let i :=
    match orig_name url_data with
    | Some name =>
        match sscanf_word_int name with
        | Some n => to_int32 n
        | None => 0
        end
    | None => 0
    end in
  if 0 <? i then set_image_size i url_data else url_data.

(** Lines 215-248 *)
Definition url_write_cb_sniff (url_data : url_data_t) : url_data_t :=
  url_write_cb_size (url_write_cb_detect url_data).

(** Lines 202-209: the first [buf.max] bytes go to the sniff buffer;
    gives the bytes of [buffer] that are left and their number. *)
Definition url_write_cb_fill (buffer : list Byte.byte) (url_data : url_data_t)
  : url_data_t * Z * list Byte.byte :=
  let z1 := Z.of_nat (length buffer) in
  if (buf_len url_data <? buf_max url_data) && negb (z1 =? 0) then
    let z2 := buf_max url_data - buf_len url_data in
    let z2 := if z1 <? z2 then z1 else z2 in
    (set_buf_len (buf_len url_data + z2)
       (set_buf_data (buf_data url_data ++ firstn (Z.to_nat z2) buffer)%list
          url_data),
     z1 - z2, skipn (Z.to_nat z2) buffer)
  else (url_data, z1, buffer).

(** Line 200: every chunk goes to the digest first. *)
Definition url_write_cb_digest (buffer : list Byte.byte)
    (url_data : url_data_t) : url_data_t :=
  if negb (Z.of_nat (length buffer) =? 0)
  then set_sha1_ctx (sha1_ctx url_data ++ buffer)%list url_data
  else url_data.

(** The transfer state when a chunk is digested and buffered *)
Definition url_write_cb_buffered (buffer : list Byte.byte)
    (url_data : url_data_t) : url_data_t :=
  fst (fst (url_write_cb_fill buffer (url_write_cb_digest buffer url_data))).

(** Line 258: the sniff buffer is full or the stream has ended. *)
Definition sniff_ready (url_data : url_data_t) : bool :=
  (buf_len url_data =? buf_max url_data) || flush url_data.

Definition open_error (url_data : url_data_t) (msg : string) : string :=
  snprintf (err_buf_len url_data)
    ("open: " ++ print_s (file_name url_data) ++ ": " ++ msg).

(** Lines 259-295: open the destination, through [gzip -dc] for a gzip
    stream. *)
Definition url_write_cb_open (url_data : url_data_t) : M W url_data_t :=
  if file_opened url_data then ret url_data
  else
    let url_data := set_file_opened true url_data in
    if gzip url_data then
      ' (tmp, name) <- sys (sys_mkstemp "/tmp/foo_XXXXXX") ;;
      let url_data := set_tmp_file (Some name) url_data in
      if 0 <? tmp then
        fd <- sys (sys_open (file_name url_data)) ;;
        url_data <-
          (if 0 <=? fd then
             f <- sys (sys_popen_gzip fd tmp) ;;
             ret (set_zp_total
                    (to_uint32 (Z.shiftl (image_size url_data) 10))
                    (set_f f (set_pipe_fd fd url_data)))
           else
             msg <- sys_read sys_strerror ;;
             ret (set_err_buf (open_error url_data msg)
                    (set_err 101 url_data))) ;;
        sys_ (sys_close tmp) ;;;
        ret url_data
      else
        msg <- sys_read sys_strerror ;;
        ret (set_err_buf (snprintf (err_buf_len url_data) ("mkstemp: " ++ msg))
               (set_err 1 url_data))
    else
      f <- sys (sys_fopen (file_name url_data)) ;;
      if f then ret (set_f true url_data)
      else
        msg <- sys_read sys_strerror ;;
        ret (set_err_buf (open_error url_data msg) (set_err 101 url_data)).

(** Lines 258-312: open the destination and write what is buffered and
    the rest [buffer] of the current chunk, [z1] bytes. *)
Definition url_write_cb_store (buffer : list Byte.byte) (z1 : Z)
    (url_data : url_data_t) : M W url_data_t :=
  url_data <- url_write_cb_open url_data ;;
  url_data <-
    (if f url_data && negb (buf_len url_data =? 0) then
       sys_ (sys_fwrite (buf_data url_data)) ;;;
       ret (set_p_now (to_uint32 (p_now url_data + buf_len url_data)) url_data)
     else ret url_data) ;;
  url_data <-
    (if f url_data && negb (z1 =? 0) then
       sys_ (sys_fwrite buffer) ;;;
       ret (set_p_now (to_uint32 (p_now url_data + z1)) url_data)
     else ret url_data) ;;
  ret (if negb (buf_max url_data =? 0)
       then set_buf_data [] (set_buf_max 0 (set_buf_len 0 url_data))
       else url_data).

(** [url_write_cb(buffer, size, nmemb, url_data)] with
    [size * nmemb = length buffer]; [url_write_cb(NULL, 0, 0, url_data)]
    is the call with the empty buffer. *)
Definition url_write_cb (buffer : list Byte.byte) (url_data : url_data_t)
  : M W (Z * url_data_t) :=
  let size_nmemb := Z.of_nat (length buffer) in
  let url_data := url_write_cb_digest buffer url_data in
  let '(url_data, z1, buffer) := url_write_cb_fill buffer url_data in
  let ready := sniff_ready url_data in
  let url_data :=
    if ready && (11 <=? buf_len url_data)
    then url_write_cb_sniff url_data else url_data in
  url_data <-
    (if ready then url_write_cb_store buffer z1 url_data else ret url_data) ;;
  url_data <-
    (if 0 <=? pipe_fd url_data then
       off <- sys (sys_lseek (pipe_fd url_data)) ;;
       ret (if negb (off =? -1) then set_zp_now (to_uint32 off) url_data
            else url_data)
     else ret url_data) ;;
  url_data <-
    (if (negb (p_total url_data =? 0) || negb (zp_total url_data =? 0))
        && progress url_data
     then
       ' (r, url_data) <- call_progress url_data 1 ;;
       ret (if negb (r =? 0) && (err url_data =? 0)
            then set_err 102 url_data else url_data)
     else ret url_data) ;;
  ret (if negb (err url_data =? 0) then 0 else size_nmemb, url_data).

(** [url_progress_cb(url_data, dltotal, dlnow, ultotal, ulnow)]; the
    totals are the integral values of the [double] arguments. *)
Definition url_progress_cb (dltotal dlnow : Z) (url_data : url_data_t)
  : M W (Z * url_data_t) :=
  let url_data :=
    if p_total url_data =? 0
    then set_p_total (to_uint32 dltotal) url_data else url_data in
  if progress url_data then call_progress url_data 1 else ret (0, url_data).

(** [curl_easy_perform]: the events of the transfer go to the callbacks;
    a write callback that does not take all bytes and a progress callback
    that returns non-zero end the transfer. *)
Fixpoint curl_run (events : list curl_event) (code : Z)
    (url_data : url_data_t) : M W (Z * url_data_t) :=
  match events with
  | [] => ret (code, url_data)
  | Curl_write buffer :: rest =>
      ' (n, url_data) <- url_write_cb buffer url_data ;;
      if n =? Z.of_nat (length buffer) then curl_run rest code url_data
      else ret (CURLE_WRITE_ERROR, url_data)
  | Curl_progress dltotal dlnow :: rest =>
      ' (r, url_data) <- url_progress_cb dltotal dlnow url_data ;;
      if r =? 0 then curl_run rest code url_data
      else ret (CURLE_ABORTED_BY_CALLBACK, url_data)
  end.

(** Lines 121-149: close the destination and look at the exit status of
    the decompressor. *)
Definition url_read_close (url_data : url_data_t) : M W url_data_t :=
  if f url_data then
    i <- (if 0 <=? pipe_fd url_data then sys sys_pclose else sys sys_fclose) ;;
    let url_data := set_f false url_data in
    if 0 <=? pipe_fd url_data then
      let i := if WIFEXITED i then WEXITSTATUS i else 0 in
      if negb (i =? 0) && negb (i =? 2) then
        url_data <-
          match tmp_file url_data with
          | Some tmp =>
              buf <- sys_read (sys_fread tmp (err_buf_len url_data - 1)) ;;
              let s := skip_space (rstrip_tail (cstr buf)) in
              ret (if err url_data =? 0 then set_err_buf s url_data
                   else url_data)
          | None => ret url_data
          end ;;
        ret (set_err_buf
               (snprintf (err_buf_len url_data) "gzip: command terminated")
               (set_err 103 url_data))
      else ret url_data
    else
      ret (if negb (i =? 0) && (err url_data =? 0)
           then set_err 104 url_data else url_data)
  else ret url_data.

Definition url_str_of (url_data : url_data_t) : option string :=
  match url url_data with Some u => str u | None => None end.

(** Lines 70-107: the digest is started, the url and the proxy are
    handed to curl, the progress indicator is set up.  Gives the proxy
    url. *)
Definition url_read_setup (url_data : url_data_t)
  : M W (option string * url_data_t) :=
  let url_data := set_sha1_ctx [] url_data in
  e <- sys_read (curl_easy_setopt_url (url_str_of url_data)) ;;
  let url_data := set_err e url_data in
  c <- get_config ;;
  let proxy_url := url_print c (proxy c) 1 in
  url_data <-
    match proxy_url, proxy c with
    | Some _, Some p =>
        name <- sys (name2inet (server p)) ;;
        set_config (set_proxy (Some (set_used_server name p))) ;;;
        bad <- sys (net_check_address2 name) ;;
        ret (if negb (bad =? 0)
             then set_err 105
                    (set_err_buf
                       (snprintf (err_buf_len url_data)
                          ("invalid proxy address: " ++ print_s name))
                       url_data)
             else url_data)
    | _, _ => ret url_data
    end ;;
  url_data <-
    (if progress url_data
     then ' (_, url_data) <- call_progress url_data 0 ;; ret url_data
     else ret url_data) ;;
  ret (proxy_url, url_data).

(** Lines 109-117: the transfer, and the flush of what is buffered. *)
Definition url_read_perform (proxy_url : option string)
    (url_data : url_data_t) : M W url_data_t :=
  url_data <-
    (if err url_data =? 0 then
       ' (events, code, msg) <-
         sys_read (curl_easy_perform (url_str_of url_data) proxy_url) ;;
       ' (i, url_data) <- curl_run events code url_data ;;
       let url_data :=
         if negb (i =? 0) then set_curl_err_buf msg url_data else url_data in
       ret (if err url_data =? 0 then set_err i url_data else url_data)
     else ret url_data) ;;
  if err url_data =? 0 then
    ' (_, url_data) <- url_write_cb [] (set_flush true url_data) ;;
    ret url_data
  else ret url_data.

(** Lines 151-179: the last progress update, the temporary files, the
    error text of curl, the digest. *)
Definition url_read_finish (url_data : url_data_t) : M W url_data_t :=
  (* to get progress bar at 100% when uncompressing *)
  ' (_, url_data) <- url_write_cb [] (set_flush false url_data) ;;
  when (0 <=? pipe_fd url_data) (sys_ (sys_close (pipe_fd url_data))) ;;;
  match tmp_file url_data with
  | Some tmp => sys_ (sys_unlink tmp)
  | None => ret tt
  end ;;;
  let url_data :=
    if str_nonempty (err_buf url_data) then url_data
    else set_curl_err_buf ""
           (set_err_buf (snprintf (err_buf_len url_data + 1)
                           (curl_err_buf url_data)) url_data) in
  url_data <-
    (if progress url_data
     then ' (_, url_data) <- call_progress url_data 2 ;; ret url_data
     else ret url_data) ;;
  ret (if err url_data =? 0
       then set_sha1 (Some (sha1_hex (sha1_ctx url_data))) url_data
       else url_data).

(** [url_read(url_data)] *)
Definition url_read (url_data : url_data_t) : M W url_data_t :=
  ' (proxy_url, url_data) <- url_read_setup url_data ;;
  url_data <- url_read_perform proxy_url url_data ;;
  url_data <- url_read_close url_data ;;
  url_read_finish url_data.

End TransferSys.

(* ===================================================================== *)
(** ** The mount orchestrator *)
(* ===================================================================== *)

(** Lines 1700-1711: the url is rewritten from the SLP answer. *)
Definition slp_rewrite (tmp_url url : url_t) : url_t :=
  {| str := str tmp_url; scheme := scheme tmp_url; server := server tmp_url;
     share := share tmp_url; path := path tmp_url; user := user tmp_url;
     password := password tmp_url; domain := domain tmp_url;
     device := device tmp_url; instsys := instsys tmp_url;
     mount := mount url; tmp_mount := tmp_mount url; port := port tmp_url;
     query := query url; is_mountable := is_mountable url;
     is_network := is_network url; is_cdrom := is_cdrom url;
     is_file := is_file url; is_wlan := is_wlan url;
     download := download url; used_device := used_device url;
     used_hwaddr := used_hwaddr url; used_model := used_model url;
     used_unique_id := used_unique_id url; used_server := used_server url |}.

Definition streq (a b : string) : bool := String.eqb a b.

Definition hd_is_hw_class (hd : hd_t) (item : hd_hw_item_t) : bool :=
  existsb (fun i => match i, item with
                    | hw_network_ctrl, hw_network_ctrl => true
                    | hw_cdrom, hw_cdrom => true
                    | hw_floppy, hw_floppy => true
                    | hw_block, hw_block => true
                    | _, _ => false
                    end) (hd_hw_class hd).

(** Lines 1155-1160: the first hardware address among the resources *)
Fixpoint hd_hwaddr (res : list hd_res_t) : option string :=
  match res with
  | res_hwaddr addr :: _ => addr
  | res_any :: rest => hd_hwaddr rest
  | [] => None
  end.

Section MountModel.

Context {G : Globals} {W : Type} {OS : Sys W}.

Local Open Scope m_scope.

(** [url_umount(url)] *)
Definition url_umount (url : url_t) : M W url_t :=
  r <- sys (util_umount (mount url)) ;;
  let url := if r =? 0 then set_mount None url else url in
  r <- sys (util_umount (tmp_mount url)) ;;
  ret (if negb (r =? 0) then set_tmp_mount None url else url).

(** Lines 1648-1679: static configuration needs ip and netmask, else a
    DHCP or BOOTP request is sent.  [false]: no or incomplete answer. *)
Definition url_setup_device_dhcp (url : url_t) : M W bool :=
  c <- get_config ;;
  mask <- sys_read (net_config_mask c) ;;
  if negb (Z.land mask 3 =? 3) then
    put_out [Printf ("Sending " ++ (if net_use_dhcp c then "DHCP" else "BOOTP")
                    ++ " request to " ++ print_s (used_device url) ++ "..."
                    ++ String "010" "")] ;;;
    (if net_use_dhcp c then sys_cfg_ net_dhcp else sys_cfg_ net_bootp) ;;;
    c <- get_config ;;
    if negb (test c)
       && (negb (net_hostname_ok c) || negb (net_netmask_ok c)
           || negb (net_broadcast_ok c))
    then set_config (set_net_configured nc_none) ;;; ret false
    else
      set_config (set_net_configured
                    (if net_use_dhcp c then nc_dhcp else nc_bootp)) ;;;
      ret true
  else ret true.

(** Lines 1691-1743: SLP, then the address of the server. *)
Definition url_setup_device_server (url : url_t) : M W (Z * url_t) :=
  r <-
    (if scheme url =? inst_slp then
       s <- sys (slp_get_install url) ;;
       match url_set s with
       | None => fault
       | Some tmp_url =>
           if scheme tmp_url =? 0 then ret None
           else ret (Some (slp_rewrite tmp_url url))
       end
     else ret (Some url)) ;;
  match r with
  | None => ret (0, url)
  | Some url =>
      sys_cfg_ net_ask_password ;;;
      name <- sys (name2inet (server url)) ;;
      let url := set_used_server name url in
      bad <- sys (net_check_address2 (used_server url)) ;;
      if negb (bad =? 0) then
        set_config (set_net_configured nc_none) ;;; ret (0, url)
      else ret (1, url)
  end.

(** [url_setup_device(url)]: load fs module or setup network interface;
    0: failed, 1: ok. *)
Definition url_setup_device (url : url_t) : M W (Z * url_t) :=
  if scheme url =? inst_file then ret (1, url)
  else
    match used_device url with
    | None => ret (0, url)
    | Some dev =>
        if negb (is_network url) then
          (* load fs module if necessary *)
          type <- sys (util_fstype (used_device url)) ;;
          ret (match type with
               | Some t => if streq t "swap" then 0 else 1
               | None => 0
               end, url)
        else
          (* setup interface *)
          c <- get_config ;;
          if negb (net_configured c =? 0)
             && match net_device c with
                | Some d => streq dev d
                | None => false
                end
          then ret (1, url)
          else if is_prefix "lo" dev || is_prefix "sit" dev then ret (0, url)
          else
            sys_cfg_ net_stop ;;;
            set_config (set_net_configured nc_none) ;;;
            set_config (set_net_identity (used_device url) (used_hwaddr url)
                          (used_model url) (used_unique_id url)) ;;;
            r <- (if is_wlan url then sys_cfg wlan_setup else ret 0) ;;
            if negb (r =? 0) then ret (0, url)
            else
              set_config (set_net_configured nc_static) ;;;
              answered <- url_setup_device_dhcp url ;;
              if negb answered then ret (0, url)
              else
                r <- sys_cfg net_activate_ns ;;
                if negb (r =? 0) then
                  set_config (set_net_configured nc_none) ;;; ret (0, url)
                else url_setup_device_server url
    end.

(** [dir ?: new_mountpoint()] *)
Definition dir_or_new_mountpoint (dir : option string) : M W (option string) :=
  match dir with
  | Some d => ret (Some d)
  | None => mp <- sys new_mountpoint ;; ret (Some mp)
  end.

(** How a step of [url_mount_disk] ends: with [return ok], or it goes on
    with [err] and the local [path]. *)
Inductive step_t : Type :=
| Return (ok : Z) (url : url_t)
| Goes_on (err : Z) (path : option string) (url : url_t).

(** Lines 936-961: local device; we might need an extra mountpoint. *)
Definition url_mount_disk_local (url : url_t) : M W step_t :=
  match path url with
  | None => fault
  | Some p =>
      r <-
        (if negb (scheme url =? inst_file) && negb (streq p "/") then
           mp <- sys new_mountpoint ;;
           let url := set_tmp_mount (Some mp) url in
           e <- sys (util_mount_ro (used_device url) (tmp_mount url)) ;;
           let ok := if negb (e =? 0) then 0 else 1 in
           if ok =? 0 then ret (Return ok (set_tmp_mount None url))
           else ret (Goes_on 0 None url)
         else ret (Goes_on 0 None url)) ;;
      match r with
      | Return ok url => ret (Return ok url)
      | Goes_on err _ url =>
          ret (Goes_on err
                 (if scheme url =? inst_file then path url
                  else match tmp_mount url with
                       | Some t => Some (t ++ p)
                       | None => used_device url
                       end) url)
      end
  end.

(** Lines 966-992: [case inst_nfs]. *)
Definition url_mount_disk_nfs (url : url_t) (dir : option string)
  : M W step_t :=
  mp <- dir_or_new_mountpoint dir ;;
  let url := set_mount mp url in
  err <- sys (net_mount_nfs (mount url) (used_server url) (path url)) ;;
  if (err =? ENOTDIR) || (err =? ENOENT) then
    let url := set_mount None url in
    match path url with
    | None => fault
    | Some buf =>
        match strrchr_cut "/" buf with
        | Some (parent, s) =>
            if str_nonempty parent && str_nonempty s then
              mp <- sys new_mountpoint ;;
              let url := set_tmp_mount (Some mp) url in
              err <- sys (net_mount_nfs (tmp_mount url) (used_server url)
                            (Some parent)) ;;
              if negb (err =? 0)
              then ret (Goes_on err None (set_tmp_mount None url))
              else ret (Goes_on err (Some (mp ++ "/" ++ s)) url)
            else ret (Goes_on err None url)
        | None => ret (Goes_on err None url)
        end
    end
  else if err =? 0 then ret (Goes_on err (mount url) url)
  else ret (Goes_on err None url).

(** Lines 994-1017: [case inst_smb]. *)
Definition url_mount_disk_smb (url : url_t) (dir : option string)
  : M W step_t :=
  match path url with
  | None => fault
  | Some p =>
      ' (url, s) <-
        (if negb (streq p "/") then
           mp <- sys new_mountpoint ;;
           let url := set_tmp_mount (Some mp) url in
           ret (url, tmp_mount url)
         else
           mp <- dir_or_new_mountpoint dir ;;
           let url := set_mount mp url in
           ret (url, mount url)) ;;
      err <- sys (net_mount_smb s (used_server url) (share url) (user url)
                    (password url) (domain url)) ;;
      if negb (err =? 0)
      then ret (Goes_on err None (set_mount None (set_tmp_mount None url)))
      else
        ret (Goes_on err
               (match mount url with
                | Some m => Some m
                | None => Some (print_s (tmp_mount url) ++ p)
                end) url)
  end.

(** Lines 963-1028: network device. *)
Definition url_mount_disk_network (url : url_t) (dir : option string)
  : M W step_t :=
  if scheme url =? inst_nfs then url_mount_disk_nfs url dir
  else if scheme url =? inst_smb then url_mount_disk_smb url dir
  else if (scheme url =? inst_http) || (scheme url =? inst_ftp)
  then ret (Goes_on 0 None url)
  else ret (Goes_on 1 None url).

Definition URL_FLAG_UNZIP : Z := 1.
Definition URL_FLAG_PROGRESS : Z := 2.

Definition chr_r : Z := 114.   (* 'r' *)
Definition chr_b : Z := 98.    (* 'b' *)

(** Lines 1031-1076: the path is there; a file or block device that is
    to be downloaded or cannot be mounted is copied and the copy mounted,
    anything else is mounted as it is. *)
Definition url_mount_disk_mount (url : url_t) (dir path : option string)
  : M W (Z * url_t) :=
  if is_mountable url then
    file_type <- sys (util_check_exist path) ;;
    let url := if file_type =? chr_r then set_is_file true url else url in
    if negb (file_type =? 0) then
      copy <-
        (if (file_type =? chr_r) || (file_type =? chr_b) then
           if download url then ret true
           else m <- sys (util_is_mountable path) ;; ret (m =? 0)
         else ret false) ;;
      if copy then
        mp <- dir_or_new_mountpoint dir ;;
        let url := set_mount mp url in
        match url_set (Some "file:/") with
        | None => fault
        | Some tmp_url =>
            s <- sys new_download ;;
            e <- sys_cfg (url_read_file tmp_url path s
                            (URL_FLAG_PROGRESS + URL_FLAG_UNZIP)) ;;
            let ok := if negb (e =? 0) then 0 else 1 in
            ok <-
              (if negb (ok =? 0) then
                 e <- sys (util_mount_ro (Some s) (mount url)) ;;
                 ret (if negb (e =? 0) then 0 else 1)
               else ret ok) ;;
            when (ok =? 0) (sys_ (sys_unlink s)) ;;;
            ret (ok, url)
        end
      else
        match mount url with
        | None =>
            mp <- dir_or_new_mountpoint dir ;;
            let url := set_mount mp url in
            e <- sys (util_mount_ro path (mount url)) ;;
            ret (if negb (e =? 0) then 0 else 1, url)
        | Some _ => ret (1, url)
        end
    else ret (0, url)
  else ret (1, url).

(** Lines 1083-1100 *)
Definition url_mount_disk_finish (ok : Z) (url : url_t) : M W (Z * url_t) :=
  if ok =? 0 then
    _ <- sys (util_umount (mount url)) ;;
    _ <- sys (util_umount (tmp_mount url)) ;;
    ret (ok, set_mount None (set_tmp_mount None url))
  else ret (ok, url).

(** [url_mount_disk(url, dir, test_func)]: 0: failed, 1: ok, 2: ok, but
    continue search. *)
Definition url_mount_disk (url : url_t) (dir : option string)
    (test_func : option (url_t -> M W (Z * url_t))) : M W (Z * url_t) :=
  if (scheme url =? 0) || negb (is_some (path url))
     || (negb (is_some (used_device url)) && negb (scheme url =? inst_file))
  then ret (0, url)
  else
    url <- url_umount url ;;
    let url := set_mount None (set_tmp_mount None url) in
    ' (ok, url) <- url_setup_device url ;;
    if ok =? 0 then ret (0, url)
    else
      r <- (if negb (is_network url) then url_mount_disk_local url
            else url_mount_disk_network url dir) ;;
      match r with
      | Return ok url => ret (ok, url)
      | Goes_on err path url =>
          ' (ok, url) <-
            (if err =? 0 then url_mount_disk_mount url dir path
             else ret (0, url)) ;;
          ' (ok, url) <-
            (match test_func with
             | Some test => if negb (ok =? 0) then test url else ret (ok, url)
             | None => ret (ok, url)
             end) ;;
          url_mount_disk_finish ok url
      end.

(** Lines 1162-1175: hd means not a floppy, not a cdrom, has no
    partitions; and the device has a name. *)
Definition url_mount_skips (url : url_t) (hd : hd_t) : bool :=
  (((scheme url =? inst_hd) || (scheme url =? inst_disk))
   && (hd_is_hw_class hd hw_floppy || hd_is_hw_class hd hw_cdrom
       || hd_child_ids hd))
  || negb (is_some (hd_unix_dev_name hd)).

(** Lines 1177-1181: does the device match the one asked for? *)
Definition url_mount_matched (url : url_t) (hd : hd_t) : Z :=
  let matched :=
    match device url with
    | Some _ => match_netdevice (short_dev (hd_unix_dev_name hd))
                  (hd_hwaddr (hd_res hd)) (device url)
    | None => 1
    end in
  fold_left (fun matched sl =>
               if matched =? 0
               then match_netdevice (short_dev (Some sl)) None (device url)
               else matched)
    (hd_unix_dev_names hd) matched.

(** Lines 1185-1196: the device is noted in [url->used]. *)
Definition url_mount_use (url : url_t) (hd : hd_t) : M W url_t :=
  let url := set_used_unique_id (hd_unique_id hd) url in
  let url := set_used_device (hd_unix_dev_name hd) url in
  let url := set_used_hwaddr (hd_hwaddr (hd_res hd)) url in
  model <-
    match hd_model hd with
    | Some m =>
        if streq m "Partition" then
          id <- sys_read (blk_ident (used_device url)) ;;
          ret (Some (m ++ ": " ++ id))
        else ret (Some m)
    | None => ret None
    end ;;
  ret (set_is_wlan (hd_is_wlan hd) (set_used_model model url)).

(** Lines 1154-1206: the loop over the hardware list. *)
Fixpoint url_mount_loop (hds : list hd_t) (url : url_t) (dir : option string)
    (test_func : option (url_t -> M W (Z * url_t))) (err found : Z)
  : M W (url_t * Z * Z) :=
  match hds with
  | [] => ret (url, err, found)
  | hd :: rest =>
      if url_mount_skips url hd
      then url_mount_loop rest url dir test_func err found
      else if url_mount_matched url hd =? 0
      then url_mount_loop rest url dir test_func err found
      else
        url <- url_mount_use url hd ;;
        ' (ok, url) <- url_mount_disk url dir test_func ;;
        if negb (ok =? 0) then
          let found := found + 1 in
          let url :=
            if hd_is_hw_class hd hw_cdrom then set_is_cdrom true url
            else url in
          if ok =? 1 then ret (url, err, found)
          else url_mount_loop rest url dir test_func err found
        else url_mount_loop rest url dir test_func 1 found
  end.

Definition clear_used (url : url_t) : url_t :=
  set_used_unique_id None
    (set_used_hwaddr None (set_used_model None (set_used_device None url))).

(** Lines 1138-1152: the hardware class to look at *)
Definition url_mount_hw_item (url : url_t) : hd_hw_item_t :=
  if negb (is_network url) then
    if scheme url =? inst_cdrom then hw_cdrom
    else if scheme url =? inst_floppy then hw_floppy
    else hw_block
  else hw_network_ctrl.

(** [url_mount(url, dir, test_func)]: 0: ok, 1: failed. *)
Definition url_mount (url : url_t) (dir : option string)
    (test_func : option (url_t -> M W (Z * url_t))) : M W (Z * url_t) :=
  if scheme url =? 0 then ret (1, url)
  else
    sys_cfg_ update_device_list ;;;
    c <- get_config ;;
    if negb (hd_data c) then ret (1, url)
    else if (scheme url =? inst_file) || is_some (used_device url) then
      ' (ok, url) <- url_mount_disk url dir test_func ;;
      ret (if negb (ok =? 0) then 0 else 1, url)
    else
      hds <- sys (hd_list (url_mount_hw_item url)) ;;
      ' (url, err, found) <- url_mount_loop hds url dir test_func 0 0 ;;
      (* should not happen, but anyway: device name was not in our list *)
      ' (err, url) <-
        (if (err =? 0) && (found =? 0) && negb (is_some (used_device url))
            && is_some (device url)
         then
           let url := set_used_device (long_dev (device url)) url in
           let url :=
             set_used_unique_id None
               (set_used_hwaddr None (set_used_model None url)) in
           ' (ok, url) <- url_mount_disk url dir test_func ;;
           ret (if negb (ok =? 0) then 0 else 1, url)
         else ret (err, url)) ;;
      let url := if negb (err =? 0) then clear_used url else url in
      ret (if negb (found =? 0) then 0 else err, url).

End MountModel.

(* ===================================================================== *)
(** ** A concrete environment, to run the model on examples *)
(* ===================================================================== *)

(** Modelled from the spec: the scheme table behind [file_sym2num] and
    [get_instmode_name] (global.h and file.c are not under src/).  The
    schemes are the fixed enumeration of the spec's data model, numbered
    in the order it lists them, with none as 0. *)
Definition scheme_table : list (string * Z) :=
  [("file", 1); ("disk", 2); ("cdrom", 3); ("dvd", 4); ("floppy", 5);
   ("hd", 6); ("nfs", 7); ("smb", 8); ("http", 9); ("ftp", 10);
   ("tftp", 11); ("slp", 12); ("exec", 13); ("relative", 14); ("none", 0)].

(** Modelled from the spec: [file_sym2num] (file.c is not under src/)
    gives the number of a scheme name and -1 for any other string. *)
Fixpoint table_sym2num (t : list (string * Z)) (sym : string) : Z :=
  match t with
  | [] => -1
  | (name, n) :: t' => if streq name sym then n else table_sym2num t' sym
  end.

(** Modelled from the spec: [get_instmode_name] (file.c is not under
    src/) gives the name of a scheme of the enumeration. *)
Fixpoint table_name (t : list (string * Z)) (n : Z) : string :=
  match t with
  | [] => ""
  | (name, m) :: t' => if m =? n then name else table_name t' n
  end.

(** Modelled from the spec: [short_dev] and [long_dev] (util.c is not
    under src/); the device hint is the device path without its device
    directory, as in device="sda1" for /dev/sda1. *)
Definition dev_short (dev : option string) : option string :=
  match dev with
  | Some d => Some (if is_prefix "/dev/" d then str_skip 5 d else d)
  | None => None
  end.

Definition dev_long (dev : option string) : option string :=
  match dev with
  | Some d => Some (if is_prefix "/" d then d else "/dev/" ++ d)
  | None => None
  end.

Fixpoint str_split (c : ascii) (s : string) : list string :=
  match s with
  | EmptyString => [EmptyString]
  | String a s' =>
      if Ascii.eqb a c then EmptyString :: str_split c s'
      else match str_split c s' with
           | h :: t => String a h :: t
           | [] => [String a EmptyString]
           end
  end.

(** Modelled from the spec: [slist_split] (util.c is not under src/);
    the query is the ordered list of the keys between the separators. *)
Definition query_split (c : ascii) (s : string) : slist_t :=
  map (fun k => (k, None)) (str_split c s).

(** A file system with the directory /dev and the block device
    /dev/sda1. *)
Definition example_stat (name : string) : option Z :=
  if streq name "/dev" then Some 16877          (* 040755 *)
  else if streq name "/dev/sda1" then Some 25008 (* 060660 *)
  else None.

Definition example_globals : Globals :=
  {| inst_file := 1; inst_disk := 2; inst_cdrom := 3; inst_dvd := 4;
     inst_floppy := 5; inst_hd := 6; inst_nfs := 7; inst_smb := 8;
     inst_http := 9; inst_ftp := 10; inst_tftp := 11; inst_slp := 12;
     inst_exec := 13; inst_rel := 14;
     file_sym2num := table_sym2num scheme_table;
     get_instmode_name := table_name scheme_table;
     short_dev := dev_short; long_dev := dev_long;
     slist_split := query_split;
     stat := example_stat; big_endian := false |}.

Definition example_config : config_t :=
  {| debug := 0; test := false; hd_data := true; net_configured := nc_none;
     net_device := None; net_hwaddr := None; net_cardname := None;
     net_unique_id := None; net_use_dhcp := true; net_hostname_ok := false;
     net_netmask_ok := false; net_broadcast_ok := false; win := false;
     linemode := false; proxy := None |}.

(** A scripted system.  The world counts the mountpoints and download
    files handed out; the script fixes what the calls answer. *)
Record script_t : Type := Build_script {
  on_fstype : option string;
  on_mount_ro : Z;
  on_umount : Z;
  on_check_exist : Z;
  on_is_mountable : Z;
  on_nfs : option string -> Z;        (* by the path that is mounted *)
  on_smb : Z;
  on_pclose : Z;
  on_fread : string;
  on_hd_list : list hd_t
}.

Definition script_sys (k : script_t) : Sys nat :=
  {| sys_mkstemp := fun _ w => (3, "/tmp/foo_000000", w);
     sys_open := fun _ w => (4, w);
     sys_popen_gzip := fun _ _ w => (true, w);
     sys_fopen := fun _ w => (true, w);
     sys_fwrite := fun _ w => w;
     sys_lseek := fun _ w => (-1, w);
     sys_close := fun _ w => w;
     sys_pclose := fun w => (on_pclose k, w);
     sys_fclose := fun w => (0, w);
     sys_fread := fun _ _ _ => on_fread k;
     sys_unlink := fun _ w => w;
     sys_strerror := fun _ => "error";
     curl_easy_setopt_url := fun _ _ => 0;
     curl_easy_perform := fun _ _ _ => ([], 0, "");
     sha1_hex := fun _ => "";
     name2inet := fun name w => (name, w);
     net_check_address2 := fun _ w => (0, w);
     util_umount := fun _ w => (on_umount k, w);
     util_mount_ro := fun _ _ w => (on_mount_ro k, w);
     new_mountpoint := fun w => ("/mounts/mp_" ++ print_u (Z.of_nat w), S w);
     new_download := fun w => ("/download/file_" ++ print_u (Z.of_nat w), S w);
     util_check_exist := fun _ w => (on_check_exist k, w);
     util_is_mountable := fun _ w => (on_is_mountable k, w);
     util_fstype := fun _ w => (on_fstype k, w);
     net_mount_nfs := fun _ _ p w => (on_nfs k p, w);
     net_mount_smb := fun _ _ _ _ _ _ w => (on_smb k, w);
     net_stop := fun c w => (c, w);
     wlan_setup := fun c w => (0, c, w);
     net_config_mask := fun _ _ => 3;
     net_dhcp := fun c w => (c, w);
     net_bootp := fun c w => (c, w);
     net_activate_ns := fun c w => (0, c, w);
     net_ask_password := fun c w => (c, w);
     slp_get_install := fun _ w => (None, w);
     blk_ident := fun _ _ => "";
     match_netdevice := fun dev _ key =>
       match dev, key with
       | Some d, Some k => if streq d k then 1 else 0
       | _, _ => 0
       end;
     update_device_list := fun c w => (c, w);
     hd_list := fun _ w => (on_hd_list k, w);
     url_read_file := fun _ _ _ _ c w => (0, c, w) |}.

Definition example_script : script_t :=
  {| on_fstype := Some "ext3"; on_mount_ro := 0; on_umount := 0;
     on_check_exist := 100 (* 'd' *); on_is_mountable := 1;
     on_nfs := fun _ => 0; on_smb := 0; on_pclose := 0; on_fread := "";
     on_hd_list := [] |}.

Definition init_state (W : Type) (w : W) : state W :=
  {| config := example_config; console := []; world := w |}.

(** The url fields the round trip of the spec compares *)
Definition url_fields (u : url_t)
  : Z * option string * Z * option string * option string * option string
    * option string * option string :=
  (scheme u, server u, port u, share u, path u, user u, password u, domain u).

(* ===================================================================== *)
(** ** Notions of the specification *)
(* ===================================================================== *)

(** The members of [instmode_t] are distinct. *)
Definition instmode_distinct {G : Globals} : Prop :=
  NoDup [inst_none; inst_file; inst_nfs; inst_ftp; inst_smb; inst_http;
         inst_tftp; inst_cdrom; inst_floppy; inst_hd; inst_dvd; inst_slp;
         inst_exec; inst_rel; inst_disk].

(** A string has no recognized scheme when the text before its first
    ':', the whole string when there is none, is not the name of a
    scheme: [file_sym2num] gives a negative number for it. *)
Definition no_recognized_scheme {G : Globals} (str : string) : bool :=
  match strchr_cut ":" str with
  | Some (s0, _) => file_sym2num s0 <? 0
  | None => file_sym2num str <? 0
  end.

Definition has_colon (str : string) : bool := is_some (strchr_cut ":" str).

(** Parse, serialize with [format], parse again. *)
Definition url_reparse {G : Globals} (c : config_t) (format : Z) (s : string)
  : option url_t :=
  match url_set (Some s) with
  | Some u => url_set (url_print c (Some u) format)
  | None => None
  end.

(** The percentages among what was shown *)
Fixpoint reported (out : list out_t) : list Z :=
  match out with
  | Dia_status p :: t => p :: reported t
  | Printf_percent p :: t => p :: reported t
  | _ :: t => reported t
  | [] => []
  end.

(** No character of [s] is [c]. *)
Fixpoint str_free_of (c : ascii) (s : string) : bool :=
  match s with
  | EmptyString => true
  | String a s' => negb (Ascii.eqb a c) && str_free_of c s'
  end.

(** What sniffing decides, and the sniff buffer, are the same in [d]
    and [d']. *)
Definition same_sniff (d d' : url_data_t) : Prop :=
  gzip d' = gzip d /\ cramfs d' = cramfs d /\ orig_name d' = orig_name d
  /\ image_size d' = image_size d
  /\ buf_len d' = buf_len d /\ buf_max d' = buf_max d.

(** The invariant of a transfer: the sniff buffer holds at most
    [buf.max] bytes, it is given up once the stream is classified, and the
    stream is not classified twice. *)
Definition sniff_inv (d : url_data_t) : Prop :=
  0 <= buf_len d <= buf_max d
  /\ (gzip d || cramfs d = true -> buf_max d = 0)
  /\ gzip d && cramfs d = false.

(** A NUL-terminated name starts at [data + 10] in the [len] bytes of
    [data]. *)
Definition gzip_name_at (data : list Byte.byte) (len : Z) (name : string)
  : Prop :=
  exists rest,
    firstn (Z.to_nat (len - 10)) (skipn 10 data)
    = (list_byte_of_string name ++ Byte.x00 :: rest)%list
    /\ str_free_of NUL name = true.

(** The magic of a cramfs image, in either byte order *)
Definition cramfs_magic (be : bool) (data : list Byte.byte) : bool :=
  (load_unsigned be data =? CRAMFS_SUPER_MAGIC)
  || (load_unsigned be data =? CRAMFS_SUPER_MAGIC_BIG).



Section MountLog.

Context {G : Globals} {W : Type} {OS : Sys W}.
Local Open Scope m_scope.

(** The loop of [url_mount] with a log of what [url_mount_disk] returned
    for the candidates it was called on, in order. *)
Fixpoint url_mount_loop_log (hds : list hd_t) (url : url_t)
    (dir : option string) (test_func : option (url_t -> M W (Z * url_t)))
    (err found : Z) (log : list Z) : M W (url_t * Z * Z * list Z) :=
  match hds with
  | [] => ret (url, err, found, log)
  | hd :: rest =>
      if url_mount_skips url hd
      then url_mount_loop_log rest url dir test_func err found log
      else if url_mount_matched url hd =? 0
      then url_mount_loop_log rest url dir test_func err found log
      else
        url <- url_mount_use url hd ;;
        ' (ok, url) <- url_mount_disk url dir test_func ;;
        if negb (ok =? 0) then
          let found := found + 1 in
          let url :=
            if hd_is_hw_class hd hw_cdrom then set_is_cdrom true url
            else url in
          if ok =? 1 then ret (url, err, found, (log ++ [ok])%list)
          else url_mount_loop_log rest url dir test_func err found
                 (log ++ [ok])%list
        else url_mount_loop_log rest url dir test_func 1 found
               (log ++ [ok])%list
  end.

(** Some candidate was accepted: [url_mount_disk] returned non-zero. *)
Definition accepted (log : list Z) : bool := existsb (fun ok => negb (ok =? 0)) log.

(** The device hint as the device to use, lines 1210-1213 *)
Definition url_mount_fallback (url : url_t) : url_t :=
  set_used_unique_id None
    (set_used_hwaddr None
       (set_used_model None (set_used_device (long_dev (device url)) url))).

End MountLog.

(* ===================================================================== *)
(** ** Reading a file through the pipeline: url_read_file *)
(* ===================================================================== *)

Definition set_path (v : option string) (x : url_t) : url_t :=
  {| str := str x; scheme := scheme x; server := server x; share := share x;
     path := v; user := user x; password := password x; domain :=
     domain x; device := device x; instsys := instsys x; mount := mount x;
     tmp_mount := tmp_mount x; port := port x; query := query x;
     is_mountable := is_mountable x; is_network := is_network x; is_cdrom :=
     is_cdrom x; is_file := is_file x; is_wlan := is_wlan x; download :=
     download x; used_device := used_device x; used_hwaddr := used_hwaddr x;
     used_model := used_model x; used_unique_id := used_unique_id x;
     used_server := used_server x |}.

(** What [url_read_file] takes from the rest of linuxrc besides [Sys]:
    util.c, mkdir(2), and the members [secure], [sha1] and
    [sha1_failed] of the global [config], which are kept in the world. *)
Class Sys_file (W : Type) : Type := {
  util_check_exist2 : option string -> option string -> W -> Z * W;
  sys_mkdir : string -> W -> Z * W;
  config_secure : W -> bool;              (* config.secure *)
  config_sha1 : W -> slist_t;             (* config.sha1 *)
  set_config_sha1_failed : W -> W         (* config.sha1_failed = 1 *)
}.

Definition URL_FLAG_NOSHA1 : Z := 4.

Definition chr_d : Z := 100.   (* 'd' *)

(** Lines 1264-1269: the path of the file, [old_path] and [src] joined
    by a '/' unless one of them brings it or is empty; [src] "/" adds
    nothing. *)
Definition test_and_copy_path (old_path src : string) : string :=
  let i := String.length old_path in
  old_path
  ++ (if (negb (Nat.eqb i 0) && Ascii.eqb (str_at (i - 1) old_path) "/")
         || negb (str_nonempty old_path) || negb (str_nonempty src)
         || Ascii.eqb (str_at 0 src) "/"
      then "" else "/")
  ++ (if streq src "/" then "" else src).

(** Lines 1259-1283: the transfer state for the copy. *)
Definition test_and_copy_data (url : url_t) (dst : string)
    (label : option string) (flags : Z) : url_data_t :=
  set_label label
    (set_progress (negb (Z.land flags URL_FLAG_PROGRESS =? 0))
       (set_unzip (negb (Z.land flags URL_FLAG_UNZIP =? 0))
          (set_file_name (Some dst) (set_url (Some url) url_data_new)))).

(** Lines 1303-1305: [i <= j && !strcmp(path + j - i, value)] *)
Definition sha1_path_matches (path value : string) : bool :=
  let i := String.length value in
  let j := String.length path in
  (i <=? j)%nat && streq (str_skip (j - i) path) value.

Section ReadFileModel.

Context {G : Globals} {W : Type} {OS : Sys W} {FS : Sys_file W}.

Local Open Scope m_scope.

(** Lines 1294-1315: with [config.secure] the digest of the file is
    looked up in [config.sha1]; unless the entry names the end of the
    path, [config.sha1_failed] is set. *)
Definition test_and_copy_sha1 (flags : Z) (url_data : url_data_t)
  : M W unit :=
  secure <- sys_read config_secure ;;
  if secure then
    if negb (Z.land flags URL_FLAG_NOSHA1 =? 0) then ret tt
    else
      sha1list <- sys_read config_sha1 ;;
      k <-
        match (match sha1 url_data with
               | Some digest => slist_getentry sha1list digest
               | None => None
               end), url url_data with
        | Some (_, value), Some u =>
            match path u with
            | Some p =>
                match value with
                | Some v => ret (sha1_path_matches p v)
                | None => fault
                end
            | None => ret false
            end
        | Some _, None => fault
        | None, _ => ret false
        end ;;
      if k then ret tt else sys_ set_config_sha1_failed
  else ret tt.

(** [test_and_copy(url)], the function nested in [url_read_file]; 0:
    failed, 1: ok.  [src], [dst], [label] and [flags] are those of the
    enclosing call. *)
Definition test_and_copy (src : option string) (dst : string)
    (label : option string) (flags : Z) (url : url_t) : M W (Z * url_t) :=
  r <-
    (if is_mountable url && negb (scheme url =? inst_file) then
       match mount url with
       | None => ret None
       | Some m =>
           t <- sys (util_check_exist2 (mount url) src) ;;
           if t =? chr_r then
             match url_set (Some ("file:" ++ m)) with
             | Some u => ret (Some u)
             | None => fault
             end
           else ret None
       end
     else ret (Some url)) ;;
  match r with
  | None => ret (0, url)
  | Some u =>
      match path u, src with
      | Some old_path, Some src =>
          c <- get_config ;;
          let u1 := set_path (Some (test_and_copy_path old_path src)) u in
          match url_set (url_print c (Some u1) 1) with
          | None => fault
          | Some data_url =>
              url_data <- url_read (test_and_copy_data data_url dst label
                                      flags) ;;
              if negb (err url_data =? 0) then ret (0, url)
              else
                test_and_copy_sha1 flags url_data ;;;
                ret (1, url)
          end
      | _, _ => fault
      end
  end.

(** Lines 1330-1337: create missing directories.  [pre] is the part of
    [dst] that was gone through, [rest] what follows. *)
Fixpoint url_read_file_dirs (pre rest : string) : M W Z :=
  match rest with
  | EmptyString => ret 0
  | String a rest' =>
      if Ascii.eqb a "/" then
        err <-
          (if str_nonempty pre then
             t <- sys (util_check_exist (Some pre)) ;;
             if negb (t =? chr_d) then sys (sys_mkdir pre) else ret 0
           else ret 0) ;;
        if negb (err =? 0) then ret err
        else url_read_file_dirs (pre ++ "/") rest'
      else url_read_file_dirs (pre ++ String a "") rest'
  end.

(** Lines 1347-1359: without [src] the last part of the path is the
    file.  [None]: [return 1]. *)
Definition url_read_file_src (url : url_t) (src : option string)
  : M W (option (option string * url_t)) :=
  match src with
  | Some _ => ret (Some (src, url))
  | None =>
      if scheme url =? inst_nfs then
        match path url with
        | None => fault
        | Some p =>
            match strrchr_cut "/" p with
            | None => ret None
            | Some (parent, s) => ret (Some (Some s, set_path (Some parent) url))
            end
        end
      else
        ret (Some (path url,
                   set_path (Some (if is_mountable url then "/" else ""))
                     url))
  end.

(** [url_read_file(url, dir, src, dst, label, flags)], lines 1236-1380;
    0: ok, 1: failed.  Gives the url as the call leaves it.  (The member
    [url_read_file] of [Sys] stands for the call of this function inside
    [url_mount_disk].) *)
Definition url_read_file_fn (url : option url_t)
    (dir src dst label : option string) (flags : Z)
  : M W (Z * option url_t) :=
  match dst with
  | None => ret (1, url)
  | Some dst =>
      sys_ (sys_unlink dst) ;;;
      err <- url_read_file_dirs "" dst ;;
      if negb (err =? 0) then ret (1, url)
      else
        match url with
        | None => fault
        | Some u =>
            if negb (is_some src) && is_some (mount u) then ret (1, url)
            else
              r <- url_read_file_src u src ;;
              match r with
              | None => ret (1, Some u)
              | Some (src, u) =>
                  match mount u with
                  | Some m =>
                      match url_set (Some ("file:" ++ m)) with
                      | None => fault
                      | Some file_url =>
                          ' (ok, _) <- test_and_copy src dst label flags
                                         file_url ;;
                          ret (if negb (ok =? 0) then 0 else 1, Some u)
                      end
                  | None =>
                      if is_mountable u && negb (scheme u =? inst_file) then
                        ' (err, u) <-
                          url_mount u dir
                            (Some (test_and_copy src dst label flags)) ;;
                        ret (err, Some u)
                      else
                        ' (ok, _) <- test_and_copy src dst label flags u ;;
                        ret (if negb (ok =? 0) then 0 else 1, Some u)
                  end
              end
        end
  end.

End ReadFileModel.

(* ===================================================================== *)
(** ** Finding the instsys: url_find_instsys *)
(* ===================================================================== *)

Definition set_download (v : bool) (x : url_t) : url_t :=
  {| str := str x; scheme := scheme x; server := server x; share := share x;
     path := path x; user := user x; password := password x; domain :=
     domain x; device := device x; instsys := instsys x; mount := mount x;
     tmp_mount := tmp_mount x; port := port x; query := query x;
     is_mountable := is_mountable x; is_network := is_network x; is_cdrom :=
     is_cdrom x; is_file := is_file x; is_wlan := is_wlan x; download :=
     v; used_device := used_device x; used_hwaddr := used_hwaddr x;
     used_model := used_model x; used_unique_id := used_unique_id x;
     used_server := used_server x |}.

(** The texts [url_find_instsys] asks [txt_get] for *)
Inductive txt_id : Type :=
| TXT_LOADING_RESCUE
| TXT_LOADING_INSTSYS
| TXT_LOADING_FONTS.

(** What [url_find_instsys] takes from the rest of linuxrc besides [Sys]
    and [Sys_file]: the members [download.instsys], [rescue] and
    [url.instsys2] of the global [config], which are kept in the world,
    [current_language()->xfonts] and the texts of [txt_get]. *)
Class Sys_instsys (W : Type) : Type := {
  config_download_instsys : W -> bool;
  config_rescue : W -> bool;
  config_url_instsys2 : W -> option url_t;
  set_config_url_instsys2 : url_t -> W -> W;
  language_xfonts : W -> bool;
  txt_get : txt_id -> string
}.

Section FindInstsysModel.

Context {G : Globals} {W : Type} {OS : Sys W} {FS : Sys_file W}
        {IS : Sys_instsys W}.

Local Open Scope m_scope.

(** Lines 1542-1559 and 1565-1582: a mountable url is mounted at [dir];
    any other is read to a new download file, which is mounted at [dir]
    and noted as the url's mountpoint. *)
Definition url_find_instsys_load (label : txt_id) (url : url_t)
    (dir : option string) : M W (Z * url_t) :=
  if is_mountable url then url_mount url dir None
  else
    file_name <- sys new_download ;;
    ' (err, r) <-
      url_read_file_fn (Some url) None None (Some file_name)
        (Some (txt_get label)) (URL_FLAG_PROGRESS + URL_FLAG_UNZIP) ;;
    match r with
    | None => fault
    | Some url =>
        err <- (if err =? 0 then sys (util_mount_ro (Some file_name) dir)
                else ret err) ;;
        ret (err, if err =? 0 then set_mount dir url else url)
    end.

(** [url_find_instsys(url, dir)], lines 1528-1588; 0: ok, 1: failed.
    Gives the url as the call leaves it; [config.url.instsys2] is another
    url than [url]. *)
Definition url_find_instsys (url : option url_t) (dir : option string)
  : M W (Z * option url_t) :=
  instsys2 <- sys_read config_url_instsys2 ;;
  rescue <- sys_read config_rescue ;;
  xfonts <- sys_read language_xfonts ;;
  let get_instsys2 := is_some instsys2 && negb rescue && xfonts in
  match url with
  | None => ret (1, None)
  | Some u =>
      if (scheme u =? 0) || (scheme u =? inst_rel) || negb (is_some (path u))
      then ret (1, url)
      else
        download_instsys <- sys_read config_download_instsys ;;
        let u := if download_instsys || rescue then set_download true u
                 else u in
        ' (err, u) <-
          url_find_instsys_load
            (if rescue then TXT_LOADING_RESCUE else TXT_LOADING_INSTSYS)
            u dir ;;
        if (err =? 0) && get_instsys2 then
          url2 <- sys_read config_url_instsys2 ;;
          match url2 with
          | None => fault
          | Some u2 =>
              dir2 <- sys new_mountpoint ;;
              ' (err, u2) <-
                url_find_instsys_load TXT_LOADING_FONTS u2 (Some dir2) ;;
              sys_ (set_config_url_instsys2 u2) ;;;
              ret (err, Some u)
          end
        else ret (err, Some u)
  end.

End FindInstsysModel.

(* ===================================================================== *)
(** ** insmod.c: the names of versioned symbols *)
(* ===================================================================== *)

(** [strcmp]: 0 for equal strings, else the difference of the first
    characters that differ, taken as [unsigned char], with NUL at the
    end of a string. *)
Fixpoint strcmp (a b : string) : Z :=
  match a, b with
  | String x a', String y b' =>
      if Ascii.eqb x y then strcmp a' b' else code x - code y
  | String x _, EmptyString => code x
  | EmptyString, String y _ => - code y
  | EmptyString, EmptyString => 0
  end.

(** [strncmp(a, b, n)] *)
Definition strncmp (a b : string) (n : nat) : Z :=
  strcmp (str_take n a) (str_take n b).

Section NcvModel.

(** The static [ncv_prefix] as [set_ncv_prefix] left it, the empty
    string while it is [NULL]; [ncv_plen] is its length. *)
Variable ncv_prefix : string.

(** [obj_elf_hash_n(name, n)] of obj_common.c *)
Variable obj_elf_hash_n : string -> nat -> Z.

Definition ncv_plen : nat := String.length ncv_prefix.

(** [ncv_strcmp(a, b)], lines 1924-1939: string comparison for
    non-co-versioned kernel and module. *)
Definition ncv_strcmp (a b : string) : Z :=
  let alen := String.length a in
  let blen := String.length b in
  if Nat.eqb blen (alen + 10 + ncv_plen)
     && Ascii.eqb (str_at alen b) "_"
     && Ascii.eqb (str_at (alen + 1) b) "R"
     && negb (negb (Nat.eqb ncv_plen 0)
              && negb (strncmp (str_skip (alen + 2) b) ncv_prefix ncv_plen
                       =? 0))
  then strncmp a b alen
  else if Nat.eqb alen (blen + 10 + ncv_plen)
          && Ascii.eqb (str_at blen a) "_"
          && Ascii.eqb (str_at (blen + 1) a) "R"
          && negb (negb (Nat.eqb ncv_plen 0)
                   && negb (strncmp (str_skip (blen + 2) a) ncv_prefix
                              ncv_plen =? 0))
  then strncmp a b blen
  else strcmp a b.

(** [ncv_symbol_hash(str)], lines 1945-1958: the crc is dropped from the
    hash. *)
Definition ncv_symbol_hash (str : string) : Z :=
  let len := String.length str in
  let len :=
    if Nat.ltb (10 + ncv_plen) len
       && Ascii.eqb (str_at (len - 10 - ncv_plen) str) "_"
       && Ascii.eqb (str_at (len - 9 - ncv_plen) str) "R"
       && negb (negb (Nat.eqb ncv_plen 0)
                && negb (strncmp (str_skip (len - (8 + ncv_plen)) str)
                           ncv_prefix ncv_plen =? 0))
    then (len - (10 + ncv_plen))%nat
    else len in
  obj_elf_hash_n str len.

(** The name [base] with the version [crc] of this kernel:
    [base_R<prefix><crc>] *)
Definition ncv_versioned (base crc : string) : string :=
  base ++ "_R" ++ ncv_prefix ++ crc.

End NcvModel.

(* ===================================================================== *)
(** ** Further notions *)
(* ===================================================================== *)

(** The bytes curl hands to the write callback during a transfer *)
Fixpoint curl_bytes (events : list curl_event) : list Byte.byte :=
  match events with
  | [] => []
  | Curl_write buffer :: rest => (buffer ++ curl_bytes rest)%list
  | Curl_progress _ _ :: rest => curl_bytes rest
  end.

(** An open destination is not lost: while no error is noted, a
    destination that was opened is open. *)
Definition opened_ok (d : url_data_t) : Prop :=
  file_opened d = true -> err d = 0 -> f d = true.

(** The fields of a url that mounting may change: the two mountpoints,
    the device annotation and the flags file, cdrom and wlan; [u'] is
    [u] with those fields as [v] has them. *)
Definition url_mounted_as (v u : url_t) : url_t :=
  set_mount (mount v)
    (set_tmp_mount (tmp_mount v)
       (set_is_file (is_file v)
          (set_is_cdrom (is_cdrom v)
             (set_is_wlan (is_wlan v)
                (set_used_device (used_device v)
                   (set_used_hwaddr (used_hwaddr v)
                      (set_used_model (used_model v)
                         (set_used_unique_id (used_unique_id v)
                            (set_used_server (used_server v) u))))))))).

(** A test function that leaves the url as it is *)
Definition keeps_url {W : Type}
    (test_func : option (url_t -> M W (Z * url_t))) : Prop :=
  match test_func with
  | Some test =>
      forall u s r u' s', test u s = Some ((r, u'), s') -> u' = u
  | None => True
  end.






(* ===================================================================== *)
(** ** Further concrete systems *)
(* ===================================================================== *)

(** A scripted transfer and network: what libcurl hands out and how it
    ends, how an address checks, and the file system found on a
    device. *)
Record machine_t : Type := Build_machine {
  on_events : list curl_event;
  on_code : Z;
  on_message : string;
  on_check_address : option string -> Z;
  on_fstype_of : option string -> option string
}.

(** The scripted system [script_sys] with the transfer, the address check
    and the file systems of a machine; the digest of a stream is written
    as the stream itself. *)
Definition machine_sys (k : script_t) (m : machine_t) : Sys nat :=
  let os := script_sys k in
  {| sys_mkstemp := @sys_mkstemp nat os;
     sys_open := @sys_open nat os;
     sys_popen_gzip := @sys_popen_gzip nat os;
     sys_fopen := @sys_fopen nat os;
     sys_fwrite := @sys_fwrite nat os;
     sys_lseek := @sys_lseek nat os;
     sys_close := @sys_close nat os;
     sys_pclose := @sys_pclose nat os;
     sys_fclose := @sys_fclose nat os;
     sys_fread := @sys_fread nat os;
     sys_unlink := @sys_unlink nat os;
     sys_strerror := @sys_strerror nat os;
     curl_easy_setopt_url := @curl_easy_setopt_url nat os;
     curl_easy_perform := fun _ _ _ => (on_events m, on_code m, on_message m);
     sha1_hex := string_of_list_byte;
     name2inet := @name2inet nat os;
     net_check_address2 := fun name w => (on_check_address m name, w);
     util_umount := @util_umount nat os;
     util_mount_ro := @util_mount_ro nat os;
     new_mountpoint := @new_mountpoint nat os;
     new_download := @new_download nat os;
     util_check_exist := @util_check_exist nat os;
     util_is_mountable := @util_is_mountable nat os;
     util_fstype := fun dev w => (on_fstype_of m dev, w);
     net_mount_nfs := @net_mount_nfs nat os;
     net_mount_smb := @net_mount_smb nat os;
     net_stop := @net_stop nat os;
     wlan_setup := @wlan_setup nat os;
     net_config_mask := @net_config_mask nat os;
     net_dhcp := @net_dhcp nat os;
     net_bootp := @net_bootp nat os;
     net_activate_ns := @net_activate_ns nat os;
     net_ask_password := @net_ask_password nat os;
     slp_get_install := @slp_get_install nat os;
     blk_ident := @blk_ident nat os;
     match_netdevice := @match_netdevice nat os;
     update_device_list := @update_device_list nat os;
     hd_list := @hd_list nat os;
     url_read_file := @url_read_file nat os |}.

(** A download of 600 bytes in two chunks, announced by curl; every
    address checks; /dev/sda1 holds swap space and any other device an
    ext3 file system. *)
Definition example_machine : machine_t :=
  {| on_events := [Curl_progress 600 0;
                   Curl_write (repeat Byte.x41 300);
                   Curl_progress 600 300;
                   Curl_write (repeat Byte.x42 300)];
     on_code := 0;
     on_message := "";
     on_check_address := fun _ => 0;
     on_fstype_of := fun dev =>
       match dev with
       | Some d => if streq d "/dev/sda1" then Some "swap" else Some "ext3"
       | None => None
       end |}.

(** The same machine behind a proxy whose address does not check *)
Definition bad_proxy_machine : machine_t :=
  {| on_events := on_events example_machine;
     on_code := 0;
     on_message := "";
     on_check_address := fun _ => 1;
     on_fstype_of := on_fstype_of example_machine |}.

(** A disk partition as libhd lists it *)
Definition example_disk (dev id : string) : hd_t :=
  {| hd_res := []; hd_hw_class := [hw_block]; hd_child_ids := false;
     hd_unix_dev_name := Some dev; hd_unix_dev_names := [];
     hd_model := Some "Disk"; hd_unique_id := Some id;
     hd_is_wlan := false |}.

(** The two partitions /dev/sda1 and /dev/sdb1 in the hardware list *)
Definition two_disks_script : script_t :=
  {| on_fstype := on_fstype example_script;
     on_mount_ro := 0; on_umount := 0;
     on_check_exist := on_check_exist example_script;
     on_is_mountable := on_is_mountable example_script;
     on_nfs := on_nfs example_script; on_smb := 0; on_pclose := 0;
     on_fread := "";
     on_hd_list := [example_disk "/dev/sda1" "id-a";
                    example_disk "/dev/sdb1" "id-b"] |}.

(** A file system in which every file asked for is there and every
    directory can be made; no digests are required. *)
Definition example_files : Sys_file nat :=
  {| util_check_exist2 := fun _ _ w => (chr_r, w);
     sys_mkdir := fun _ w => (0, w);
     config_secure := fun _ => false;
     config_sha1 := fun _ => [];
     set_config_sha1_failed := fun w => w |}.

(** An installation without rescue system and second instsys, which
    downloads the instsys *)
Definition example_instsys : Sys_instsys nat :=
  {| config_download_instsys := fun _ => true;
     config_rescue := fun _ => false;
     config_url_instsys2 := fun _ => None;
     set_config_url_instsys2 := fun _ w => w;
     language_xfonts := fun _ => false;
     txt_get := fun id =>
       match id with
       | TXT_LOADING_RESCUE => "Loading Rescue System"
       | TXT_LOADING_INSTSYS => "Loading Installation System"
       | TXT_LOADING_FONTS => "Loading Fonts"
       end |}.

(** The url of a string that [url_set] takes *)
Definition example_url (s : string) : url_t :=
  match url_set (G := example_globals) (Some s) with
  | Some u => u
  | None => url_calloc
  end.

(* ===================================================================== *)
(** * Properties *)
(* ===================================================================== *)

(** Projections of record updates *)
Ltac data_simpl :=
  cbn [
    url file_name err err_buf curl_err_buf err_buf_len p_now p_total
    zp_now zp_total flush cramfs unzip gzip label_shown file_opened
    image_size label percent pipe_fd tmp_file buf_len buf_max buf_data
    f progress orig_name sha1_ctx sha1 set_url set_file_name set_unzip
    set_progress set_label set_err set_err_buf set_curl_err_buf
    set_p_now set_p_total set_zp_now set_zp_total set_flush set_cramfs
    set_gzip set_label_shown set_file_opened set_image_size
    set_percent set_pipe_fd set_tmp_file set_buf_len set_buf_max
    set_buf_data set_f set_orig_name set_sha1_ctx set_sha1
  ] in *.

Ltac url_simpl :=
  cbn [
    str scheme server share path user password domain device instsys
    mount tmp_mount port query is_mountable is_network is_cdrom
    is_file is_wlan download used_device used_hwaddr used_model
    used_unique_id used_server set_mount set_tmp_mount set_is_cdrom
    set_is_file set_is_wlan set_used_device set_used_hwaddr
    set_used_model set_used_unique_id set_used_server slp_rewrite
    clear_used
  ] in *.

(** ** The URL model *)

Section UrlFacts.

Context {G : Globals}.

Lemma url_set_slash_mountable (p : option string) :
  exists q, url_set_slash true p = Some (String "/" q).
Proof.
  destruct p as [[|a p]|]; simpl; try (eexists; reflexivity).
  destruct a as [[] [] [] [] [] [] [] []]; simpl; eexists; reflexivity.
Qed.

(** What [url_set] returns, field by field, is fixed by the steps of the
    parse; the path comes from [url_set_slash]. *)
Lemma url_set_path_shape (s : string) (u : url_t) :
  url_set (Some s) = Some u ->
  is_mountable u = mountable_scheme (scheme u)
  /\ exists p, path u = url_set_slash (mountable_scheme (scheme u)) p.
Proof.
  unfold url_set.
  destruct (url_set_split (cstr s)) as [[[sch tmp] q] p].
  destruct (match tmp with
            | Some t => url_set_authority t
            | None => (None, None, None, 0, None)
            end) as [[[[dom usr] pw] prt] srv].
  destruct (url_set_share sch p) as [sh p'].
  destruct (url_set_device sch (option_map curl_easy_unescape p'))
    as [[dev p'']|]; [|discriminate].
  destruct (match slist_getentry q "device" with
            | Some (_, value) =>
                match short_dev value with
                | Some s0 => Some (if str_nonempty s0 then Some s0 else None)
                | None => None
                end
            | None => Some dev
            end) as [dev'|]; [|discriminate].
  intros H. injection H as <-. simpl. split; [reflexivity|].
  now exists p''.
Qed.

(** C3.  For every input string whose parsed scheme is mountable (file,
    nfs, smb, cdrom, floppy, hd, disk, dvd, exec), the url that [url_set]
    returns has a path, and the path begins with '/': whether the path of
    the input had no leading '/' or the input had no path at all. *)
Theorem url_set_mountable_leading_slash (s : string) (u : url_t) :
  url_set (Some s) = Some u ->
  mountable_scheme (scheme u) = true ->
  is_mountable u = true /\ exists p, path u = Some (String "/" p).
Proof.
  intros Hset Hm.
  destruct (url_set_path_shape s Hset) as [Hflag [p Hp]].
  rewrite Hm in Hflag, Hp. split; [exact Hflag|].
  destruct (url_set_slash_mountable p) as [q Hq].
  exists q. now rewrite Hp.
Qed.

End UrlFacts.

Section UrlReturns.

Context {G : Globals}.

Hypothesis short_dev_some : forall d, short_dev (Some d) <> None.

Lemma url_set_probe_returns (fuel : nat) (pre rest : string)
    (device path : option string) :
  url_set_probe fuel pre rest device path <> None.
Proof.
  revert pre rest device path.
  induction fuel as [|fuel IH]; intros pre rest device path;
    cbn [url_set_probe]; [discriminate|].
  destruct (strchr_cut "/" rest) as [[seg after]|];
    match goal with
    | |- context [stat ?t] => destruct (stat t) as [mode|]; [|discriminate]
    end;
    destruct (S_ISBLK mode);
    try match goal with
        | |- context [short_dev (Some ?t)] =>
            pose proof (short_dev_some t);
            destruct (short_dev (Some t)); [|contradiction]
        end;
    destruct (S_ISDIR mode); cbn [negb]; try discriminate; apply IH.
Qed.

(** [url_set] returns a url for every string, unless the query has a
    [device] key without a value. *)
Lemma url_set_returns (s : string) :
  (forall k, slist_getentry
               (let '(_, _, q, _) := url_set_split (cstr s) in q) "device"
             <> Some (k, None)) ->
  exists u, url_set (Some s) = Some u.
Proof.
  unfold url_set.
  destruct (url_set_split (cstr s)) as [[[sch tmp] q] p].
  intros Hq.
  destruct (match tmp with
            | Some t => url_set_authority t
            | None => (None, None, None, 0, None)
            end) as [[[[dom usr] pw] prt] srv].
  destruct (url_set_share sch p) as [sh p'].
  assert (Hd : url_set_device sch (option_map curl_easy_unescape p') <> None).
  { unfold url_set_device.
    destruct (option_map curl_easy_unescape p'); [|discriminate].
    destruct (disk_scheme sch); [|discriminate].
    apply url_set_probe_returns. }
  destruct (url_set_device sch (option_map curl_easy_unescape p'))
    as [[dev p'']|]; [|contradiction].
  destruct (slist_getentry q "device") as [[k [v|]]|].
  - pose proof (short_dev_some v).
    destruct (short_dev (Some v)); [|contradiction]. eauto.
  - exfalso. now apply (Hq k).
  - eauto.
Qed.

End UrlReturns.

Section UrlSoftFailure.

Context {G : Globals}.

Hypothesis distinct : instmode_distinct.

Lemma distinct_none_not_mountable : mountable_scheme inst_none = false.
Proof.
  unfold instmode_distinct in distinct.
  apply NoDup_cons_iff in distinct. destruct distinct as [Hn _].
  unfold mountable_scheme.
  repeat match goal with
         | |- (_ || _)%bool = false => apply orb_false_iff; split
         | |- (_ =? _) = false =>
             apply Z.eqb_neq; intros E; apply Hn; rewrite E; simpl; tauto
         end.
Qed.

Lemma distinct_rel_plain :
  (inst_rel =? inst_smb) = false /\ disk_scheme inst_rel = false
  /\ mountable_scheme inst_rel = false.
Proof.
  unfold instmode_distinct in distinct.
  repeat match goal with
         | H : NoDup (_ :: _) |- _ =>
             apply NoDup_cons_iff in H; destruct H as [? H]
         end.
  unfold disk_scheme, mountable_scheme.
  repeat match goal with
         | |- _ /\ _ => split
         | |- (_ || _)%bool = false => apply orb_false_iff; split
         | |- (_ =? _) = false =>
             apply Z.eqb_neq; intros E;
             match goal with
             | Hn : ~ In _ _ |- _ =>
                 solve [apply Hn; rewrite E; simpl; tauto
                       |apply Hn; rewrite <- E; simpl; tauto]
             end
         end.
Qed.

(** C2, as the code has it.  For every input string without a recognized
    scheme, [url_set] returns a url, never [NULL] or an error code.  If
    the string has a ':', the url has the scheme none and no path.  If it
    has none, and [file_sym2num] gives -1 for it as for any string that
    is no scheme name, the empty string included, the url has the scheme
    relative and the unescaped string as its path. *)
Theorem url_set_fails_softly (s : string) :
  no_recognized_scheme (cstr s) = true ->
  exists u, url_set (Some s) = Some u /\
    if has_colon (cstr s) then scheme u = inst_none /\ path u = None
    else if file_sym2num (cstr s) =? -1
         then scheme u = inst_rel
              /\ path u = Some (curl_easy_unescape (cstr s))
         else scheme u = inst_none /\ path u = None.
Proof.
  unfold no_recognized_scheme, has_colon, url_set, url_set_split.
  destruct (strchr_cut ":" (cstr s)) as [[s0 s1]|]; simpl; intros Hneg.
  - apply Z.ltb_lt in Hneg.
    destruct (Z.leb_spec 0 (file_sym2num s0)) as [Hle|_]; [lia|].
    simpl. rewrite distinct_none_not_mountable.
    eexists; split; [reflexivity|]. simpl. now split.
  - apply Z.ltb_lt in Hneg.
    destruct (Z.leb_spec 0 (file_sym2num (cstr s))) as [Hle|_]; [lia|].
    destruct (Z.eqb_spec (file_sym2num (cstr s)) (-1)) as [E|E].
    + destruct distinct_rel_plain as [Hsmb [Hdisk Hmnt]].
      unfold url_set_share, url_set_device. rewrite Hsmb, Hdisk. simpl.
      rewrite Hmnt.
      eexists; split; [reflexivity|]. simpl. now split.
    + simpl. rewrite distinct_none_not_mountable.
      eexists; split; [reflexivity|]. simpl. now split.
Qed.

End UrlSoftFailure.

(** *** The URL model on concrete strings *)

Lemma example_instmode_distinct : instmode_distinct (G := example_globals).
Proof.
  unfold instmode_distinct. simpl.
  repeat (constructor; [simpl; intuition discriminate|]).
  constructor.
Qed.

(** C1, where the code departs from it.  "file:/a%2541" parses to the
    path "/a%41"; [url_print] writes the path as it is, without the
    escaping it applies to user and password, so the serialization is
    "file:/a%41" in every format, and parsing that gives the path "/aA":
    the fields of the second parse differ from those of the first. *)
Theorem url_roundtrip_loses_escapes :
  exists u u' : url_t,
    url_set (G := example_globals) (Some "file:/a%2541") = Some u
    /\ path u = Some "/a%41"
    /\ (forall format, In format [0; 1; 2] ->
        url_print (G := example_globals) example_config (Some u) format
        = Some "file:/a%41"
        /\ url_reparse (G := example_globals) example_config format
             "file:/a%2541" = Some u')
    /\ path u' = Some "/aA"
    /\ url_fields u' <> url_fields u.
Proof.
  eexists. eexists.
  split; [vm_compute; reflexivity|].
  split; [reflexivity|].
  split.
  - intros format [<-|[<-|[<-|[]]]]; split; vm_compute; reflexivity.
  - split; [reflexivity|]. vm_compute. discriminate.
Qed.

(** The same loss without any escape: the path "/x" of
    "http://server//x" is written as "http://server/x", whose path is
    "x"; only for ftp does [url_print] keep the leading '/' (as "%2F"). *)
Lemma url_roundtrip_loses_leading_slash :
  exists u u' : url_t,
    url_set (G := example_globals) (Some "http://server//x") = Some u
    /\ url_print (G := example_globals) example_config (Some u) 2
       = Some "http://server/x"
    /\ url_reparse (G := example_globals) example_config 2 "http://server//x"
       = Some u'
    /\ path u = Some "/x" /\ path u' = Some "x".
Proof.
  eexists. eexists.
  split; [vm_compute; reflexivity|].
  repeat split; vm_compute; reflexivity.
Qed.

(** C2 as the specification states it fails: the empty string has no
    recognized scheme, yet its url has the scheme relative, not none. *)
Lemma url_set_empty_is_relative :
  ~ (forall (s : string) (u : url_t),
        s = "" \/ no_recognized_scheme (G := example_globals) s = true ->
        url_set (G := example_globals) (Some s) = Some u ->
        scheme u = inst_none).
Proof.
  intros H.
  specialize (H "" _ (or_introl eq_refl) eq_refl).
  vm_compute in H. discriminate H.
Qed.

Lemma url_set_fails_softly_witness :
  instmode_distinct (G := example_globals)
  /\ no_recognized_scheme (G := example_globals) (cstr "foo") = true
  /\ exists u, url_set (G := example_globals) (Some "foo") = Some u /\
       if has_colon (cstr "foo") then scheme u = inst_none /\ path u = None
       else if file_sym2num (Globals := example_globals) (cstr "foo") =? -1
            then scheme u = inst_rel (Globals := example_globals)
                 /\ path u = Some (curl_easy_unescape (cstr "foo"))
            else scheme u = inst_none /\ path u = None.
Proof.
  split; [exact example_instmode_distinct|].
  split; [reflexivity|].
  apply (@url_set_fails_softly example_globals example_instmode_distinct "foo").
  reflexivity.
Defined.

Lemma url_set_mountable_leading_slash_witness :
  exists u, url_set (G := example_globals) (Some "nfs://server") = Some u
    /\ mountable_scheme (G := example_globals) (scheme u) = true
    /\ is_mountable u = true /\ exists p, path u = Some (String "/" p).
Proof.
  eexists. split; [vm_compute; reflexivity|].
  split; [reflexivity|].
  apply (@url_set_mountable_leading_slash example_globals "nfs://server");
    reflexivity.
Defined.

(** ** The transfer pipeline: progress *)

Section ProgressFacts.

Context {G : Globals}.

Lemma progress_percent_le_100 (d : url_data_t) : progress_percent d <= 100.
Proof.
  unfold progress_percent.
  match goal with |- (if 100 <? ?x then _ else _) <= _ =>
    destruct (Z.ltb_spec 100 x) end; lia.
Qed.

(** X4. What [url_progress] shows as a percentage is at most 100. *)
Lemma url_progress_reported_le_100 (c : config_t) (d : url_data_t) (stage : Z) :
  Forall (fun p => p <= 100) (reported (snd (url_progress c d stage))).
Proof.
  unfold url_progress.
  pose proof (progress_percent_le_100 d) as Hle.
  destruct (stage =? 0).
  { simpl. destruct (with_win c); simpl; constructor. }
  destruct (stage =? 2).
  { simpl. destruct (with_win c), (negb (err d =? 0)), (negb (debug c =? 0));
      simpl; constructor. }
  assert (Hp : forall d', progress_percent d' = progress_percent d ->
                          progress_percent d' <= 100) by (intros; lia).
  destruct (negb (label_shown d)), (with_win c),
    (0 <=? progress_percent d) eqn:E0;
    simpl; rewrite ?E0;
    repeat match goal with
           | |- context [if ?b then _ else _] => destruct b; simpl
           end;
    repeat constructor; assumption.
Qed.

Lemma to_int32_small (n : Z) : 0 <= n < 2 ^ 31 -> to_int32 n = n.
Proof.
  intros H. unfold to_int32.
  rewrite Z.mod_small by lia.
  destruct (Z.ltb_spec n (2 ^ 31)); lia.
Qed.

Lemma to_uint64_small (n : Z) : 0 <= n < 2 ^ 64 -> to_uint64 n = n.
Proof. intros H. unfold to_uint64. now rewrite Z.mod_small. Qed.

(** X5. With fixed totals and counters that do not decrease, the percentage
    does not decrease as long as the quotient fits an [int]: that is so
    whenever the counter stays below 21474836 times the total. *)
Lemma progress_percent_monotone (d d' : url_data_t) :
  p_total d' = p_total d -> zp_total d' = zp_total d ->
  0 <= p_total d -> 0 <= zp_total d ->
  0 <= p_now d <= p_now d' -> 0 <= zp_now d <= zp_now d' ->
  p_now d' < 2 ^ 32 -> zp_now d' < 2 ^ 32 ->
  p_now d' <= 21474836 * p_total d ->
  zp_now d' <= 21474836 * zp_total d ->
  progress_percent d <= progress_percent d'.
Proof.
  intros Hp Hzp Hp0 Hzp0 Hn Hzn Hb Hzb Hr Hzr.
  unfold progress_percent. rewrite Hp, Hzp.
  assert (Hq : forall now now' total,
             0 < total -> 0 <= now <= now' -> now' < 2 ^ 32 ->
             now' <= 21474836 * total ->
             to_int32 (to_uint64 (100 * now) / total)
             <= to_int32 (to_uint64 (100 * now') / total)).
  { intros now now' total Ht Hnow Hlt Hratio.
    rewrite !to_uint64_small by lia.
    assert (100 * now / total <= 100 * now' / total)
      by (apply Z.div_le_mono; lia).
    assert (100 * now' / total < 2 ^ 31).
    { apply Z.div_lt_upper_bound; [lia|]. change (2 ^ 31) with 2147483648. lia. }
    assert (0 <= 100 * now / total) by (apply Z.div_pos; lia).
    rewrite !to_int32_small by lia. lia. }
  destruct (Z.eqb_spec (p_total d) 0) as [E|E]; cbn [negb].
  - destruct (Z.eqb_spec (zp_total d) 0) as [Ez|Ez]; cbn [negb];
      [simpl; lia|].
    specialize (Hq (zp_now d) (zp_now d') (zp_total d)
                  ltac:(lia) ltac:(lia) ltac:(lia) ltac:(lia)).
    repeat match goal with
           | |- context [if ?a <? ?b then _ else _] => destruct (Z.ltb_spec a b)
           end; lia.
  - specialize (Hq (p_now d) (p_now d') (p_total d)
                  ltac:(lia) ltac:(lia) ltac:(lia) ltac:(lia)).
    repeat match goal with
           | |- context [if ?a <? ?b then _ else _] => destruct (Z.ltb_spec a b)
           end; lia.
Qed.

End ProgressFacts.

(** C6, where the code departs from it.  With the total fixed at 1 and
    the counter going from 1 to 42949673 the percentage shown is 100 and
    then 4: the quotient 4294967300 is narrowed to [int] before it is
    clamped to 100. *)
Theorem url_progress_percent_wraps :
  let d0 := set_p_total 1 url_data_new in
  exists d1 d2 out1 out2,
    url_progress (G := example_globals) example_config (set_p_now 1 d0) 1
    = (0, d1, out1)
    /\ url_progress (G := example_globals) example_config
         (set_p_now 42949673 d1) 1 = (0, d2, out2)
    /\ p_total d1 = 1 /\ p_total d2 = 1
    /\ reported out1 = [100] /\ reported out2 = [4].
Proof.
  simpl. do 4 eexists.
  split; [vm_compute; reflexivity|].
  split; [vm_compute; reflexivity|].
  repeat split.
Qed.

(** ** The transfer pipeline: the end of a gzip stream *)

Section ReadCloseFacts.

Context {W : Type} {OS : Sys W}.

(** C9, where the code departs from it.  When the decompressor exits
    with a code other than 0 and 2, the error is 103 and the message is
    "gzip: command terminated" whatever the captured stderr text is: the
    text is copied to the message and then overwritten.  With the exit
    codes 0 and 2 error and message stay as they are. *)
Theorem url_read_close_gzip_status (d : url_data_t) (s : state W)
    (status : Z) (w' : W) :
  f d = true -> 0 <= pipe_fd d ->
  sys_pclose (world s) = (status, w') ->
  WIFEXITED status = true ->
  exists d' s', url_read_close d s = Some (d', s')
    /\ if (WEXITSTATUS status =? 0) || (WEXITSTATUS status =? 2)
       then err d' = err d /\ err_buf d' = err_buf d
       else err d' = 103
            /\ err_buf d'
               = snprintf (err_buf_len d) "gzip: command terminated".
Proof.
  intros Hf Hfd Hclose Hexit.
  unfold url_read_close. rewrite Hf.
  destruct (Z.leb_spec 0 (pipe_fd d)) as [_|]; [|lia].
  unfold bind at 1. unfold sys at 1. rewrite Hclose.
  cbn [pipe_fd set_f].
  destruct (Z.leb_spec 0 (pipe_fd d)) as [_|]; [|lia].
  rewrite Hexit.
  destruct (WEXITSTATUS status =? 0); simpl.
  { do 2 eexists. split; [reflexivity|]. now split. }
  destruct (WEXITSTATUS status =? 2); simpl.
  { do 2 eexists. split; [reflexivity|]. now split. }
  destruct (tmp_file d) as [tmp|]; unfold bind, sys_read, ret; simpl;
    do 2 eexists; (split; [reflexivity|]);
    repeat match goal with
           | |- context [if ?b then _ else _] => destruct b
           end; now split.
Qed.

End ReadCloseFacts.

Lemma url_read_close_gzip_status_witness :
  let k := {| on_fstype := None; on_mount_ro := 0; on_umount := 0;
              on_check_exist := 0; on_is_mountable := 0;
              on_nfs := fun _ => 0; on_smb := 0;
              on_pclose := 256 (* exit code 1 *);
              on_fread := "gzip: stdin: not in gzip format" ++ String "010" "";
              on_hd_list := [] |} in
  let d := set_tmp_file (Some "/tmp/foo_000000")
             (set_pipe_fd 4 (set_f true (set_gzip true url_data_new))) in
  exists d' s',
    url_read_close (OS := script_sys k) d
      (init_state O) = Some (d', s')
    /\ err d' = 103 /\ err_buf d' = "gzip: command terminated".
Proof.
  intros k d.
  destruct (@url_read_close_gzip_status nat (script_sys k)
              d (init_state O) 256 O) as [d' [s' [H1 H2]]];
    try reflexivity; [vm_compute; discriminate|].
  exists d', s'. split; [exact H1|]. exact H2.
Defined.

(** ** The transfer pipeline: the image size in the name *)






Section ImageSizeFacts.

Context {W : Type} {OS : Sys W}.


End ImageSizeFacts.


(** The scenario of the spec, through [url_write_cb]: a gzip stream whose
    header carries the name "rootfs 51200". *)
Lemma gzip_rootfs_51200 :
  let header := [Byte.x1f; Byte.x8b; Byte.x08; Byte.x08; Byte.x00; Byte.x00;
                 Byte.x00; Byte.x00; Byte.x00; Byte.x03] in
  let buffer := (header ++ list_byte_of_string "rootfs 51200"
                 ++ repeat Byte.x00 234)%list in
  exists d' s',
    url_write_cb (G := example_globals) (OS := script_sys example_script)
      buffer (set_unzip true url_data_new) (init_state O)
    = Some ((256, d'), s')
    /\ gzip d' = true /\ cramfs d' = false
    /\ orig_name d' = Some "rootfs 51200"
    /\ image_size d' = 51200 /\ zp_total d' = 52428800.
Proof.
  do 2 eexists. split; [vm_compute; reflexivity|].
  repeat split.
Qed.

(** ** The transfer pipeline: sniffing *)

Ltac m_unfold :=
  unfold bind, sys, sys_, sys_read, sys_cfg, sys_cfg_, get_config,
    set_config, put_out, when, ret, fault in *.

(** Case analysis along a computation that is known to return *)
Ltac m_cases :=
  repeat match goal with
         | H : Some _ = Some _ |- _ => injection H as H; subst
         | H : (_, _) = (_, _) |- _ => injection H as H; subst
         | H : None = Some _ |- _ => discriminate H
         | H : context [match ?x with _ => _ end] |- _ =>
             lazymatch x with
             | context [match _ with _ => _ end] => fail
             | _ => first [is_var x; destruct x
                          |let E := fresh "E" in destruct x eqn:E]
             end
         end.

Ltac g_cases :=
  repeat match goal with
         | |- context [if ?b then _ else _] => destruct b
         end.

Lemma same_sniff_refl (d : url_data_t) : same_sniff d d.
Proof. unfold same_sniff. tauto. Qed.

Lemma same_sniff_trans (d1 d2 d3 : url_data_t) :
  same_sniff d1 d2 -> same_sniff d2 d3 -> same_sniff d1 d3.
Proof. unfold same_sniff. intuition congruence. Qed.

Section SniffFacts.

Context {G : Globals}.

Lemma url_progress_same_sniff (c : config_t) (d d' : url_data_t)
    (stage r : Z) (out : list out_t) :
  url_progress c d stage = (r, d', out) -> same_sniff d d'.
Proof.
  unfold url_progress. intros H. m_cases; unfold same_sniff; data_simpl; tauto.
Qed.

Context {W : Type} {OS : Sys W}.

Lemma call_progress_same_sniff (d d' : url_data_t) (stage r : Z)
    (s s' : state W) :
  call_progress d stage s = Some ((r, d'), s') -> same_sniff d d'.
Proof.
  unfold call_progress. m_unfold.
  destruct (url_progress (config s) d stage) as [[r0 d0] out] eqn:E.
  intros H. injection H as <- <- <-.
  eapply url_progress_same_sniff. exact E.
Qed.

Lemma url_write_cb_open_same_sniff (d d' : url_data_t) (s s' : state W) :
  url_write_cb_open d s = Some (d', s') -> same_sniff d d'.
Proof.
  unfold url_write_cb_open. m_unfold. intros H.
  m_cases; unfold same_sniff; data_simpl; tauto.
Qed.

(** Storing keeps the classification and gives up the sniff buffer. *)
Lemma url_write_cb_store_sniff (buffer : list Byte.byte) (z1 : Z)
    (d d' : url_data_t) (s s' : state W) :
  url_write_cb_store buffer z1 d s = Some (d', s') ->
  gzip d' = gzip d /\ cramfs d' = cramfs d /\ orig_name d' = orig_name d
  /\ image_size d' = image_size d
  /\ (if buf_max d =? 0 then buf_len d' = buf_len d /\ buf_max d' = 0
      else buf_len d' = 0 /\ buf_max d' = 0).
Proof.
  unfold url_write_cb_store. unfold bind at 1.
  destruct (url_write_cb_open d s) as [[d1 s1]|] eqn:Eo; [|discriminate].
  apply url_write_cb_open_same_sniff in Eo.
  destruct Eo as [Hg [Hc [Ho [Hi [Hl Hm]]]]].
  m_unfold. intros H.
  m_cases; data_simpl; rewrite ?Hm;
    destruct (buf_max d =? 0) eqn:Emax; cbn [negb]; data_simpl;
    repeat split; try congruence;
    try (apply Z.eqb_eq in Emax; congruence).
Qed.

Ltac m_total :=
  m_unfold;
  repeat match goal with
         | |- context [match ?x with _ => _ end] =>
             lazymatch x with
             | context [match _ with _ => _ end] => fail
             | _ => destruct x
             end
         end;
  eauto.

Lemma call_progress_returns (d : url_data_t) (stage : Z) (s : state W) :
  exists r d' s', call_progress d stage s = Some ((r, d'), s').
Proof. unfold call_progress. m_total. Qed.

Lemma url_write_cb_open_returns (d : url_data_t) (s : state W) :
  exists d' s', url_write_cb_open d s = Some (d', s').
Proof. unfold url_write_cb_open. m_total. Qed.

Lemma url_write_cb_store_returns (buffer : list Byte.byte) (z1 : Z)
    (d : url_data_t) (s : state W) :
  exists d' s', url_write_cb_store buffer z1 d s = Some (d', s').
Proof.
  unfold url_write_cb_store. unfold bind at 1.
  destruct (url_write_cb_open_returns d s) as [d1 [s1 ->]].
  m_total.
Qed.

(** [url_write_cb] returns. *)
Lemma url_write_cb_returns (buffer : list Byte.byte) (d : url_data_t)
    (s : state W) :
  exists n d' s', url_write_cb buffer d s = Some ((n, d'), s').
Proof.
  unfold url_write_cb.
  destruct (url_write_cb_fill buffer _) as [[d1 z1] rest].
  set (d2 := if sniff_ready d1 && (11 <=? buf_len d1)
             then url_write_cb_sniff d1 else d1).
  unfold bind at 1.
  assert (Hs : exists d3 s3,
             (if sniff_ready d1 then url_write_cb_store rest z1 d2
              else ret d2) s = Some (d3, s3)).
  { destruct (sniff_ready d1); [apply url_write_cb_store_returns|].
    unfold ret. eauto. }
  destruct Hs as [d3 [s3 ->]].
  unfold bind at 1.
  assert (Hl : exists d4 s4,
             (if 0 <=? pipe_fd d3
              then bind (sys (sys_lseek (pipe_fd d3)))
                     (fun off => ret (if negb (off =? -1)
                                      then set_zp_now (to_uint32 off) d3
                                      else d3))
              else ret d3) s3 = Some (d4, s4)) by m_total.
  destruct Hl as [d4 [s4 ->]].
  unfold bind at 1.
  destruct ((negb (p_total d4 =? 0) || negb (zp_total d4 =? 0))
            && progress d4).
  - unfold bind at 1.
    destruct (call_progress_returns d4 1 s4) as [r [d5 [s5 ->]]].
    unfold ret. eauto.
  - unfold ret. eauto.
Qed.

(** What a call of [url_write_cb] leaves of the classification and of the
    sniff buffer: the classification is that of the sniffing step, if it
    takes place; the buffer is given up when it is full or the stream has
    ended. *)
Lemma url_write_cb_classifies (buffer : list Byte.byte) (d d' : url_data_t)
    (s s' : state W) (n : Z) :
  url_write_cb buffer d s = Some ((n, d'), s') ->
  let d1 := url_write_cb_buffered buffer d in
  let d2 := if sniff_ready d1 && (11 <=? buf_len d1)
            then url_write_cb_sniff d1 else d1 in
  gzip d' = gzip d2 /\ cramfs d' = cramfs d2
  /\ orig_name d' = orig_name d2 /\ image_size d' = image_size d2
  /\ (if sniff_ready d1
      then (if buf_max d2 =? 0
            then buf_len d' = buf_len d2 /\ buf_max d' = 0
            else buf_len d' = 0 /\ buf_max d' = 0)
      else buf_len d' = buf_len d2 /\ buf_max d' = buf_max d2).
Proof.
  unfold url_write_cb, url_write_cb_buffered.
  destruct (url_write_cb_fill buffer _) as [[d1 z1] rest].
  cbn [fst]. cbv zeta. intros H.
  set (d2 := if sniff_ready d1 && (11 <=? buf_len d1)
             then url_write_cb_sniff d1 else d1) in *.
  unfold bind at 1 in H.
  destruct ((if sniff_ready d1 then url_write_cb_store rest z1 d2
             else ret d2) s) as [[d3 s3]|] eqn:Es; [|discriminate].
  assert (H3 : gzip d3 = gzip d2 /\ cramfs d3 = cramfs d2
               /\ orig_name d3 = orig_name d2
               /\ image_size d3 = image_size d2
               /\ (if sniff_ready d1
                   then (if buf_max d2 =? 0
                         then buf_len d3 = buf_len d2 /\ buf_max d3 = 0
                         else buf_len d3 = 0 /\ buf_max d3 = 0)
                   else buf_len d3 = buf_len d2 /\ buf_max d3 = buf_max d2)).
  { destruct (sniff_ready d1).
    - apply url_write_cb_store_sniff in Es. exact Es.
    - unfold ret in Es. injection Es as <- <-. tauto. }
  clear Es.
  unfold bind at 1 in H.
  destruct ((if 0 <=? pipe_fd d3
             then bind (sys (sys_lseek (pipe_fd d3)))
                    (fun off => ret (if negb (off =? -1)
                                     then set_zp_now (to_uint32 off) d3
                                     else d3))
             else ret d3) s3) as [[d4 s4]|] eqn:El; [|discriminate].
  assert (H4 : same_sniff d3 d4).
  { m_unfold. m_cases; unfold same_sniff; data_simpl; tauto. }
  clear El.
  unfold bind at 1 in H.
  destruct ((if (negb (p_total d4 =? 0) || negb (zp_total d4 =? 0))
                && progress d4
             then bind (call_progress d4 1)
                    (fun v => let '(r, url_data) := v in
                              ret (if negb (r =? 0) && (err url_data =? 0)
                                   then set_err 102 url_data else url_data))
             else ret d4) s4) as [[d5 s5]|] eqn:Ep; [|discriminate].
  assert (H5 : same_sniff d4 d5).
  { destruct ((negb (p_total d4 =? 0) || negb (zp_total d4 =? 0))
              && progress d4).
    - unfold bind in Ep.
      destruct (call_progress d4 1 s4) as [[[r d6] s6]|] eqn:Ec;
        [|discriminate].
      apply call_progress_same_sniff in Ec.
      unfold ret in Ep. injection Ep as <- <-.
      destruct (negb (r =? 0) && (err d6 =? 0));
        unfold same_sniff in *; data_simpl; tauto.
    - unfold ret in Ep. injection Ep as <- <-. apply same_sniff_refl. }
  clear Ep.
  unfold ret in H. injection H as _ <- _.
  unfold same_sniff in H4, H5.
  destruct H3 as [? [? [? [? Hb]]]].
  destruct H4 as [? [? [? [? [? ?]]]]].
  destruct H5 as [? [? [? [? [? ?]]]]].
  repeat split; try congruence.
  destruct (sniff_ready d1); [destruct (buf_max d2 =? 0)|];
    destruct Hb; split; congruence.
Qed.

Lemma sniff_inv_same (d d' : url_data_t) :
  sniff_inv d -> same_sniff d d' -> sniff_inv d'.
Proof.
  unfold sniff_inv, same_sniff.
  intros [Hb [Hm Hx]] [Hg [Hc [_ [_ [Hl Hmax]]]]].
  rewrite Hg, Hc, Hl, Hmax. tauto.
Qed.

Lemma url_write_cb_buffered_fields (buffer : list Byte.byte)
    (d : url_data_t) :
  let d1 := url_write_cb_buffered buffer d in
  gzip d1 = gzip d /\ cramfs d1 = cramfs d /\ orig_name d1 = orig_name d
  /\ buf_max d1 = buf_max d
  /\ (0 <= buf_len d <= buf_max d -> 0 <= buf_len d1 <= buf_max d).
Proof.
  unfold url_write_cb_buffered, url_write_cb_fill, url_write_cb_digest.
  cbv zeta.
  destruct (negb (Z.of_nat (length buffer) =? 0)); data_simpl;
    destruct (Z.ltb_spec (buf_len d) (buf_max d)); cbn [andb fst];
      try destruct (negb (Z.of_nat (length buffer) =? 0)); cbn [fst];
      data_simpl; repeat split; try lia;
      destruct (Z.ltb_spec (Z.of_nat (length buffer))
                  (buf_max d - buf_len d)); lia.
Qed.

Lemma url_write_cb_size_fields (d : url_data_t) :
  let d' := url_write_cb_size d in
  gzip d' = gzip d /\ cramfs d' = cramfs d /\ orig_name d' = orig_name d
  /\ buf_len d' = buf_len d /\ buf_max d' = buf_max d.
Proof.
  unfold url_write_cb_size. cbv zeta.
  match goal with |- context [if ?b then _ else _] => destruct b end;
    data_simpl; tauto.
Qed.

Lemma url_write_cb_detect_fields (d : url_data_t) :
  let d' := url_write_cb_detect d in
  buf_len d' = buf_len d /\ buf_max d' = buf_max d
  /\ (gzip d = false -> cramfs d = false -> gzip d' && cramfs d' = false).
Proof.
  unfold url_write_cb_detect. cbv zeta.
  repeat match goal with
         | |- context [if ?b then _ else _] => destruct b
         end; data_simpl; repeat split;
    intros Hg0 Hc0; rewrite ?Hg0, ?Hc0; reflexivity.
Qed.

Lemma url_write_cb_sniff_fields (d : url_data_t) :
  let d' := url_write_cb_sniff d in
  buf_len d' = buf_len d /\ buf_max d' = buf_max d
  /\ (gzip d = false -> cramfs d = false -> gzip d' && cramfs d' = false).
Proof.
  unfold url_write_cb_sniff. cbv zeta.
  destruct (url_write_cb_size_fields (url_write_cb_detect d))
    as [Hg [Hc [_ [Hl Hm]]]].
  destruct (url_write_cb_detect_fields d) as [Hl' [Hm' Hx]].
  rewrite Hg, Hc, Hl, Hm. tauto.
Qed.

(** A call of [url_write_cb] keeps the invariant of the transfer. *)
Lemma url_write_cb_inv (buffer : list Byte.byte) (d d' : url_data_t)
    (s s' : state W) (n : Z) :
  sniff_inv d ->
  url_write_cb buffer d s = Some ((n, d'), s') ->
  sniff_inv d'.
Proof.
  intros [Hb [Hmax Hx]] H.
  apply url_write_cb_classifies in H. cbv zeta in H.
  destruct (url_write_cb_buffered_fields buffer d) as [Hg [Hc [_ [Hm Hl]]]].
  specialize (Hl Hb).
  set (d1 := url_write_cb_buffered buffer d) in *.
  destruct (url_write_cb_sniff_fields d1) as [Sl [Sm Sx]].
  destruct H as [Hg' [Hc' [_ [_ Hbuf]]]].
  unfold sniff_inv. rewrite Hg', Hc'.
  destruct (sniff_ready d1) eqn:Er; cbn [andb] in *.
  - destruct (Z.leb_spec 11 (buf_len d1)) as [H11|H11].
    + assert (Hnone : gzip d1 || cramfs d1 = false).
      { rewrite Hg, Hc. destruct (gzip d || cramfs d); [|reflexivity].
        specialize (Hmax eq_refl). lia. }
      apply orb_false_iff in Hnone. destruct Hnone as [G0 C0].
      specialize (Sx G0 C0).
      rewrite Sm in Hbuf.
      destruct (Z.eqb_spec (buf_max d1) 0) as [E|E]; [lia|].
      destruct Hbuf as [-> ->]. repeat split; try lia. exact Sx.
    + rewrite Hg, Hc.
      destruct (Z.eqb_spec (buf_max d1) 0) as [E|E];
        destruct Hbuf as [-> ->]; repeat split; try lia; exact Hx.
  - destruct Hbuf as [-> ->]. rewrite Hm, Hg, Hc.
    repeat split; try lia; try exact Hx.
    intros Hf. specialize (Hmax Hf). lia.
Qed.

Lemma url_progress_cb_inv (dltotal dlnow : Z) (d d' : url_data_t)
    (s s' : state W) (r : Z) :
  sniff_inv d ->
  url_progress_cb dltotal dlnow d s = Some ((r, d'), s') ->
  sniff_inv d'.
Proof.
  intros Hi. unfold url_progress_cb. cbv zeta.
  set (d0 := if p_total d =? 0 then set_p_total (to_uint32 dltotal) d else d).
  assert (H0 : same_sniff d d0)
    by (subst d0; destruct (p_total d =? 0);
        unfold same_sniff; data_simpl; tauto).
  destruct (progress d0).
  - intros H. apply call_progress_same_sniff in H.
    eapply sniff_inv_same; [exact Hi|].
    eapply same_sniff_trans; eassumption.
  - unfold ret. intros H. injection H as _ <- _.
    eapply sniff_inv_same; eassumption.
Qed.

(** The callbacks of a whole [curl_easy_perform] keep the invariant. *)
Lemma curl_run_inv (events : list curl_event) (code : Z) (d d' : url_data_t)
    (s s' : state W) (r : Z) :
  sniff_inv d ->
  curl_run events code d s = Some ((r, d'), s') ->
  sniff_inv d'.
Proof.
  revert d s.
  induction events as [|[buffer|dltotal dlnow] events IH]; intros d s Hi;
    cbn [curl_run].
  - unfold ret. intros H. now injection H as _ <- _.
  - unfold bind at 1.
    destruct (url_write_cb buffer d s) as [[[n d1] s1]|] eqn:E; [|discriminate].
    eapply url_write_cb_inv in E; [|exact Hi].
    destruct (n =? Z.of_nat (length buffer)); [now apply IH|].
    unfold ret. intros H. now injection H as _ <- _.
  - unfold bind at 1.
    destruct (url_progress_cb dltotal dlnow d s) as [[[n d1] s1]|] eqn:E;
      [|discriminate].
    eapply url_progress_cb_inv in E; [|exact Hi].
    destruct (n =? 0); [now apply IH|].
    unfold ret. intros H. now injection H as _ <- _.
Qed.

Lemma url_read_close_same_sniff (d d' : url_data_t) (s s' : state W) :
  url_read_close d s = Some (d', s') -> same_sniff d d'.
Proof.
  unfold url_read_close. m_unfold. intros H.
  m_cases; unfold same_sniff; g_cases; data_simpl; tauto.
Qed.

Lemma url_read_setup_same_sniff (d d' : url_data_t) (s s' : state W)
    (proxy_url : option string) :
  url_read_setup d s = Some ((proxy_url, d'), s') -> same_sniff d d'.
Proof.
  unfold url_read_setup. cbv zeta. intros H.
  unfold bind at 1 in H. unfold sys_read at 1 in H.
  unfold bind at 1 in H. unfold get_config at 1 in H.
  unfold bind at 1 in H.
  match type of H with
  | match ?m s with _ => _ end = _ =>
      destruct (m s) as [[d1 s1]|] eqn:E1; [|discriminate]
  end.
  assert (H1 : same_sniff d d1).
  { clear H. m_unfold. m_cases; unfold same_sniff; g_cases; data_simpl; tauto. }
  clear E1. unfold bind at 1 in H.
  destruct (progress d1).
  - unfold bind at 1 in H.
    destruct (call_progress d1 0 s1) as [[[r d2] s2]|] eqn:E2; [|discriminate].
    apply call_progress_same_sniff in E2.
    unfold ret in H. injection H as _ <- _.
    eapply same_sniff_trans; eassumption.
  - unfold ret in H. injection H as _ <- _. exact H1.
Qed.

Lemma url_read_perform_inv (proxy_url : option string) (d d' : url_data_t)
    (s s' : state W) :
  sniff_inv d ->
  url_read_perform proxy_url d s = Some (d', s') ->
  sniff_inv d'.
Proof.
  intros Hi. unfold url_read_perform. intros H.
  unfold bind at 1 in H.
  match type of H with
  | match ?m s with _ => _ end = _ =>
      destruct (m s) as [[d1 s1]|] eqn:E1; [|discriminate]
  end.
  assert (H1 : sniff_inv d1).
  { clear H. destruct (err d =? 0).
    - unfold bind at 1 in E1. unfold sys_read at 1 in E1.
      destruct (curl_easy_perform (url_str_of d) proxy_url (world s))
        as [[events code] msg].
      unfold bind at 1 in E1.
      destruct (curl_run events code d s) as [[[i d2] s2]|] eqn:E2;
        [|discriminate].
      eapply curl_run_inv in E2; [|exact Hi].
      unfold ret in E1. injection E1 as <- _.
      eapply sniff_inv_same; [exact E2|].
      unfold same_sniff. g_cases; data_simpl; tauto.
    - unfold ret in E1. now injection E1 as <- _. }
  clear E1. destruct (err d1 =? 0).
  - unfold bind at 1 in H.
    destruct (url_write_cb [] (set_flush true d1) s1)
      as [[[n d2] s2]|] eqn:E2; [|discriminate].
    eapply url_write_cb_inv in E2.
    + unfold ret in H. now injection H as <- _.
    + unfold sniff_inv in *. data_simpl. exact H1.
  - unfold ret in H. now injection H as <- _.
Qed.

Lemma url_read_finish_inv (d d' : url_data_t) (s s' : state W) :
  sniff_inv d ->
  url_read_finish d s = Some (d', s') ->
  sniff_inv d'.
Proof.
  intros Hi. unfold url_read_finish. intros H.
  unfold bind at 1 in H.
  destruct (url_write_cb [] (set_flush false d) s)
    as [[[n d1] s1]|] eqn:E1; [|discriminate].
  eapply url_write_cb_inv in E1;
    [|unfold sniff_inv in *; data_simpl; exact Hi].
  unfold bind at 1 in H.
  match type of H with
  | match ?m s1 with _ => _ end = _ =>
      destruct (m s1) as [[[] s2]|]; [|discriminate]
  end.
  unfold bind at 1 in H.
  match type of H with
  | match ?m s2 with _ => _ end = _ =>
      destruct (m s2) as [[[] s3]|]; [|discriminate]
  end.
  cbv zeta in H.
  match type of H with
  | context [call_progress ?x 2] => set (d2 := x) in *
  end.
  assert (H2 : same_sniff d1 d2)
    by (subst d2; unfold same_sniff; g_cases; data_simpl; tauto).
  unfold bind at 1 in H.
  match type of H with
  | match ?m s3 with _ => _ end = _ =>
      destruct (m s3) as [[d3 s4]|] eqn:E3; [|discriminate]
  end.
  assert (H3 : same_sniff d2 d3).
  { clear H. destruct (progress d2).
    - unfold bind at 1 in E3.
      destruct (call_progress d2 2 s3) as [[[r d4] s5]|] eqn:E4;
        [|discriminate].
      apply call_progress_same_sniff in E4.
      unfold ret in E3. now injection E3 as <- _.
    - unfold ret in E3. injection E3 as <- _. apply same_sniff_refl. }
  unfold ret in H. injection H as <- _.
  eapply sniff_inv_same; [exact E1|].
  eapply same_sniff_trans; [exact H2|].
  eapply same_sniff_trans; [exact H3|].
  unfold same_sniff. g_cases; data_simpl; tauto.
Qed.

(** A transfer keeps the invariant from its start to its end. *)
Lemma url_read_inv (d d' : url_data_t) (s s' : state W) :
  sniff_inv d -> url_read d s = Some (d', s') -> sniff_inv d'.
Proof.
  intros Hi. unfold url_read. intros H.
  unfold bind at 1 in H.
  destruct (url_read_setup d s) as [[[proxy_url d1] s1]|] eqn:E1;
    [|discriminate].
  apply url_read_setup_same_sniff in E1.
  unfold bind at 1 in H.
  destruct (url_read_perform proxy_url d1 s1) as [[d2 s2]|] eqn:E2;
    [|discriminate].
  eapply url_read_perform_inv in E2;
    [|eapply sniff_inv_same; eassumption].
  unfold bind at 1 in H.
  destruct (url_read_close d2 s2) as [[d3 s3]|] eqn:E3; [|discriminate].
  apply url_read_close_same_sniff in E3.
  eapply url_read_finish_inv; [|exact H].
  eapply sniff_inv_same; eassumption.
Qed.

End SniffFacts.

Lemma cstr_terminated (name rest : string) :
  str_free_of NUL name = true -> cstr (name ++ String NUL rest) = name.
Proof.
  induction name as [|a name IH]; cbn [append cstr str_free_of].
  - reflexivity.
  - intros H. apply andb_true_iff in H. destruct H as [Ha Hn].
    apply negb_true_iff in Ha. rewrite Ha. now rewrite IH.
Qed.

Lemma string_of_list_byte_app (l1 l2 : list Byte.byte) :
  string_of_list_byte (l1 ++ l2)
  = string_of_list_byte l1 ++ string_of_list_byte l2.
Proof.
  unfold string_of_list_byte. rewrite map_app.
  induction (map Ascii.ascii_of_byte l1) as [|a l IH]; cbn; [reflexivity|].
  now rewrite IH.
Qed.

Lemma length_list_byte_of_string (s : string) :
  length (list_byte_of_string s) = String.length s.
Proof.
  unfold list_byte_of_string. rewrite length_map.
  induction s as [|a s IH]; cbn; [reflexivity|now rewrite IH].
Qed.

(** A terminated name in the buffer is what [strdup] copies, and it is
    shorter than what is buffered after the header. *)
Lemma gzip_name_at_cstr (data : list Byte.byte) (len : Z) (name : string) :
  gzip_name_at data len name ->
  bytes_cstr (firstn (Z.to_nat (len - 10)) (skipn 10 data)) = name
  /\ Z.of_nat (String.length name) < len - 10.
Proof.
  intros [rest [Hraw Hfree]].
  pose proof (firstn_le_length (Z.to_nat (len - 10)) (skipn 10 data)) as Hlen.
  rewrite Hraw in *. split.
  - unfold bytes_cstr. rewrite string_of_list_byte_app.
    rewrite string_of_list_byte_of_string.
    change (string_of_list_byte (Byte.x00 :: rest))
      with (String NUL (string_of_list_byte rest)).
    now apply cstr_terminated.
  - rewrite length_app, length_list_byte_of_string in Hlen.
    cbn [length] in Hlen. lia.
Qed.

Lemma byte_val_range (b : Byte.byte) : 0 <= byte_val b < 256.
Proof.
  unfold byte_val. pose proof (Byte.to_N_bounded b). lia.
Qed.

(** The two magics are each other's byte swap: a host of either byte
    order finds the same images. *)
Lemma cramfs_magic_either_order (data : list Byte.byte) :
  cramfs_magic true data = cramfs_magic false data.
Proof.
  unfold cramfs_magic, load_unsigned, buf_at,
    CRAMFS_SUPER_MAGIC, CRAMFS_SUPER_MAGIC_BIG.
  pose proof (byte_val_range (nth 0 data Byte.x00)).
  pose proof (byte_val_range (nth 1 data Byte.x00)).
  pose proof (byte_val_range (nth 2 data Byte.x00)).
  pose proof (byte_val_range (nth 3 data Byte.x00)).
  change (2 ^ 24) with 16777216. change (2 ^ 16) with 65536.
  change (2 ^ 8) with 256.
  repeat match goal with
         | |- context [?a =? ?b] => destruct (Z.eqb_spec a b)
         end; try reflexivity; exfalso; lia.
Qed.

Section SniffTheorem.

Context {G : Globals} {W : Type} {OS : Sys W}.

Lemma url_write_cb_detect_spec (d : url_data_t) :
  let data := buf_data d in
  let d' := url_write_cb_detect d in
  if unzip d && (buf_at 0 data =? 0x1f) && (buf_at 1 data =? 0x8b)
  then gzip d' = true /\ cramfs d' = cramfs d
       /\ (Z.land (buf_at 3 data) 0x08 <> 0 ->
           forall name, gzip_name_at data (buf_len d) name ->
                        orig_name d' = Some name)
  else if (sizeof_cramfs_sb <? buf_len d) && cramfs_magic big_endian data
       then cramfs d' = true /\ gzip d' = gzip d
            /\ orig_name d'
               = Some (bytes_cstr (firstn sizeof_cramfs_name
                                     (skipn cramfs_name_offset data)))
       else gzip d' = gzip d /\ cramfs d' = cramfs d
            /\ orig_name d' = orig_name d.
Proof.
  cbv zeta. unfold url_write_cb_detect, cramfs_magic.
  destruct (unzip d && (buf_at 0 (buf_data d) =? 31)
            && (buf_at 1 (buf_data d) =? 139)).
  - data_simpl.
    destruct (Z.eqb_spec (Z.land (buf_at 3 (buf_data d)) 8) 0) as [E|E];
      cbn [negb]; data_simpl.
    + repeat split; intros; try contradiction.
    + match goal with |- context [if ?b then _ else _] =>
        destruct b eqn:Elt end; data_simpl; repeat split;
        intros _ name Hname; apply gzip_name_at_cstr in Hname;
        destruct Hname as [Hc Hl].
      * now rewrite Hc.
      * rewrite Hc in Elt. apply Z.ltb_ge in Elt. lia.
  - destruct (sizeof_cramfs_sb <? buf_len d); cbn [andb]; [|tauto].
    match goal with |- context [if ?b then _ else _] => destruct b end;
      data_simpl; tauto.
Qed.

(** C4, as the code has it.  When sniffing takes place in a call of
    [url_write_cb], that is when the sniff buffer is full or the stream
    has ended and at least 11 bytes are buffered: if unzip was requested
    and the first two bytes are 1F 8B, the stream is classified gzip, and
    with bit 0x08 of byte 3 set a name is taken from the header where a
    NUL ends it within the buffered bytes; otherwise, if more bytes are
    buffered than a cramfs superblock has and its magic is the known one
    in either byte order, the stream is classified cramfs and the name is
    the volume name of the superblock; otherwise the classification stays
    as it is.  And a transfer that starts from a new transfer state never
    ends classified both gzip and cramfs. *)
Theorem url_write_cb_sniffing :
  (forall (buffer : list Byte.byte) (d : url_data_t) (s : state W),
      let d1 := url_write_cb_buffered buffer d in
      let data := buf_data d1 in
      sniff_ready d1 = true -> 11 <= buf_len d1 ->
      exists n d' s',
        url_write_cb buffer d s = Some ((n, d'), s')
        /\ if unzip d1 && (buf_at 0 data =? 0x1f) && (buf_at 1 data =? 0x8b)
           then gzip d' = true /\ cramfs d' = cramfs d
                /\ (Z.land (buf_at 3 data) 0x08 <> 0 ->
                    forall name, gzip_name_at data (buf_len d1) name ->
                                 orig_name d' = Some name)
           else if (sizeof_cramfs_sb <? buf_len d1)
                   && cramfs_magic big_endian data
                then cramfs d' = true /\ gzip d' = gzip d
                     /\ orig_name d'
                        = Some (bytes_cstr
                                  (firstn sizeof_cramfs_name
                                     (skipn cramfs_name_offset data)))
                else gzip d' = gzip d /\ cramfs d' = cramfs d
                     /\ orig_name d' = orig_name d)
  /\ (forall (d d' : url_data_t) (s s' : state W),
        same_sniff url_data_new d ->
        url_read d s = Some (d', s') ->
        gzip d' && cramfs d' = false).
Proof.
  split.
  - intros buffer d s d1 data Hready H11.
    destruct (url_write_cb_returns buffer d s) as [n [d' [s' Hret]]].
    exists n, d', s'. split; [exact Hret|].
    apply url_write_cb_classifies in Hret. cbv zeta in Hret. fold d1 in Hret.
    rewrite Hready in Hret.
    destruct (Z.leb_spec 11 (buf_len d1)) as [_|]; [|lia].
    cbn [andb] in Hret.
    destruct Hret as [Hg [Hc [Ho _]]].
    unfold url_write_cb_sniff in Hg, Hc, Ho.
    destruct (url_write_cb_size_fields (url_write_cb_detect d1))
      as [Sg [Sc [So _]]].
    rewrite Sg in Hg. rewrite Sc in Hc. rewrite So in Ho.
    destruct (url_write_cb_buffered_fields buffer d) as [Bg [Bc [Bo _]]].
    fold d1 in Bg, Bc, Bo.
    pose proof (url_write_cb_detect_spec d1) as Hd. cbv zeta in Hd.
    fold data in Hd. rewrite Hg, Hc, Ho, <- Bg, <- Bc, <- Bo.
    exact Hd.
  - intros d d' s s' Hnew Hread.
    assert (Hi : sniff_inv d).
    { eapply sniff_inv_same; [|exact Hnew].
      unfold sniff_inv, url_data_new. data_simpl.
      repeat split; try lia; try discriminate. }
    eapply url_read_inv in Hread; [|exact Hi].
    apply Hread.
Qed.

End SniffTheorem.

(** C4 as the specification states it fails: a gzip header whose name
    flag is set and whose name is not ended within the 256 bytes of the
    sniff buffer is classified gzip, and no name is taken from it. *)
Lemma gzip_name_unterminated :
  let header := [Byte.x1f; Byte.x8b; Byte.x08; Byte.x08; Byte.x00; Byte.x00;
                 Byte.x00; Byte.x00; Byte.x00; Byte.x03] in
  let buffer := (header ++ repeat Byte.x61 246)%list in
  let d := set_unzip true url_data_new in
  let d1 := url_write_cb_buffered buffer d in
  ~ (sniff_ready d1 = true -> unzip d1 = true ->
     buf_at 0 (buf_data d1) = 0x1f -> buf_at 1 (buf_data d1) = 0x8b ->
     Z.land (buf_at 3 (buf_data d1)) 0x08 <> 0 ->
     forall n d' s',
       url_write_cb (G := example_globals) (OS := script_sys example_script)
         buffer d (init_state O) = Some ((n, d'), s') ->
       gzip d' = true /\ exists name, orig_name d' = Some name).
Proof.
  intros header buffer d d1 H.
  assert (E : exists d' s',
             url_write_cb (G := example_globals)
               (OS := script_sys example_script) buffer d (init_state O)
             = Some ((256, d'), s')
             /\ orig_name d' = None).
  { do 2 eexists. split; [vm_compute; reflexivity|]. reflexivity. }
  destruct E as [d' [s' [E En]]].
  destruct (H eq_refl eq_refl eq_refl eq_refl
              ltac:(vm_compute; discriminate) _ _ _ E) as [_ [name Hname]].
  rewrite En in Hname. discriminate Hname.
Qed.

(** A stream of fewer than 11 bytes is not sniffed at all, gzip magic or
    not. *)
Lemma gzip_short_stream_unclassified :
  let buffer := [Byte.x1f; Byte.x8b; Byte.x08; Byte.x00; Byte.x00; Byte.x00;
                 Byte.x00; Byte.x00; Byte.x00; Byte.x03] in
  exists d1 s1 d2 s2,
    url_write_cb (G := example_globals) (OS := script_sys example_script)
      buffer (set_unzip true url_data_new) (init_state O)
    = Some ((10, d1), s1)
    /\ url_write_cb (G := example_globals) (OS := script_sys example_script)
         [] (set_flush true d1) s1 = Some ((0, d2), s2)
    /\ sniff_ready (url_write_cb_buffered [] (set_flush true d1)) = true
    /\ gzip d2 = false /\ p_now d2 = 10.
Proof.
  do 4 eexists.
  split; [vm_compute; reflexivity|].
  split; [vm_compute; reflexivity|].
  repeat split.
Qed.

Lemma url_write_cb_sniffing_witness :
  let header := [Byte.x1f; Byte.x8b; Byte.x08; Byte.x08; Byte.x00; Byte.x00;
                 Byte.x00; Byte.x00; Byte.x00; Byte.x03] in
  let buffer := (header ++ list_byte_of_string "rootfs 51200"
                 ++ repeat Byte.x00 234)%list in
  exists n d' s',
    url_write_cb (G := example_globals) (OS := script_sys example_script)
      buffer (set_unzip true url_data_new) (init_state O)
    = Some ((n, d'), s')
    /\ gzip d' = true /\ cramfs d' = false
    /\ orig_name d' = Some "rootfs 51200".
Proof.
  intros header buffer.
  destruct (@url_write_cb_sniffing example_globals nat
              (script_sys example_script)) as [H _].
  destruct (H buffer (set_unzip true url_data_new) (init_state O))
    as [n [d' [s' [Hret Hc]]]].
  - reflexivity.
  - vm_compute. discriminate.
  - exists n, d', s'. split; [exact Hret|].
    change (gzip d' = true /\ cramfs d' = false
            /\ (Z.land 8 8 <> 0 ->
                forall name,
                  gzip_name_at
                    (buf_data (url_write_cb_buffered buffer
                                 (set_unzip true url_data_new)))
                    256 name ->
                  orig_name d' = Some name)) in Hc.
    destruct Hc as [Hg [Hcr Hn]].
    repeat split; [exact Hg|exact Hcr|].
    apply Hn; [discriminate|].
    exists (repeat Byte.x00 233). split; reflexivity.
Defined.

(** ** The transfer pipeline: the error that is reported *)

Section ReportedError.

Context {G : Globals} {W : Type} {OS : Sys W}.

Lemma url_progress_same_err (c : config_t) (d d' : url_data_t)
    (stage r : Z) (out : list out_t) :
  url_progress c d stage = (r, d', out) ->
  err d' = err d /\ err_buf d' = err_buf d /\ file_opened d' = file_opened d
  /\ r = 0.
Proof.
  unfold url_progress. intros H. m_cases; data_simpl; tauto.
Qed.

Lemma call_progress_same_err (d d' : url_data_t) (stage r : Z)
    (s s' : state W) :
  call_progress d stage s = Some ((r, d'), s') ->
  err d' = err d /\ err_buf d' = err_buf d /\ file_opened d' = file_opened d
  /\ r = 0.
Proof.
  unfold call_progress. m_unfold.
  destruct (url_progress (config s) d stage) as [[r0 d0] out] eqn:E.
  intros H. injection H as <- <- <-.
  eapply url_progress_same_err. exact E.
Qed.

Lemma url_write_cb_sniffed_same_err (buffer : list Byte.byte)
    (d : url_data_t) :
  let d1 := url_write_cb_buffered buffer d in
  let d2 := if sniff_ready d1 && (11 <=? buf_len d1)
            then url_write_cb_sniff d1 else d1 in
  err d2 = err d /\ err_buf d2 = err_buf d
  /\ file_opened d2 = file_opened d.
Proof.
  cbv zeta.
  unfold url_write_cb_buffered, url_write_cb_fill, url_write_cb_digest,
    url_write_cb_sniff, url_write_cb_size, url_write_cb_detect.
  cbv zeta.
  repeat match goal with
         | |- context [if ?b then _ else _] =>
             lazymatch b with
             | context [if _ then _ else _] => fail
             | _ => destruct b
             end; cbn [fst]; data_simpl
         | |- context [match ?x with _ => _ end] =>
             lazymatch x with
             | context [match _ with _ => _ end] => fail
             | _ => destruct x
             end; cbn [fst]; data_simpl
         end; tauto.
Qed.

Lemma url_write_cb_store_same_err (buffer : list Byte.byte) (z1 : Z)
    (d d' : url_data_t) (s s' : state W) :
  file_opened d = true ->
  url_write_cb_store buffer z1 d s = Some (d', s') ->
  err d' = err d /\ err_buf d' = err_buf d /\ file_opened d' = true.
Proof.
  intros Hop. unfold url_write_cb_store, url_write_cb_open. rewrite Hop.
  m_unfold. intros H. m_cases; g_cases; data_simpl; tauto.
Qed.

(** Once the output is open and an error is noted, [url_write_cb] leaves
    the error and its message as they are. *)
Lemma url_write_cb_keeps_error (buffer : list Byte.byte) (d d' : url_data_t)
    (s s' : state W) (n : Z) :
  file_opened d = true -> err d <> 0 ->
  url_write_cb buffer d s = Some ((n, d'), s') ->
  err d' = err d /\ err_buf d' = err_buf d /\ file_opened d' = true.
Proof.
  intros Hop Herr.
  pose proof (url_write_cb_sniffed_same_err buffer d) as H2. cbv zeta in H2.
  unfold url_write_cb, url_write_cb_buffered in *.
  destruct (url_write_cb_fill buffer _) as [[d1 z1] rest].
  cbn [fst] in H2. cbv zeta.
  set (d2 := if sniff_ready d1 && (11 <=? buf_len d1)
             then url_write_cb_sniff d1 else d1) in *.
  destruct H2 as [He2 [Hb2 Ho2]]. rewrite Hop in Ho2.
  intros H. unfold bind at 1 in H.
  destruct ((if sniff_ready d1 then url_write_cb_store rest z1 d2
             else ret d2) s) as [[d3 s3]|] eqn:Es; [|discriminate].
  assert (H3 : err d3 = err d /\ err_buf d3 = err_buf d
               /\ file_opened d3 = true).
  { destruct (sniff_ready d1).
    - apply url_write_cb_store_same_err in Es; [|exact Ho2].
      destruct Es as [? [? ?]]. repeat split; congruence.
    - unfold ret in Es. injection Es as <- <-. tauto. }
  clear Es. destruct H3 as [He3 [Hb3 Ho3]].
  unfold bind at 1 in H.
  destruct ((if 0 <=? pipe_fd d3
             then bind (sys (sys_lseek (pipe_fd d3)))
                    (fun off => ret (if negb (off =? -1)
                                     then set_zp_now (to_uint32 off) d3
                                     else d3))
             else ret d3) s3) as [[d4 s4]|] eqn:El; [|discriminate].
  assert (H4 : err d4 = err d3 /\ err_buf d4 = err_buf d3
               /\ file_opened d4 = file_opened d3).
  { m_unfold. m_cases; g_cases; data_simpl; tauto. }
  clear El. destruct H4 as [He4 [Hb4 Ho4]].
  unfold bind at 1 in H.
  destruct ((negb (p_total d4 =? 0) || negb (zp_total d4 =? 0))
            && progress d4).
  - unfold bind at 1 in H.
    destruct (call_progress d4 1 s4) as [[[r d5] s5]|] eqn:Ec; [|discriminate].
    apply call_progress_same_err in Ec. destruct Ec as [He5 [Hb5 [Ho5 ->]]].
    cbn [Z.eqb negb andb] in H.
    unfold ret in H. injection H as _ <- _.
    repeat split; congruence.
  - unfold ret in H. injection H as _ <- _.
    repeat split; congruence.
Qed.

(** After the decompressor has failed, the rest of [url_read] leaves the
    error 103 and the message "gzip: command terminated" as they are:
    that is what the caller sees and what the progress indicator shows at
    the end. *)
Lemma url_read_finish_keeps_error (d d' : url_data_t) (s s' : state W) :
  file_opened d = true -> err d <> 0 -> str_nonempty (err_buf d) = true ->
  url_read_finish d s = Some (d', s') ->
  err d' = err d /\ err_buf d' = err_buf d.
Proof.
  intros Hop Herr Hbuf. unfold url_read_finish. intros H.
  unfold bind at 1 in H.
  destruct (url_write_cb [] (set_flush false d) s)
    as [[[n d1] s1]|] eqn:E1; [|discriminate].
  apply url_write_cb_keeps_error in E1; data_simpl; try assumption.
  destruct E1 as [He1 [Hb1 _]].
  unfold bind at 1 in H.
  match type of H with
  | match ?m s1 with _ => _ end = _ =>
      destruct (m s1) as [[[] s2]|]; [|discriminate]
  end.
  unfold bind at 1 in H.
  match type of H with
  | match ?m s2 with _ => _ end = _ =>
      destruct (m s2) as [[[] s3]|]; [|discriminate]
  end.
  cbv zeta in H. rewrite Hb1, Hbuf in H.
  unfold bind at 1 in H.
  destruct (progress d1).
  - unfold bind at 1 in H.
    destruct (call_progress d1 2 s3) as [[[r d2] s4]|] eqn:E2; [|discriminate].
    apply call_progress_same_err in E2. destruct E2 as [He2 [Hb2 _]].
    unfold ret in H. injection H as <- _.
    g_cases; data_simpl; split; congruence.
  - unfold ret in H. injection H as <- _.
    g_cases; data_simpl; split; congruence.
Qed.

End ReportedError.

(** ** The mount orchestrator *)

Section MountFacts.

Context {G : Globals} {W : Type} {OS : Sys W}.



Lemma url_mount_disk_local_return (url url' : url_t) (s s' : state W)
    (ok : Z) :
  url_mount_disk_local url s = Some (Return ok url', s') ->
  ok = 0 /\ mount url' = mount url /\ tmp_mount url' = None.
Proof.
  unfold url_mount_disk_local. m_unfold. intros H.
  m_cases; try discriminate; url_simpl; repeat split; reflexivity.
Qed.

Lemma url_mount_disk_network_goes_on (url url' : url_t)
    (dir : option string) (s s' : state W) (ok : Z) :
  url_mount_disk_network url dir s <> Some (Return ok url', s').
Proof.
  unfold url_mount_disk_network, url_mount_disk_nfs, url_mount_disk_smb,
    dir_or_new_mountpoint.
  m_unfold. intros H. m_cases; discriminate.
Qed.



End MountFacts.



Section NfsRetry.

Context {W : Type} {OS : Sys W}.


End NfsRetry.

Section MountSearch.

Context {G : Globals} {W : Type} {OS : Sys W}.

(** Candidates that are skipped or do not match are passed over: nothing
    is mounted and nothing is noted in the url. *)
Lemma url_mount_loop_untried (hds : list hd_t) (url : url_t)
    (dir : option string) (test_func : option (url_t -> M W (Z * url_t)))
    (err found : Z) (s : state W) :
  forallb (fun hd => url_mount_skips url hd
                     || (url_mount_matched url hd =? 0)) hds = true ->
  url_mount_loop hds url dir test_func err found s
  = Some ((url, err, found), s).
Proof.
  induction hds as [|hd hds IH]; cbn [forallb url_mount_loop].
  - reflexivity.
  - intros H. apply andb_true_iff in H. destruct H as [Hhd Hrest].
    destruct (url_mount_skips url hd); [now apply IH|].
    cbn [orb] in Hhd. rewrite Hhd. now apply IH.
Qed.

(** C8, where the code departs from it.  With a scheme other than file,
    no device in [url->used] and no device hint, a hardware list in
    which no candidate is tried makes [url_mount] return 0, success, with
    the url as it was: [url_mount_disk] is never called and nothing was
    accepted.  ([found] and [err] are both still 0 at
    [return found ? 0 : err].) *)
Theorem url_mount_nothing_tried (url : url_t) (dir : option string)
    (test_func : option (url_t -> M W (Z * url_t))) (s : state W)
    (c1 : config_t) (w1 w2 : W) (hds : list hd_t) :
  scheme url <> 0 -> (scheme url =? inst_file) = false ->
  used_device url = None -> device url = None ->
  update_device_list (config s) (world s) = (c1, w1) ->
  hd_data c1 = true ->
  hd_list (url_mount_hw_item url) w1 = (hds, w2) ->
  forallb (fun hd => url_mount_skips url hd
                     || (url_mount_matched url hd =? 0)) hds = true ->
  url_mount url dir test_func s
  = Some ((0, url), {| config := c1; console := console s; world := w2 |}).
Proof.
  intros Hs Hfile Hused Hdev Hupd Hhd Hlist Hnone.
  unfold url_mount.
  destruct (Z.eqb_spec (scheme url) 0) as [E|_]; [contradiction|].
  unfold bind at 1. unfold sys_cfg_ at 1. rewrite Hupd.
  unfold bind at 1. unfold get_config at 1. cbn [config].
  rewrite Hhd, Hfile, Hused. cbn [negb orb is_some].
  unfold bind at 1. unfold sys at 1. cbn [world]. rewrite Hlist.
  unfold bind at 1.
  rewrite url_mount_loop_untried by exact Hnone.
  rewrite Hused, Hdev. cbn [Z.eqb andb negb is_some].
  unfold bind, ret. reflexivity.
Qed.

Lemma url_mount_loop_log_erase (hds : list hd_t) (url : url_t)
    (dir : option string) (test_func : option (url_t -> M W (Z * url_t)))
    (err found : Z) (log : list Z) (s : state W) :
  url_mount_loop hds url dir test_func err found s
  = match url_mount_loop_log hds url dir test_func err found log s with
    | Some ((u, e, f, _), s') => Some ((u, e, f), s')
    | None => None
    end.
Proof.
  revert url err found log s.
  induction hds as [|hd hds IH]; intros url err found log s;
    cbn [url_mount_loop url_mount_loop_log]; [reflexivity|].
  destruct (url_mount_skips url hd); [apply IH|].
  destruct (url_mount_matched url hd =? 0); [apply IH|].
  unfold bind at 1 3.
  destruct (url_mount_use url hd s) as [[url1 s1]|]; [|reflexivity].
  unfold bind at 1 2.
  destruct (url_mount_disk url1 dir test_func s1) as [[[ok url2] s2]|];
    [|reflexivity].
  destruct (negb (ok =? 0)); [|apply IH].
  destruct (ok =? 1); [reflexivity|apply IH].
Qed.

Lemma url_mount_loop_log_spec (hds : list hd_t) (url url' : url_t)
    (dir : option string) (test_func : option (url_t -> M W (Z * url_t)))
    (err found err' found' : Z) (log log' : list Z) (s s' : state W) :
  url_mount_loop_log hds url dir test_func err found log s
  = Some ((url', err', found', log'), s') ->
  exists l, log' = (log ++ l)%list
    /\ (accepted l = true <-> found < found')
    /\ found <= found'
    /\ err' = (if existsb (fun ok => ok =? 0) l then 1 else err)
    /\ (l = [] -> url' = url /\ s' = s).
Proof.
  revert url err found log s.
  induction hds as [|hd hds IH]; intros url err found log s;
    cbn [url_mount_loop_log].
  - unfold ret. intros H. injection H as <- <- <- <- <-.
    exists []. rewrite app_nil_r. cbn. repeat split; try lia; try discriminate.
  - destruct (url_mount_skips url hd); [apply IH|].
    destruct (url_mount_matched url hd =? 0); [apply IH|].
    unfold bind at 1.
    destruct (url_mount_use url hd s) as [[url1 s1]|]; [|discriminate].
    unfold bind at 1.
    destruct (url_mount_disk url1 dir test_func s1) as [[[ok url2] s2]|];
      [|discriminate].
    destruct (Z.eqb_spec ok 0) as [E0|E0]; cbn [negb].
    + intros H. apply IH in H.
      destruct H as [l [-> [Hacc [Hle [-> _]]]]].
      exists (ok :: l). rewrite <- app_assoc. cbn [app existsb accepted].
      subst ok. cbn [Z.eqb negb orb].
      split; [reflexivity|]. split; [exact Hacc|]. split; [exact Hle|].
      split; [now destruct (existsb _ l)|discriminate].
    + destruct (ok =? 1).
      * unfold ret. intros H. injection H as <- <- <- <- <-.
        exists [ok]. cbn [existsb accepted].
        destruct (Z.eqb_spec ok 0) as [|_]; [contradiction|].
        cbn [negb orb]. repeat split; try lia; try discriminate.
      * intros H. apply IH in H.
        destruct H as [l [-> [Hacc [Hle [-> _]]]]].
        exists (ok :: l). rewrite <- app_assoc. cbn [app existsb accepted].
        destruct (Z.eqb_spec ok 0) as [|_]; [contradiction|].
        cbn [negb orb]. split; [reflexivity|].
        split; [split; [lia|reflexivity]|].
        split; [lia|]. split; [reflexivity|discriminate].
Qed.

(** X19. What [url_mount] returns when it goes through the hardware list, by
    what [url_mount_disk] returned for the candidates: 0 if one was
    accepted; 1 if some were tried and none accepted; if none was tried,
    the answer for the device hint when there is one -- and 0 when there
    is none. *)
Lemma url_mount_result (url url' : url_t) (dir : option string)
    (test_func : option (url_t -> M W (Z * url_t))) (s s' : state W)
    (c1 : config_t) (w1 w2 : W) (hds : list hd_t) (r : Z) :
  scheme url <> 0 -> (scheme url =? inst_file) = false ->
  used_device url = None ->
  update_device_list (config s) (world s) = (c1, w1) ->
  hd_data c1 = true ->
  hd_list (url_mount_hw_item url) w1 = (hds, w2) ->
  url_mount url dir test_func s = Some ((r, url'), s') ->
  let s0 := {| config := c1; console := console s; world := w2 |} in
  exists url1 err found log s1,
    url_mount_loop_log hds url dir test_func 0 0 [] s0
    = Some ((url1, err, found, log), s1)
    /\ if accepted log then r = 0
       else match log with
            | _ :: _ => r = 1
            | [] =>
                match device url with
                | None => r = 0
                | Some _ =>
                    exists ok url2,
                      url_mount_disk (url_mount_fallback url) dir test_func s0
                      = Some ((ok, url2), s')
                      /\ r = (if ok =? 0 then 1 else 0)
                end
            end.
Proof.
  intros Hs Hfile Hused Hupd Hhd Hlist. unfold url_mount.
  destruct (Z.eqb_spec (scheme url) 0) as [E|_]; [contradiction|].
  unfold bind at 1. unfold sys_cfg_ at 1. rewrite Hupd.
  unfold bind at 1. unfold get_config at 1. cbn [config].
  rewrite Hhd, Hfile, Hused. cbn [negb orb is_some].
  unfold bind at 1. unfold sys at 1. cbn [world]. rewrite Hlist.
  unfold bind at 1. cbn [config console].
  rewrite (url_mount_loop_log_erase hds url dir test_func 0 0 []).
  intros H. cbv zeta.
  set (s0 := {| config := c1; console := console s; world := w2 |}) in *.
  destruct (url_mount_loop_log hds url dir test_func 0 0 [] s0)
    as [[[[[url1 err] found] log] s1]|] eqn:Eloop; [|discriminate].
  exists url1, err, found, log, s1. split; [reflexivity|].
  apply url_mount_loop_log_spec in Eloop.
  destruct Eloop as [l [Hl [Hacc [Hle [Herr Hnil]]]]].
  cbn [app] in Hl. subst log.
  destruct (accepted l) eqn:Ea.
  - assert (Hf : 0 < found) by now apply Hacc.
    destruct (Z.eqb_spec found 0) as [|_]; [lia|].
    rewrite andb_false_r in H. cbn [andb] in H.
    unfold bind, ret in H. injection H as <- _ _.
    reflexivity.
  - assert (Hf : found = 0).
    { destruct (Z.ltb_spec 0 found) as [Hlt|]; [|lia].
      apply Hacc in Hlt. discriminate Hlt. }
    subst found. cbn [Z.eqb negb] in H.
    destruct l as [|ok l].
    + destruct (Hnil eq_refl) as [-> ->]. cbn [existsb] in Herr. subst err.
      rewrite Hused in H. cbn [Z.eqb andb negb is_some] in H.
      destruct (device url) as [dev|] eqn:Edev; cbn [is_some] in H.
      * unfold bind at 1 in H. unfold bind at 1 in H.
        fold (url_mount_fallback url) in H. unfold url_mount_fallback in *.
        rewrite Edev in *.
        match type of H with
        | context [url_mount_disk ?u dir test_func s0] =>
            destruct (url_mount_disk u dir test_func s0)
              as [[[ok url2] s2]|] eqn:Ed; [|discriminate]
        end.
        unfold ret in H.
        exists ok, url2.
        destruct (Z.eqb_spec ok 0); cbn [negb Z.eqb] in H;
          injection H as <- _ <-; split; reflexivity.
      * unfold bind, ret in H. injection H as <- _ _. reflexivity.
    + assert (Hex : existsb (fun ok => ok =? 0) (ok :: l) = true).
      { cbn [accepted existsb] in Ea. apply orb_false_iff in Ea.
        destruct Ea as [Ea _]. apply negb_false_iff in Ea.
        cbn [existsb]. now rewrite Ea. }
      rewrite Hex in Herr. subst err. cbn [Z.eqb andb] in H.
      unfold bind, ret in H. injection H as <- _ _. reflexivity.
Qed.

End MountSearch.

(** *** The mount orchestrator on concrete calls *)




Lemma url_mount_nothing_tried_witness :
  let url :=
    match url_set (G := example_globals) (Some "cdrom:/") with
    | Some u => u
    | None => url_calloc
    end in
  scheme url = inst_cdrom (Globals := example_globals)
  /\ device url = None /\ mount url = None
  /\ url_mount (G := example_globals) (OS := script_sys example_script)
       url None None (init_state O)
     = Some ((0, url), init_state O).
Proof.
  intros url.
  split; [reflexivity|]. split; [reflexivity|]. split; [reflexivity|].
  apply (@url_mount_nothing_tried example_globals nat
           (script_sys example_script) url None None (init_state O)
           example_config O O []);
    try reflexivity.
  discriminate.
Defined.

(* ===================================================================== *)
(** * Further properties *)
(* ===================================================================== *)

(** ** The URL model: the formats of [url_print] *)

Lemma append_assoc (a b c : string) : (a ++ b) ++ c = a ++ b ++ c.
Proof. induction a as [|x a IH]; cbn; [reflexivity|now rewrite IH]. Qed.

Lemma append_nil_r (a : string) : a ++ "" = a.
Proof. induction a as [|x a IH]; cbn; [reflexivity|now rewrite IH]. Qed.

Section PrintMore.

Context {G : Globals}.

(** X1. The formats of [url_print] differ in the query part only: the
    text for format 1 is the beginning of the text for every format, and
    what follows it is empty or starts with '?' (the device for formats
    0 and 2, the hardware address for format 0 with [config.debug] at 2
    or more). *)
Theorem url_print_query_part (c : config_t) (u : url_t) (format : Z) :
  exists base q,
    url_print c (Some u) 1 = Some base
    /\ url_print c (Some u) format = Some (base ++ q)
    /\ (q = "" \/ exists q', q = String "?" q')
    /\ (format <> 0 -> format <> 2 -> q = "").
Proof.
  unfold url_print. cbv zeta.
  change (1 =? 0) with false; change (1 =? 2) with false; cbn [orb].
  match goal with
  | |- ex (fun x => ex (fun y => Some ?b = Some x /\ _)) => set (base := b)
  end.
  exists base.
  destruct (Z.eqb_spec format 0) as [->|H0]; cbn [orb].
  - destruct (match used_device u with
              | Some s => Some s
              | None => device u
              end) as [dev|].
    + destruct (used_hwaddr u) as [h|]; [destruct (2 <=? debug c)|];
        eexists; (split; [reflexivity|]);
        rewrite ?append_assoc; (split; [reflexivity|]);
        (split; [right; eexists; reflexivity|]);
        intros E; now contradiction E.
    + destruct (used_hwaddr u) as [h|]; [destruct (2 <=? debug c)|].
      * exists ("?" ++ "hwaddr=" ++ h). split; [reflexivity|].
        split; [reflexivity|]. split; [right; eexists; reflexivity|].
        intros E; now contradiction E.
      * exists "". rewrite append_nil_r. repeat split; auto.
      * exists "". rewrite append_nil_r. repeat split; auto.
  - destruct (Z.eqb_spec format 2) as [->|H2].
    + destruct (match used_device u with
                | Some s => Some s
                | None => device u
                end) as [dev|].
      * eexists. split; [reflexivity|]. split; [reflexivity|].
        split; [right; eexists; reflexivity|].
        intros _ E; now contradiction E.
      * exists "". rewrite append_nil_r. repeat split; auto.
    + exists "". rewrite append_nil_r. repeat split; auto.
Qed.

End PrintMore.

(** ** The URL model: printing and parsing *)

Lemma str_free_of_app (c : ascii) (x y : string) :
  str_free_of c (x ++ y) = str_free_of c x && str_free_of c y.
Proof.
  induction x as [|a x IH]; cbn [append str_free_of]; [reflexivity|].
  now rewrite IH, andb_assoc.
Qed.







(** *** Escaping *)







(** *** Cutting a printed url *)


Lemma str_take_app (x y : string) : str_take (String.length x) (x ++ y) = x.
Proof.
  induction x as [|a x IH]; cbn [append str_take String.length].
  - now destruct y.
  - now rewrite IH.
Qed.

Lemma str_skip_length_app (x y : string) :
  str_skip (String.length x) (x ++ y) = y.
Proof.
  induction x as [|a x IH]; cbn [append str_skip String.length];
    [reflexivity|exact IH].
Qed.


Section RoundTrip.

Context {G : Globals}.













End RoundTrip.

(** ** The transfer pipeline: what a call changes *)

Ltac eta_data :=
  repeat match goal with x : url_data_t |- _ => destruct x end.

Section ProgressMore.

Context {G : Globals}.

(** What [url_progress] returns and the fields it may change *)
Lemma url_progress_touches (c : config_t) (d : url_data_t) (stage : Z) :
  let '(r, d', _) := url_progress c d stage in
  r = 0
  /\ d' = set_percent (percent d') (set_label_shown (label_shown d') d)
  /\ (if (stage =? 0) || (stage =? 2) then d' = d else True).
Proof.
  destruct (url_progress c d stage) as [[r d'] out] eqn:H.
  unfold url_progress in H.
  destruct (stage =? 0); [|destruct (stage =? 2)]; cbn [orb];
    m_cases; data_simpl; eta_data; repeat split; reflexivity.
Qed.

(** X2. The progress indicator never aborts and only notes what it showed:
    [url_progress] returns 0 at every stage and changes no field of the
    transfer state other than [percent] and [label_shown]; at the stages
    init and done it changes nothing at all. *)
Theorem url_progress_only_display (c : config_t) (d : url_data_t)
    (stage : Z) :
  let '(r, d', _) := url_progress c d stage in
  r = 0
  /\ d' = set_percent (percent d') (set_label_shown (label_shown d') d)
  /\ (if (stage =? 0) || (stage =? 2) then d' = d else True).
Proof.
  destruct (url_progress c d stage) as [[r d'] out] eqn:H.
  unfold url_progress in H.
  destruct (stage =? 0); [|destruct (stage =? 2)]; cbn [orb];
    m_cases; data_simpl; eta_data; repeat split; reflexivity.
Qed.

(** X3. An update that finds the percentage unchanged shows nothing and
    changes nothing. *)
Theorem url_progress_unchanged_silent (c : config_t) (d : url_data_t) :
  label_shown d = true -> 0 <= progress_percent d ->
  percent d = progress_percent d ->
  url_progress c d 1 = (0, d, []).
Proof.
  intros Hl Hp He. unfold url_progress. cbn [Z.eqb].
  rewrite Hl. cbn [negb].
  destruct (Z.leb_spec 0 (progress_percent d)) as [_|]; [|lia].
  rewrite <- He, Z.eqb_refl. reflexivity.
Qed.

End ProgressMore.

(** Equations between transfer states, field by field *)
Ltac touch_solve :=
  eta_data; data_simpl;
  repeat match goal with
         | H : @eq url_data_t _ _ |- _ => injection H; clear H; intros
         end;
  subst; reflexivity.

Section WriteStages.

Context {G : Globals} {W : Type} {OS : Sys W}.

Lemma url_write_cb_digest_touches (buffer : list Byte.byte) (d : url_data_t) :
  url_write_cb_digest buffer d = set_sha1_ctx (sha1_ctx d ++ buffer)%list d.
Proof.
  unfold url_write_cb_digest.
  destruct buffer as [|b buffer]; cbn [length Z.of_nat Z.eqb negb].
  - rewrite app_nil_r. now destruct d.
  - destruct (Z.eqb_spec (Z.of_nat (S (length buffer))) 0) as [E|E]; [lia|].
    reflexivity.
Qed.

Lemma url_write_cb_fill_touches (buffer : list Byte.byte) (d : url_data_t) :
  let d1 := fst (fst (url_write_cb_fill buffer d)) in
  d1 = set_buf_len (buf_len d1) (set_buf_data (buf_data d1) d).
Proof.
  unfold url_write_cb_fill. cbv zeta.
  g_cases; cbn [fst]; data_simpl; try reflexivity; now destruct d.
Qed.

Lemma url_write_cb_sniff_touches (d : url_data_t) :
  let d2 := url_write_cb_sniff d in
  d2 = set_image_size (image_size d2)
         (set_cramfs (cramfs d2)
            (set_orig_name (orig_name d2) (set_gzip (gzip d2) d))).
Proof.
  cbv zeta. unfold url_write_cb_sniff.
  assert (Hs : forall x, url_write_cb_size x
                         = set_image_size (image_size (url_write_cb_size x)) x).
  { intros x. unfold url_write_cb_size. cbv zeta.
    g_cases; data_simpl; try reflexivity; now destruct x. }
  assert (Hd : url_write_cb_detect d
               = set_cramfs (cramfs (url_write_cb_detect d))
                   (set_orig_name (orig_name (url_write_cb_detect d))
                      (set_gzip (gzip (url_write_cb_detect d)) d))).
  { unfold url_write_cb_detect. cbv zeta.
    g_cases; data_simpl; try reflexivity; now destruct d. }
  specialize (Hs (url_write_cb_detect d)).
  set (x := url_write_cb_detect d) in *.
  set (y := url_write_cb_size x) in *.
  clearbody y x. destruct d, x, y. data_simpl.
  injection Hs; injection Hd; intros; subst; reflexivity.
Qed.

Lemma url_write_cb_open_touches (d d' : url_data_t) (s s' : state W) :
  url_write_cb_open d s = Some (d', s') ->
  d' = set_err_buf (err_buf d')
         (set_err (err d')
            (set_pipe_fd (pipe_fd d')
               (set_f (f d')
                  (set_zp_total (zp_total d')
                     (set_tmp_file (tmp_file d')
                        (set_file_opened (file_opened d') d)))))).
Proof.
  unfold url_write_cb_open. m_unfold. intros H.
  m_cases; data_simpl; eta_data; reflexivity.
Qed.

(** What is written once the destination is open, lines 297-311 *)
Lemma url_write_cb_store_stages (buffer : list Byte.byte) (z1 : Z)
    (d d' : url_data_t) (s s' : state W) :
  url_write_cb_store buffer z1 d s = Some (d', s') ->
  exists d0 s0,
    url_write_cb_open d s = Some (d0, s0)
    /\ let da := if f d0 && negb (buf_len d0 =? 0)
                 then set_p_now (to_uint32 (p_now d0 + buf_len d0)) d0
                 else d0 in
       let db := if f da && negb (z1 =? 0)
                 then set_p_now (to_uint32 (p_now da + z1)) da else da in
       d' = if negb (buf_max db =? 0)
            then set_buf_data [] (set_buf_max 0 (set_buf_len 0 db)) else db.
Proof.
  unfold url_write_cb_store. unfold bind at 1.
  destruct (url_write_cb_open d s) as [[d0 s0]|]; [|discriminate].
  intros H. exists d0, s0. split; [reflexivity|]. cbv zeta.
  m_unfold.
  destruct (f d0 && negb (buf_len d0 =? 0));
    data_simpl;
    destruct (f d0 && negb (z1 =? 0));
    injection H as <- _; reflexivity.
Qed.

Lemma url_write_cb_stages (buffer : list Byte.byte) (d d' : url_data_t)
    (s s' : state W) (n : Z) :
  url_write_cb buffer d s = Some ((n, d'), s') ->
  exists d1 z1 rest d3 s3,
    url_write_cb_fill buffer (url_write_cb_digest buffer d) = (d1, z1, rest)
    /\ (if sniff_ready d1
        then url_write_cb_store rest z1
               (if 11 <=? buf_len d1 then url_write_cb_sniff d1 else d1)
        else ret d1) s = Some (d3, s3)
    /\ d' = set_percent (percent d')
              (set_label_shown (label_shown d') (set_zp_now (zp_now d') d3))
    /\ n = (if negb (err d' =? 0) then 0 else Z.of_nat (length buffer)).
Proof.
  unfold url_write_cb.
  destruct (url_write_cb_fill buffer _) as [[d1 z1] rest].
  cbv zeta. intros H. exists d1, z1, rest.
  unfold bind at 1 in H.
  match type of H with
  | match ?m s with _ => _ end = _ =>
      destruct (m s) as [[d3 s3]|] eqn:Es; [|discriminate]
  end.
  exists d3, s3. split; [reflexivity|]. split.
  { destruct (sniff_ready d1); cbn [andb] in Es; exact Es. }
  clear Es.
  unfold bind at 1 in H.
  match type of H with
  | match ?m s3 with _ => _ end = _ =>
      destruct (m s3) as [[d4 s4]|] eqn:El; [|discriminate]
  end.
  assert (H4 : d4 = set_zp_now (zp_now d4) d3).
  { m_unfold. m_cases; data_simpl; try reflexivity; eta_data; reflexivity. }
  clear El.
  unfold bind at 1 in H.
  destruct ((negb (p_total d4 =? 0) || negb (zp_total d4 =? 0))
            && progress d4).
  - unfold bind at 1 in H.
    destruct (call_progress d4 1 s4) as [[[r d5] s5]|] eqn:Ec; [|discriminate].
    unfold call_progress in Ec. m_unfold.
    pose proof (url_progress_touches (config s4) d4 1) as Ht.
    destruct (url_progress (config s4) d4 1) as [[r0 d6] out].
    injection Ec as <- <- _. destruct Ht as [-> [Ht _]].
    cbn [Z.eqb negb andb] in H. injection H as <- <- _.
    split; [|reflexivity]. clear - Ht H4. touch_solve.
  - unfold ret in H. injection H as <- <- _.
    split; [|reflexivity]. clear - H4. touch_solve.
Qed.

End WriteStages.

Section WriteFacts.

Context {G : Globals} {W : Type} {OS : Sys W}.

(** The fields [url_write_cb] may change; the digest takes the chunk. *)
Lemma url_write_cb_touches (buffer : list Byte.byte) (d d' : url_data_t)
    (s s' : state W) (n : Z) :
  url_write_cb buffer d s = Some ((n, d'), s') ->
  d' = set_percent (percent d')
         (set_label_shown (label_shown d')
            (set_zp_now (zp_now d')
               (set_buf_data (buf_data d')
                  (set_buf_max (buf_max d')
                     (set_buf_len (buf_len d')
                        (set_p_now (p_now d')
                           (set_err_buf (err_buf d')
                              (set_err (err d')
                                 (set_pipe_fd (pipe_fd d')
                                    (set_f (f d')
                                       (set_zp_total (zp_total d')
                                          (set_tmp_file (tmp_file d')
                                             (set_file_opened (file_opened d')
           (set_image_size (image_size d')
              (set_cramfs (cramfs d')
                 (set_orig_name (orig_name d')
                    (set_gzip (gzip d')
                       (set_sha1_ctx (sha1_ctx d ++ buffer)%list d)
         ))))))))))))))))).
Proof.
  intros H. apply url_write_cb_stages in H.
  destruct H as [d1 [z1 [rest [d3 [s3 [Hf [Hs [Hd _]]]]]]]].
  pose proof (url_write_cb_fill_touches buffer (url_write_cb_digest buffer d))
    as H1. cbv zeta in H1. rewrite Hf in H1. cbn [fst] in H1.
  rewrite url_write_cb_digest_touches in H1. clear Hf.
  assert (H3 : exists d2 d0,
             d2 = set_image_size (image_size d2)
                    (set_cramfs (cramfs d2)
                       (set_orig_name (orig_name d2) (set_gzip (gzip d2) d1)))
             /\ d0 = set_err_buf (err_buf d0)
                       (set_err (err d0)
                          (set_pipe_fd (pipe_fd d0)
                             (set_f (f d0)
                                (set_zp_total (zp_total d0)
                                   (set_tmp_file (tmp_file d0)
                                      (set_file_opened (file_opened d0) d2))))))
             /\ d3 = set_buf_data (buf_data d3)
                       (set_buf_max (buf_max d3)
                          (set_buf_len (buf_len d3)
                             (set_p_now (p_now d3) d0)))).
  { destruct (sniff_ready d1).
    - apply url_write_cb_store_stages in Hs.
      destruct Hs as [d0 [s0 [Ho Hs]]]. cbv zeta in Hs.
      apply url_write_cb_open_touches in Ho.
      match type of Ho with
      | _ = _ (_ (_ (_ (_ (_ (_ ?x)))))) => exists x, d0
      end.
      split; [|split; [exact Ho|]].
      + destruct (11 <=? buf_len d1);
          [apply url_write_cb_sniff_touches|now destruct d1].
      + rewrite Hs. clear. g_cases; data_simpl; try reflexivity;
          now destruct d0.
    - unfold ret in Hs. injection Hs as <- _.
      exists d1, d1. clear. repeat split; now destruct d1. }
  destruct H3 as [d2 [d0 [H2 [H0 H3]]]]. clear Hs.
  touch_solve.
Qed.

End WriteFacts.

Section WriteCounts.

Context {G : Globals} {W : Type} {OS : Sys W}.

Lemma to_uint32_add_l (a b : Z) : to_uint32 (to_uint32 a + b) = to_uint32 (a + b).
Proof. unfold to_uint32. now rewrite Z.add_mod_idemp_l by lia. Qed.

Lemma to_uint32_idem (a : Z) : to_uint32 (to_uint32 a) = to_uint32 a.
Proof. unfold to_uint32. now rewrite Z.mod_mod by lia. Qed.

Lemma url_write_cb_fill_counts (buffer rest : list Byte.byte)
    (d d1 : url_data_t) (z1 : Z) :
  url_write_cb_fill buffer d = (d1, z1, rest) ->
  0 <= buf_len d <= buf_max d ->
  buf_len d1 + z1 = buf_len d + Z.of_nat (length buffer)
  /\ 0 <= z1 /\ 0 <= buf_len d1 <= buf_max d1
  /\ (buf_len d1 <> buf_max d1 -> z1 = 0).
Proof.
  unfold url_write_cb_fill. cbv zeta. intros H Hb.
  destruct (Z.ltb_spec (buf_len d) (buf_max d));
    destruct (Z.eqb_spec (Z.of_nat (length buffer)) 0);
    cbn [andb negb] in H;
    try destruct (Z.ltb_spec (Z.of_nat (length buffer))
                    (buf_max d - buf_len d));
    injection H as <- <- _; data_simpl; lia.
Qed.

Lemma url_write_cb_open_facts (d d' : url_data_t) (s s' : state W) :
  url_write_cb_open d s = Some (d', s') ->
  file_opened d' = true
  /\ (file_opened d = true -> d' = d)
  /\ (err d' = err d \/ err d' = 101 \/ err d' = 1)
  /\ ((forall fd tmp w, fst (sys_popen_gzip fd tmp w) = true) ->
      file_opened d = false -> err d' = 0 -> f d' = true).
Proof.
  unfold url_write_cb_open. m_unfold. intros H.
  destruct (file_opened d) eqn:Eo.
  - injection H as <- _. repeat split; auto; discriminate.
  - m_cases; data_simpl; repeat split; auto; try discriminate;
      try (intros; discriminate).
    all: intros Hp _ _.
    all: match goal with
         | E : sys_popen_gzip ?a ?b ?c = (_, _) |- _ =>
             specialize (Hp a b c); rewrite E in Hp; exact Hp
         end.
Qed.

(** What a call of [url_write_cb] does to the byte counter, the state of
    the destination and the error. *)
Lemma url_write_cb_step (buffer : list Byte.byte) (d d' : url_data_t)
    (s s' : state W) (n : Z) :
  url_write_cb buffer d s = Some ((n, d'), s') ->
  0 <= buf_len d <= buf_max d ->
  (err d' = 0 -> err d = 0 /\ n = Z.of_nat (length buffer))
  /\ (file_opened d = true -> file_opened d' = true /\ f d' = f d)
  /\ ((forall fd tmp w, fst (sys_popen_gzip fd tmp w) = true) ->
      file_opened d = false -> file_opened d' = true -> err d' = 0 ->
      f d' = true)
  /\ ((file_opened d' = true -> f d' = true) ->
      to_uint32 (p_now d' + buf_len d')
      = to_uint32 (p_now d + buf_len d + Z.of_nat (length buffer))).
Proof.
  intros H Hb. apply url_write_cb_stages in H.
  destruct H as [d1 [z1 [rest [d3 [s3 [Hf [Hs [Hd Hn]]]]]]]].
  assert (H0 : err d' = err d3 /\ file_opened d' = file_opened d3
               /\ f d' = f d3 /\ p_now d' = p_now d3
               /\ buf_len d' = buf_len d3)
    by (rewrite Hd; data_simpl; tauto).
  destruct H0 as [Hed [Hod [Hfd [Hpd Hld]]]]. clear Hd.
  rewrite Hed in Hn. rewrite Hed, Hod, Hfd, Hpd, Hld.
  clear Hed Hod Hfd Hpd Hld.
  pose proof (url_write_cb_fill_touches buffer (url_write_cb_digest buffer d))
    as H1. cbv zeta in H1. rewrite Hf in H1. cbn [fst] in H1.
  rewrite url_write_cb_digest_touches in H1.
  apply url_write_cb_fill_counts in Hf;
    [|rewrite url_write_cb_digest_touches; data_simpl; exact Hb].
  rewrite url_write_cb_digest_touches in Hf. data_simpl.
  destruct Hf as [Hsum [Hz [Hb1 Hfull]]].
  assert (H1' : err d1 = err d /\ file_opened d1 = file_opened d
                /\ f d1 = f d /\ p_now d1 = p_now d)
    by (rewrite H1; data_simpl; tauto).
  destruct H1' as [He1 [Ho1 [Hf1 Hp1]]]. clear H1.
  destruct (sniff_ready d1) eqn:Er.
  - set (d2 := if 11 <=? buf_len d1 then url_write_cb_sniff d1 else d1) in *.
    assert (H2 : err d2 = err d1 /\ file_opened d2 = file_opened d1
                 /\ f d2 = f d1 /\ p_now d2 = p_now d1
                 /\ buf_len d2 = buf_len d1 /\ buf_max d2 = buf_max d1).
    { subst d2. destruct (11 <=? buf_len d1); [|tauto].
      rewrite url_write_cb_sniff_touches. data_simpl. tauto. }
    destruct H2 as [He2 [Ho2 [Hf2 [Hp2 [Hl2 Hm2]]]]].
    clearbody d2.
    apply url_write_cb_store_stages in Hs.
    destruct Hs as [d0 [s0 [Ho Hs]]]. cbv zeta in Hs.
    pose proof (url_write_cb_open_touches _ _ Ho) as Ht.
    assert (H3 : p_now d0 = p_now d2 /\ buf_len d0 = buf_len d2
                 /\ buf_max d0 = buf_max d2)
      by (rewrite Ht; data_simpl; tauto).
    destruct H3 as [Hp0 [Hl0 Hm0]]. clear Ht.
    apply url_write_cb_open_facts in Ho.
    destruct Ho as [Hop [Hid [Herr Hpop]]].
    assert (H3 : err d3 = err d0 /\ file_opened d3 = true /\ f d3 = f d0).
    { rewrite Hs. clear - Hop. g_cases; data_simpl; tauto. }
    destruct H3 as [He3 [Ho3 Hf3]].
    rewrite He3, Ho3, Hf3.
    split; [|split; [|split]].
    + intros E0. split; [|rewrite Hn, He3, E0; reflexivity].
      destruct Herr as [E|[E|E]]; congruence.
    + intros Hopen. split; [reflexivity|].
      rewrite Hid by congruence. congruence.
    + intros Hp Hclosed _ E0. apply Hpop; congruence.
    + intros Hopen. specialize (Hopen eq_refl).
      replace (p_now d + buf_len d + Z.of_nat (length buffer))
        with (p_now d0 + buf_len d0 + z1) by lia.
      rewrite Hs, Hopen. cbn [andb].
      assert (Hb0 : 0 <= buf_len d0 <= buf_max d0) by lia.
      clear - Hb0 Hopen Hz.
      destruct (Z.eqb_spec (buf_len d0) 0) as [El|El]; cbn [negb];
        data_simpl; rewrite ?Hopen; cbn [andb];
        destruct (Z.eqb_spec z1 0) as [Ez|Ez]; cbn [negb]; data_simpl;
        destruct (Z.eqb_spec (buf_max d0) 0) as [Em|Em]; cbn [negb];
        data_simpl; rewrite ?El, ?Ez, ?Z.add_0_r;
        rewrite ?to_uint32_add_l, ?to_uint32_idem; try reflexivity;
        try lia.
  - unfold ret in Hs. injection Hs as <- _.
    assert (Hz1 : z1 = 0).
    { apply Hfull. unfold sniff_ready in Er.
      apply orb_false_iff in Er. destruct Er as [Er _].
      now apply Z.eqb_neq in Er. }
    split; [|split; [|split]].
    + intros E0. split; [congruence|]. rewrite Hn, E0. reflexivity.
    + intros Hopen. split; congruence.
    + intros _ Hc Hopen. congruence.
    + intros _. f_equal. lia.
Qed.

End WriteCounts.

(** ** The transfer pipeline: a whole transfer *)

Section RunFacts.

Context {G : Globals} {W : Type} {OS : Sys W}.

Lemma url_progress_cb_touches (dltotal dlnow : Z) (d d' : url_data_t)
    (s s' : state W) (r : Z) :
  url_progress_cb dltotal dlnow d s = Some ((r, d'), s') ->
  r = 0
  /\ p_total d' = (if p_total d =? 0 then to_uint32 dltotal else p_total d)
  /\ d' = set_percent (percent d')
            (set_label_shown (label_shown d') (set_p_total (p_total d') d)).
Proof.
  unfold url_progress_cb. cbv zeta.
  set (d0 := if p_total d =? 0 then set_p_total (to_uint32 dltotal) d else d).
  assert (H0 : d0 = set_p_total (p_total d0) d
               /\ p_total d0 = (if p_total d =? 0 then to_uint32 dltotal
                                else p_total d)).
  { subst d0. destruct (p_total d =? 0); data_simpl;
      split; try reflexivity; now destruct d. }
  destruct H0 as [H0 Hp]. clearbody d0.
  destruct (progress d0).
  - unfold call_progress. m_unfold.
    pose proof (url_progress_touches (config s) d0 1) as Ht.
    destruct (url_progress (config s) d0 1) as [[r0 d1] out].
    destruct Ht as [-> [Ht _]].
    intros H. injection H as <- <- _.
    split; [reflexivity|].
    assert (Hp1 : p_total d1 = p_total d0) by (rewrite Ht; reflexivity).
    split; [congruence|]. clear - Ht H0. touch_solve.
  - unfold ret. intros H. injection H as <- <- _.
    split; [reflexivity|]. split; [exact Hp|].
    clear - H0. touch_solve.
Qed.

(** A transfer that ends without an error noted has handed every chunk of
    curl to the digest and to the byte counter, in order. *)
Lemma curl_run_complete (events : list curl_event) (code : Z)
    (d d' : url_data_t) (s s' : state W) (i : Z) :
  (forall fd tmp w, fst (sys_popen_gzip fd tmp w) = true) ->
  curl_run events code d s = Some ((i, d'), s') ->
  sniff_inv d -> opened_ok d -> err d' = 0 ->
  i = code /\ err d = 0 /\ opened_ok d'
  /\ sha1_ctx d' = (sha1_ctx d ++ curl_bytes events)%list
  /\ to_uint32 (p_now d' + buf_len d')
     = to_uint32 (p_now d + buf_len d
                  + Z.of_nat (length (curl_bytes events))).
Proof.
  intros Hpop. revert d s.
  induction events as [|[buffer|dltotal dlnow] events IH]; intros d s;
    cbn [curl_run curl_bytes].
  - unfold ret. intros H Hi Ho E0. injection H as <- <- _.
    rewrite app_nil_r. cbn [length Z.of_nat]. rewrite Z.add_0_r. tauto.
  - unfold bind at 1.
    destruct (url_write_cb buffer d s) as [[[n d1] s1]|] eqn:E; [|discriminate].
    intros H Hi Ho E0.
    assert (Hi1 : sniff_inv d1)
      by (eapply url_write_cb_inv; [exact Hi|exact E]).
    pose proof E as Ht. apply url_write_cb_touches in Ht.
    assert (Hb : 0 <= buf_len d <= buf_max d) by apply Hi.
    eapply url_write_cb_step in E; [|exact Hb].
    destruct E as [Ha [Hsame [Hnew Hcount]]].
    assert (Ho1 : opened_ok d1).
    { intros Hop1 He1. destruct (Ha He1) as [He _].
      destruct (file_opened d) eqn:Eop.
      - destruct (Hsame eq_refl) as [_ ->]. now apply Ho.
      - now apply Hnew. }
    destruct (Z.eqb_spec n (Z.of_nat (length buffer))) as [En|En].
    + destruct (IH d1 s1 H Hi1 Ho1 E0) as [-> [He1 [Ho' [Hsha Hcnt]]]].
      destruct (Ha He1) as [He _].
      split; [reflexivity|]. split; [exact He|]. split; [exact Ho'|].
      split.
      * rewrite Hsha. rewrite Ht. data_simpl. now rewrite app_assoc.
      * rewrite Hcnt. rewrite length_app, Nat2Z.inj_add.
        specialize (Hcount (fun Hop => Ho1 Hop He1)).
        rewrite <- to_uint32_add_l, Hcount, to_uint32_add_l.
        f_equal. lia.
    + unfold ret in H. injection H as _ <- _.
      destruct (Ha E0) as [_ Hn]. contradiction.
  - unfold bind at 1.
    destruct (url_progress_cb dltotal dlnow d s) as [[[r d1] s1]|] eqn:E;
      [|discriminate].
    intros H Hi Ho E0.
    assert (Hi1 : sniff_inv d1)
      by (eapply url_progress_cb_inv; [exact Hi|exact E]).
    apply url_progress_cb_touches in E. destruct E as [-> [_ Ht]].
    cbn [Z.eqb] in H.
    assert (Hsame : err d1 = err d /\ file_opened d1 = file_opened d
                    /\ f d1 = f d /\ sha1_ctx d1 = sha1_ctx d
                    /\ p_now d1 = p_now d /\ buf_len d1 = buf_len d)
      by (rewrite Ht; data_simpl; tauto).
    destruct Hsame as [He [Hop [Hf [Hs [Hp Hl]]]]].
    assert (Ho1 : opened_ok d1)
      by (unfold opened_ok; rewrite He, Hop, Hf; exact Ho).
    destruct (IH d1 s1 H Hi1 Ho1 E0) as [-> [He1 [Ho' [Hsha Hcnt]]]].
    split; [reflexivity|]. split; [congruence|]. split; [exact Ho'|].
    split; congruence.
Qed.

End RunFacts.

Section ReadFacts.

Context {G : Globals} {W : Type} {OS : Sys W}.

Lemma call_progress_touches (d d' : url_data_t) (stage r : Z)
    (s s' : state W) :
  call_progress d stage s = Some ((r, d'), s') ->
  r = 0
  /\ d' = set_percent (percent d') (set_label_shown (label_shown d') d)
  /\ (if (stage =? 0) || (stage =? 2) then d' = d else True).
Proof.
  unfold call_progress. m_unfold.
  pose proof (url_progress_touches (config s) d stage) as Ht.
  destruct (url_progress (config s) d stage) as [[r0 d0] out].
  intros H. injection H as <- <- _. exact Ht.
Qed.

(** The fields the callbacks of a transfer leave alone *)
Lemma curl_run_keeps (events : list curl_event) (code : Z)
    (d d' : url_data_t) (s s' : state W) (i : Z) :
  curl_run events code d s = Some ((i, d'), s') ->
  url d' = url d /\ file_name d' = file_name d
  /\ curl_err_buf d' = curl_err_buf d /\ err_buf_len d' = err_buf_len d
  /\ flush d' = flush d /\ unzip d' = unzip d /\ label d' = label d
  /\ progress d' = progress d /\ sha1 d' = sha1 d.
Proof.
  revert d s.
  induction events as [|[buffer|dltotal dlnow] events IH]; intros d s;
    cbn [curl_run].
  - unfold ret. intros H. injection H as _ <- _. tauto.
  - unfold bind at 1.
    destruct (url_write_cb buffer d s) as [[[n d1] s1]|] eqn:E; [|discriminate].
    apply url_write_cb_touches in E.
    assert (H1 : url d1 = url d /\ file_name d1 = file_name d
                 /\ curl_err_buf d1 = curl_err_buf d
                 /\ err_buf_len d1 = err_buf_len d
                 /\ flush d1 = flush d /\ unzip d1 = unzip d
                 /\ label d1 = label d
                 /\ progress d1 = progress d /\ sha1 d1 = sha1 d)
      by (rewrite E; data_simpl; tauto).
    clear E. intros H.
    destruct (n =? Z.of_nat (length buffer)).
    + apply IH in H. intuition congruence.
    + unfold ret in H. injection H as _ <- _. exact H1.
  - unfold bind at 1.
    destruct (url_progress_cb dltotal dlnow d s) as [[[r d1] s1]|] eqn:E;
      [|discriminate].
    apply url_progress_cb_touches in E. destruct E as [-> [_ E]].
    assert (H1 : url d1 = url d /\ file_name d1 = file_name d
                 /\ curl_err_buf d1 = curl_err_buf d
                 /\ err_buf_len d1 = err_buf_len d
                 /\ flush d1 = flush d /\ unzip d1 = unzip d
                 /\ label d1 = label d
                 /\ progress d1 = progress d /\ sha1 d1 = sha1 d)
      by (rewrite E; data_simpl; tauto).
    clear E. cbn [Z.eqb]. intros H. apply IH in H. intuition congruence.
Qed.

Lemma url_read_setup_touches (d d' : url_data_t) (s s' : state W)
    (proxy_url : option string) :
  url_read_setup d s = Some ((proxy_url, d'), s') ->
  d' = set_err_buf (err_buf d') (set_err (err d') (set_sha1_ctx [] d)).
Proof.
  unfold url_read_setup. cbv zeta. intros H.
  unfold bind at 1 in H. unfold sys_read at 1 in H.
  unfold bind at 1 in H. unfold get_config at 1 in H.
  unfold bind at 1 in H.
  match type of H with
  | match ?m s with _ => _ end = _ =>
      destruct (m s) as [[d1 s1]|] eqn:E1; [|discriminate]
  end.
  assert (H1 : d1 = set_err_buf (err_buf d1)
                      (set_err (err d1) (set_sha1_ctx [] d))).
  { clear H. m_unfold. m_cases; g_cases; data_simpl; eta_data; reflexivity. }
  clear E1. unfold bind at 1 in H.
  destruct (progress d1).
  - unfold bind at 1 in H.
    destruct (call_progress d1 0 s1) as [[[r d2] s2]|] eqn:E2; [|discriminate].
    apply call_progress_touches in E2. destruct E2 as [_ [_ E2]].
    cbn [Z.eqb orb] in E2. subst d2.
    unfold ret in H. injection H as _ <- _. exact H1.
  - unfold ret in H. injection H as _ <- _. exact H1.
Qed.

Lemma url_read_close_touches (d d' : url_data_t) (s s' : state W) :
  url_read_close d s = Some (d', s') ->
  d' = set_err_buf (err_buf d') (set_err (err d') (set_f false d))
       /\ (err d' = 0 -> err d = 0)
  \/ d' = d /\ f d = false.
Proof.
  unfold url_read_close. m_unfold. intros H.
  destruct (f d) eqn:Ef; [left|right; injection H as <- _; now split].
  m_cases; g_cases; data_simpl; split;
    try (intros; discriminate); try (intros; assumption);
    try (eta_data; reflexivity).
  all: try (intros E0; apply Z.eqb_neq in E0 || idtac; congruence).
Qed.

Lemma set_flush_inv (b : bool) (d : url_data_t) :
  sniff_inv d -> sniff_inv (set_flush b d).
Proof. unfold sniff_inv. data_simpl. tauto. Qed.

(** The call at the end of the stream gives up the sniff buffer. *)
Lemma url_write_cb_flushed (buffer : list Byte.byte) (d d' : url_data_t)
    (s s' : state W) (n : Z) :
  url_write_cb buffer d s = Some ((n, d'), s') ->
  0 <= buf_len d <= buf_max d -> flush d = true ->
  buf_len d' = 0 /\ buf_max d' = 0.
Proof.
  intros H Hb Hfl. apply url_write_cb_classifies in H. cbv zeta in H.
  destruct (url_write_cb_buffered_fields buffer d) as [_ [_ [_ [Hm Hl]]]].
  specialize (Hl Hb).
  assert (Hf1 : flush (url_write_cb_buffered buffer d) = true).
  { unfold url_write_cb_buffered.
    pose proof (url_write_cb_fill_touches buffer
                  (url_write_cb_digest buffer d)) as Ht.
    cbv zeta in Ht. rewrite Ht, url_write_cb_digest_touches.
    data_simpl. exact Hfl. }
  set (d1 := url_write_cb_buffered buffer d) in *.
  destruct (url_write_cb_sniff_fields d1) as [Sl [Sm _]].
  destruct H as [_ [_ [_ [_ H]]]].
  unfold sniff_ready in H. rewrite Hf1, orb_true_r in H. cbn [andb] in H.
  destruct (11 <=? buf_len d1);
    match type of H with
    | if ?b then _ else _ => destruct b eqn:E
    end; try tauto;
    apply Z.eqb_eq in E; rewrite ?Sl, ?Sm in *; lia.
Qed.

(** A call without bytes and without buffered bytes counts nothing. *)
Lemma url_write_cb_idle (d d' : url_data_t) (s s' : state W) (n : Z) :
  url_write_cb [] d s = Some ((n, d'), s') ->
  buf_len d = 0 ->
  p_now d' = p_now d /\ buf_len d' = 0
  /\ sha1_ctx d' = sha1_ctx d /\ sha1 d' = sha1 d
  /\ (err d' = 0 -> err d = 0).
Proof.
  intros H Hl.
  pose proof H as Ht. apply url_write_cb_touches in Ht.
  apply url_write_cb_stages in H.
  destruct H as [d1 [z1 [rest [d3 [s3 [Hf [Hs [Hd _]]]]]]]].
  assert (H1 : d1 = d /\ z1 = 0).
  { rewrite url_write_cb_digest_touches, app_nil_r in Hf.
    unfold url_write_cb_fill in Hf. cbv zeta in Hf.
    cbn [length Z.of_nat Z.eqb negb andb] in Hf. rewrite andb_false_r in Hf.
    injection Hf as <- <- _. split; [now destruct d|reflexivity]. }
  destruct H1 as [-> ->]. clear Hf.
  assert (H3 : p_now d3 = p_now d /\ buf_len d3 = 0
               /\ (err d3 = 0 -> err d = 0)).
  { destruct (sniff_ready d).
    - set (d2 := if 11 <=? buf_len d then url_write_cb_sniff d else d) in *.
      assert (H2 : err d2 = err d /\ p_now d2 = p_now d
                   /\ buf_len d2 = buf_len d).
      { subst d2. destruct (11 <=? buf_len d); [|tauto].
        rewrite url_write_cb_sniff_touches. data_simpl. tauto. }
      destruct H2 as [He2 [Hp2 Hl2]]. clearbody d2.
      apply url_write_cb_store_stages in Hs.
      destruct Hs as [d0 [s0 [Ho Hs]]]. cbv zeta in Hs.
      pose proof Ho as Hto. apply url_write_cb_open_touches in Hto.
      assert (H0 : p_now d0 = p_now d2 /\ buf_len d0 = buf_len d2)
        by (rewrite Hto; data_simpl; tauto).
      destruct H0 as [Hp0 Hl0]. clear Hto.
      apply url_write_cb_open_facts in Ho.
      destruct Ho as [_ [_ [Herr _]]].
      assert (E0 : buf_len d0 = 0) by congruence.
      rewrite E0 in Hs. cbn [Z.eqb negb] in Hs.
      rewrite !andb_false_r in Hs.
      rewrite Hs. g_cases; data_simpl;
        (split; [congruence|split; [congruence|]]);
        intros Hz; destruct Herr as [E|[E|E]]; congruence.
    - unfold ret in Hs. injection Hs as <- _. tauto. }
  destruct H3 as [Hp3 [Hl3 He3]].
  assert (H4 : p_now d' = p_now d3 /\ buf_len d' = buf_len d3
               /\ err d' = err d3)
    by (rewrite Hd; data_simpl; tauto).
  destruct H4 as [-> [-> ->]].
  split; [exact Hp3|]. split; [exact Hl3|].
  split; [rewrite Ht; data_simpl; apply app_nil_r|].
  split; [rewrite Ht; reflexivity|exact He3].
Qed.

Lemma url_read_finish_facts (d d' : url_data_t) (s s' : state W) :
  url_read_finish d s = Some (d', s') ->
  exists n d4 s4,
    url_write_cb [] (set_flush false d) s = Some ((n, d4), s4)
    /\ err d' = err d4 /\ p_now d' = p_now d4 /\ buf_len d' = buf_len d4
    /\ sha1 d'
       = (if err d4 =? 0 then Some (sha1_hex (sha1_ctx d4)) else sha1 d4)
    /\ sha1_ctx d' = sha1_ctx d4
    /\ err_buf d'
       = (if str_nonempty (err_buf d4) then err_buf d4
          else snprintf (err_buf_len d4 + 1) (curl_err_buf d4)).
Proof.
  unfold url_read_finish. intros H.
  unfold bind at 1 in H.
  destruct (url_write_cb [] (set_flush false d) s)
    as [[[n d1] s1]|] eqn:E1; [|discriminate].
  exists n, d1, s1. split; [reflexivity|].
  unfold bind at 1 in H.
  match type of H with
  | match ?m s1 with _ => _ end = _ =>
      destruct (m s1) as [[[] s2]|]; [|discriminate]
  end.
  unfold bind at 1 in H.
  match type of H with
  | match ?m s2 with _ => _ end = _ =>
      destruct (m s2) as [[[] s3]|]; [|discriminate]
  end.
  cbv zeta in H.
  match type of H with
  | context [call_progress ?x 2] => set (d2 := x) in *
  end.
  assert (H2 : err d2 = err d1 /\ p_now d2 = p_now d1
               /\ buf_len d2 = buf_len d1 /\ sha1 d2 = sha1 d1
               /\ sha1_ctx d2 = sha1_ctx d1
               /\ err_buf d2
                  = (if str_nonempty (err_buf d1) then err_buf d1
                     else snprintf (err_buf_len d1 + 1) (curl_err_buf d1)))
    by (subst d2; g_cases; data_simpl; tauto).
  clearbody d2. destruct H2 as [He2 [Hp2 [Hl2 [Hs2 [Hc2 Hb2]]]]].
  unfold bind at 1 in H.
  match type of H with
  | match ?m s3 with _ => _ end = _ =>
      destruct (m s3) as [[d3 s4]|] eqn:E3; [|discriminate]
  end.
  assert (H3 : d3 = d2).
  { clear H. destruct (progress d2).
    - unfold bind at 1 in E3.
      destruct (call_progress d2 2 s3) as [[[r d4] s5]|] eqn:E4;
        [|discriminate].
      apply call_progress_touches in E4. destruct E4 as [_ [_ E4]].
      change (d4 = d2) in E4. subst d4.
      unfold ret in E3. now injection E3 as <- _.
    - unfold ret in E3. now injection E3 as <- _. }
  subst d3. unfold ret in H. injection H as <- _.
  rewrite <- Hb2, <- He2, <- Hp2, <- Hl2, <- Hs2, <- Hc2.
  destruct (err d2 =? 0); data_simpl; tauto.
Qed.

End ReadFacts.

Section ReadTheorems.

Context {G : Globals} {W : Type} {OS : Sys W}.

Lemma url_read_perform_facts (proxy_url : option string) (d d' : url_data_t)
    (s s' : state W) :
  (forall fd tmp w, fst (sys_popen_gzip fd tmp w) = true) ->
  url_read_perform proxy_url d s = Some (d', s') ->
  sniff_inv d -> opened_ok d -> err d' = 0 ->
  exists events msg,
    curl_easy_perform (url_str_of d) proxy_url (world s) = (events, 0, msg)
    /\ err d = 0
    /\ sha1_ctx d' = (sha1_ctx d ++ curl_bytes events)%list
    /\ to_uint32 (p_now d')
       = to_uint32 (p_now d + buf_len d
                    + Z.of_nat (length (curl_bytes events)))
    /\ buf_len d' = 0 /\ buf_max d' = 0.
Proof.
  intros Hpop H Hi Ho E0. unfold url_read_perform in H.
  unfold bind at 1 in H.
  destruct (Z.eqb_spec (err d) 0) as [Ed|Ed].
  2:{ unfold ret in H. destruct (Z.eqb_spec (err d) 0) as [|_];
        [contradiction|].
      injection H as <- _. contradiction. }
  unfold bind at 1 in H. unfold sys_read at 1 in H.
  destruct (curl_easy_perform (url_str_of d) proxy_url (world s))
    as [[events code] msg].
  unfold bind at 1 in H.
  destruct (curl_run events code d s) as [[[i dx] sx]|] eqn:Er; [|discriminate].
  unfold ret in H.
  assert (Hix : sniff_inv dx) by (eapply curl_run_inv; [exact Hi|exact Er]).
  set (dy := if negb (i =? 0) then set_curl_err_buf msg dx else dx) in *.
  set (dz := if err dy =? 0 then set_err i dy else dy) in *.
  destruct (Z.eqb_spec (err dz) 0) as [Ez|Ez].
  2:{ injection H as <- _. contradiction. }
  assert (Hz : i = 0 /\ err dx = 0 /\ dz = set_err 0 dx).
  { subst dz dy. destruct (Z.eqb_spec i 0) as [->|Ei]; cbn [negb] in *.
    - destruct (Z.eqb_spec (err dx) 0) as [E|E]; [tauto|contradiction].
    - data_simpl. destruct (Z.eqb_spec (err dx) 0) as [E|E];
        data_simpl; contradiction. }
  destruct Hz as [-> [Ex ->]]. clear dy Ez.
  eapply curl_run_complete in Er; try eassumption.
  destruct Er as [<- [_ [Hox [Hsha Hcnt]]]].
  exists events, msg. split; [reflexivity|]. split; [exact Ed|].
  unfold bind at 1 in H.
  destruct (url_write_cb [] (set_flush true (set_err 0 dx)) sx)
    as [[[n d1] s1]|] eqn:Ew; [|discriminate].
  injection H as <- _.
  assert (Hb : 0 <= buf_len dx <= buf_max dx) by apply Hix.
  pose proof Ew as Ht. apply url_write_cb_touches in Ht.
  pose proof Ew as Hfl. apply url_write_cb_flushed in Hfl;
    [|data_simpl; exact Hb|reflexivity].
  apply url_write_cb_step in Ew; [|data_simpl; exact Hb].
  data_simpl. destruct Ew as [_ [Hsame [Hnew Hcount]]].
  destruct Hfl as [Hl0 Hm0].
  split; [rewrite Ht; data_simpl; rewrite app_nil_r; exact Hsha|].
  split; [|split; assumption].
  assert (Hopen : file_opened d1 = true -> f d1 = true).
  { intros Hop1. destruct (file_opened dx) eqn:Eop.
    - destruct (Hsame eq_refl) as [_ ->]. now apply Hox.
    - now apply Hnew. }
  specialize (Hcount Hopen). rewrite Hl0 in Hcount.
  cbn [length Z.of_nat] in Hcount. rewrite !Z.add_0_r in Hcount.
  rewrite Hcount. exact Hcnt.
Qed.

(** X9. A transfer that succeeds has counted and digested what it
    received.  When [url_read] ends without error (and [popen] did not
    fail, which [url_write_cb] would not notice), curl ended with the
    code 0, the digest [sha1] is that of all bytes curl handed to the
    write callback, in order, and [p_now] counts those bytes (and what
    was counted or buffered before), in [unsigned] arithmetic; nothing
    is left in the sniff buffer. *)
Theorem url_read_complete (d d' : url_data_t) (s s' : state W) :
  (forall fd tmp w, fst (sys_popen_gzip fd tmp w) = true) ->
  url_read d s = Some (d', s') ->
  sniff_inv d -> file_opened d = false -> err d' = 0 ->
  exists proxy_url d1 s1 events msg,
    url_read_setup d s = Some ((proxy_url, d1), s1)
    /\ curl_easy_perform (url_str_of d) proxy_url (world s1)
       = (events, 0, msg)
    /\ sha1 d' = Some (sha1_hex (curl_bytes events))
    /\ to_uint32 (p_now d')
       = to_uint32 (p_now d + buf_len d
                    + Z.of_nat (length (curl_bytes events)))
    /\ buf_len d' = 0.
Proof.
  intros Hpop H Hi Hclosed E0. unfold url_read in H.
  unfold bind at 1 in H.
  destruct (url_read_setup d s) as [[[proxy_url d1] s1]|] eqn:E1;
    [|discriminate].
  exists proxy_url, d1, s1.
  pose proof E1 as Hi1. apply url_read_setup_same_sniff in Hi1.
  eapply sniff_inv_same in Hi1; [|exact Hi].
  apply url_read_setup_touches in E1.
  assert (H1 : url_str_of d1 = url_str_of d /\ sha1_ctx d1 = []
               /\ p_now d1 = p_now d /\ buf_len d1 = buf_len d
               /\ file_opened d1 = false)
    by (rewrite E1; unfold url_str_of; data_simpl; tauto).
  destruct H1 as [Hu1 [Hc1 [Hp1 [Hl1 Hop1]]]]. clear E1.
  unfold bind at 1 in H.
  destruct (url_read_perform proxy_url d1 s1) as [[d2 s2]|] eqn:E2;
    [|discriminate].
  assert (Hi2 : sniff_inv d2)
    by (eapply url_read_perform_inv; [exact Hi1|exact E2]).
  unfold bind at 1 in H.
  destruct (url_read_close d2 s2) as [[d3 s3]|] eqn:E3; [|discriminate].
  apply url_read_finish_facts in H.
  destruct H as [n [d4 [s4 [E4 [He4 [Hp4 [Hl4 [Hs4 _]]]]]]]].
  rewrite He4 in E0. rewrite E0 in Hs4. cbn [Z.eqb] in Hs4.
  pose proof E3 as Hi3. apply url_read_close_same_sniff in Hi3.
  eapply sniff_inv_same in Hi3; [|exact Hi2].
  assert (H3 : (err d3 = 0 -> err d2 = 0) /\ sha1_ctx d3 = sha1_ctx d2
               /\ p_now d3 = p_now d2 /\ buf_len d3 = buf_len d2).
  { apply url_read_close_touches in E3.
    destruct E3 as [[E3 He]|[-> _]]; [|tauto].
    rewrite E3. data_simpl. tauto. }
  destruct H3 as [He3 [Hc3 [Hp3 Hl3]]]. clear E3.
  assert (E20 : err d3 = 0 -> exists events msg,
             curl_easy_perform (url_str_of d) proxy_url (world s1)
             = (events, 0, msg)
             /\ sha1_ctx d2 = curl_bytes events
             /\ to_uint32 (p_now d2)
                = to_uint32 (p_now d + buf_len d
                             + Z.of_nat (length (curl_bytes events)))
             /\ buf_len d2 = 0).
  { intros E. eapply url_read_perform_facts in E2; try eassumption.
    - destruct E2 as [events [msg [Hc [_ [Hsha [Hcnt [Hl2 _]]]]]]].
      exists events, msg. rewrite <- Hu1, <- Hp1, <- Hl1.
      rewrite Hc1 in Hsha. cbn [app] in Hsha. tauto.
    - intros Hop. congruence.
    - now apply He3. }
  clear E2.
  assert (Ed3 : err d3 = 0).
  { pose proof E4 as Hst. apply url_write_cb_step in Hst;
      [|data_simpl; apply Hi3].
    data_simpl. now apply Hst. }
  destruct (E20 Ed3) as [events [msg [Hcurl [Hsha [Hcnt Hl2]]]]].
  apply url_write_cb_idle in E4; [|data_simpl; congruence].
  data_simpl. destruct E4 as [Hp [Hl [Hc [_ He]]]].
  exists events, msg. split; [reflexivity|]. split; [exact Hcurl|].
  split; [rewrite Hs4; congruence|].
  split; [|congruence]. rewrite Hp4, Hp, Hp3. exact Hcnt.
Qed.

End ReadTheorems.

Section ReadErrors.

Context {G : Globals} {W : Type} {OS : Sys W}.

Lemma url_read_perform_keeps (proxy_url : option string) (d d' : url_data_t)
    (s s' : state W) :
  url_read_perform proxy_url d s = Some (d', s') ->
  sha1 d' = sha1 d /\ (err d = 0 \/ d' = d).
Proof.
  unfold url_read_perform. intros H.
  unfold bind at 1 in H.
  destruct (Z.eqb_spec (err d) 0) as [Ed|Ed].
  2:{ unfold ret in H. destruct (Z.eqb_spec (err d) 0) as [|_];
        [contradiction|].
      injection H as <- _. tauto. }
  split; [|now left].
  unfold bind at 1 in H. unfold sys_read at 1 in H.
  destruct (curl_easy_perform (url_str_of d) proxy_url (world s))
    as [[events code] msg].
  unfold bind at 1 in H.
  destruct (curl_run events code d s) as [[[i dx] sx]|] eqn:Er; [|discriminate].
  unfold ret in H. apply curl_run_keeps in Er.
  destruct Er as [_ [_ [_ [_ [_ [_ [_ [_ Hs]]]]]]]].
  match type of H with
  | (if err ?x =? 0 then _ else _) _ = _ => set (dz := x) in *
  end.
  assert (Hz : sha1 dz = sha1 dx) by (subst dz; g_cases; reflexivity).
  clearbody dz.
  destruct (err dz =? 0).
  - unfold bind at 1 in H.
    destruct (url_write_cb [] (set_flush true dz) sx)
      as [[[n d1] s1]|] eqn:Ew; [|discriminate].
    injection H as <- _. apply url_write_cb_touches in Ew.
    rewrite Ew. data_simpl. congruence.
  - injection H as <- _. congruence.
Qed.


Lemma url_print_some (c : config_t) (u : url_t) (format : Z) :
  exists buf, url_print c (Some u) format = Some buf.
Proof.
  unfold url_print. cbv zeta.
  repeat match goal with
         | |- context [let (_, _) := ?x in _] => destruct x
         end.
  eauto.
Qed.

Lemma snprintf_nonempty (len : Z) (a : ascii) (s : string) :
  2 <= len -> str_nonempty (snprintf len (String a s)) = true.
Proof.
  intros H. unfold snprintf.
  destruct (Z.to_nat (len - 1)) as [|k] eqn:E; [lia|]. reflexivity.
Qed.

(** X11. A proxy whose address does not check ends the transfer before it
    starts: [url_read] gives error 105 with the message "invalid proxy
    address: <name>", nothing is counted or digested, and no digest is
    reported. *)
Theorem url_read_invalid_proxy (d d' : url_data_t) (s s' : state W)
    (p : url_t) (name : option string) (w1 w2 : W) (bad : Z) :
  proxy (config s) = Some p ->
  name2inet (server p) (world s) = (name, w1) ->
  net_check_address2 name w1 = (bad, w2) -> bad <> 0 ->
  f d = false -> buf_len d <> buf_max d -> 2 <= err_buf_len d ->
  url_read d s = Some (d', s') ->
  err d' = 105
  /\ err_buf d'
     = snprintf (err_buf_len d) ("invalid proxy address: " ++ print_s name)
  /\ p_now d' = p_now d /\ sha1_ctx d' = [] /\ sha1 d' = sha1 d.
Proof.
  intros Hproxy Hname Hcheck Hbad Hf Hbuf Hlen H. unfold url_read in H.
  unfold bind at 1 in H.
  destruct (url_read_setup d s) as [[[proxy_url d1] s1]|] eqn:E1;
    [|discriminate].
  assert (H1 : d1 = set_err 105
                      (set_err_buf
                         (snprintf (err_buf_len d)
                            ("invalid proxy address: " ++ print_s name))
                         (set_err (err d1) (set_sha1_ctx [] d)))).
  { revert E1. unfold url_read_setup. cbv zeta.
    unfold bind at 1. unfold sys_read at 1.
    unfold bind at 1. unfold get_config at 1.
    rewrite Hproxy.
    destruct (url_print_some (config s) p 1) as [buf ->].
    unfold bind at 1. unfold bind at 1. unfold sys at 1. rewrite Hname.
    unfold bind at 1. unfold set_config at 1.
    unfold bind at 1. unfold sys at 1. cbn [world]. rewrite Hcheck.
    destruct (Z.eqb_spec bad 0) as [|_]; [contradiction|]. cbn [negb].
    unfold ret at 1. data_simpl.
    destruct (progress d).
    - unfold bind at 1. unfold bind at 1.
      match goal with
      | |- context [call_progress ?x 0 ?st] =>
          destruct (call_progress x 0 st) as [[[r d2] s2]|] eqn:E2;
          [|discriminate]
      end.
      apply call_progress_touches in E2. destruct E2 as [_ [_ E2]].
      cbn [Z.eqb orb] in E2. subst d2.
      unfold ret. intros E. injection E as _ <- _.
      clear. touch_solve.
    - unfold bind at 1. unfold ret. intros E. injection E as _ <- _.
      clear. touch_solve. }
  clear E1.
  assert (F1 : err d1 = 105
               /\ err_buf d1 = snprintf (err_buf_len d)
                                 ("invalid proxy address: " ++ print_s name)
               /\ p_now d1 = p_now d /\ sha1_ctx d1 = []
               /\ sha1 d1 = sha1 d /\ f d1 = false
               /\ buf_len d1 = buf_len d /\ buf_max d1 = buf_max d)
    by (rewrite H1; data_simpl; tauto).
  clear H1. destruct F1 as [He1 [Hb1 [Hp1 [Hc1 [Hs1 [Hf1 [Hl1 Hm1]]]]]]].
  unfold bind at 1 in H.
  destruct (url_read_perform proxy_url d1 s1) as [[d2 s2]|] eqn:E2;
    [|discriminate].
  apply url_read_perform_keeps in E2.
  destruct E2 as [_ [E2 | ->]]; [congruence|].
  unfold bind at 1 in H.
  unfold url_read_close at 1 in H. rewrite Hf1 in H. unfold ret at 1 in H.
  apply url_read_finish_facts in H.
  destruct H as [n [d4 [s4 [E4 [He4 [Hp4 [_ [Hs4 [Hc4 Hb4]]]]]]]]].
  pose proof E4 as Ht. apply url_write_cb_touches in Ht.
  apply url_write_cb_stages in E4.
  destruct E4 as [dx [z1 [rest [d3 [s3 [Hfill [Hs [Hd _]]]]]]]].
  rewrite url_write_cb_digest_touches, app_nil_r in Hfill.
  unfold url_write_cb_fill in Hfill. cbv zeta in Hfill.
  cbn [length Z.of_nat Z.eqb negb] in Hfill. rewrite andb_false_r in Hfill.
  injection Hfill as <- <- _.
  unfold sniff_ready in Hs. data_simpl.
  destruct (Z.eqb_spec (buf_len d1) (buf_max d1)) as [E|_]; [congruence|].
  cbn [orb] in Hs. unfold ret in Hs. injection Hs as <- _.
  assert (F4 : err d4 = 105 /\ err_buf d4 = err_buf d1
               /\ p_now d4 = p_now d1 /\ sha1_ctx d4 = []
               /\ sha1 d4 = sha1 d1).
  { rewrite Hd. data_simpl. tauto. }
  destruct F4 as [He [Hb [Hp [Hc Hsh]]]].
  rewrite He in Hs4. cbn [Z.eqb] in Hs4.
  assert (Hne : str_nonempty
                  (snprintf (err_buf_len d)
                     ("invalid proxy address: " ++ print_s name)) = true).
  { change ("invalid proxy address: " ++ print_s name)
      with (String "i" ("nvalid proxy address: " ++ print_s name)).
    apply snprintf_nonempty. exact Hlen. }
  rewrite Hb, Hb1, Hne in Hb4.
  repeat split; congruence.
Qed.

End ReadErrors.


Section TransferReturns.

Context {G : Globals} {W : Type} {OS : Sys W}.

Lemma url_progress_cb_returns (dltotal dlnow : Z) (d : url_data_t)
    (s : state W) :
  exists r d' s', url_progress_cb dltotal dlnow d s = Some ((r, d'), s').
Proof.
  unfold url_progress_cb. cbv zeta.
  destruct (progress _); [apply call_progress_returns|].
  unfold ret. eauto.
Qed.







End TransferReturns.

Section TransferTheorems.

Context {G : Globals} {W : Type} {OS : Sys W}.

(** X6. The write callback always returns, and it takes a chunk whole or
    not at all: it answers the length of the chunk when no error is
    noted on return and 0 when one is.  The chunk goes to the digest in
    either case.  What the caller set up -- the url, the file name, the
    unzip and progress requests, the label, the flush flag, the total of
    curl, the digest text and the buffer of curl's message -- is left as
    it was. *)
Theorem url_write_cb_frame (buffer : list Byte.byte) (d : url_data_t)
    (s : state W) :
  exists n d' s',
    url_write_cb buffer d s = Some ((n, d'), s')
    /\ n = (if err d' =? 0 then Z.of_nat (length buffer) else 0)
    /\ sha1_ctx d' = (sha1_ctx d ++ buffer)%list
    /\ url d' = url d /\ file_name d' = file_name d
    /\ unzip d' = unzip d /\ progress d' = progress d
    /\ label d' = label d /\ flush d' = flush d
    /\ p_total d' = p_total d /\ sha1 d' = sha1 d
    /\ err_buf_len d' = err_buf_len d /\ curl_err_buf d' = curl_err_buf d.
Proof.
  destruct (url_write_cb_returns buffer d s) as [n [d' [s' H]]].
  exists n, d', s'. split; [exact H|].
  pose proof H as Hs. apply url_write_cb_stages in Hs.
  destruct Hs as [_ [_ [_ [_ [_ [_ [_ [_ Hn]]]]]]]].
  apply url_write_cb_touches in H.
  split; [rewrite Hn; now destruct (err d' =? 0)|].
  rewrite H. data_simpl. repeat split; reflexivity.
Qed.

(** X7. No byte is lost while no error is noted.  If a call of the write
    callback ends with no error noted, none was noted before, the chunk
    was taken whole, and the bytes written plus the bytes in the sniff
    buffer have grown by the length of the chunk (in [unsigned]
    arithmetic) -- provided the sniff buffer is within its bounds, a
    destination that was opened is open, and [popen] does not fail. *)
Theorem url_write_cb_counts (buffer : list Byte.byte) (d d' : url_data_t)
    (s s' : state W) (n : Z) :
  (forall fd tmp w, fst (sys_popen_gzip fd tmp w) = true) ->
  url_write_cb buffer d s = Some ((n, d'), s') ->
  0 <= buf_len d <= buf_max d -> opened_ok d -> err d' = 0 ->
  err d = 0 /\ n = Z.of_nat (length buffer) /\ opened_ok d'
  /\ to_uint32 (p_now d' + buf_len d')
     = to_uint32 (p_now d + buf_len d + Z.of_nat (length buffer)).
Proof.
  intros Hpop H Hb Ho E0.
  eapply url_write_cb_step in H; [|exact Hb].
  destruct H as [Ha [Hsame [Hnew Hcount]]].
  destruct (Ha E0) as [He Hn].
  assert (Ho1 : opened_ok d').
  { intros Hop1 _.
    destruct (file_opened d) eqn:Eop.
    - destruct (Hsame eq_refl) as [_ ->]. now apply Ho.
    - now apply Hnew. }
  split; [exact He|]. split; [exact Hn|]. split; [exact Ho1|].
  apply Hcount. intros Hop. now apply Ho1.
Qed.

(** X8. The progress callback of curl never stops a transfer and takes
    the total once: it always returns 0 (so the error 102, aborted, is
    never set), it sets [p_total] from [dltotal] only while [p_total] is
    0, and besides that changes nothing but what the progress indicator
    notes about its display, [percent] and [label_shown]; [dlnow] is not
    used. *)
Theorem url_progress_cb_first_total (dltotal dlnow : Z) (d : url_data_t)
    (s : state W) :
  exists d' s',
    url_progress_cb dltotal dlnow d s = Some ((0, d'), s')
    /\ p_total d' = (if p_total d =? 0 then to_uint32 dltotal else p_total d)
    /\ d' = set_percent (percent d')
              (set_label_shown (label_shown d') (set_p_total (p_total d') d)).
Proof.
  destruct (url_progress_cb_returns dltotal dlnow d s) as [r [d' [s' H]]].
  exists d', s'.
  pose proof H as Ht. apply url_progress_cb_touches in Ht.
  destruct Ht as [-> Ht]. split; [exact H|exact Ht].
Qed.


End TransferTheorems.

(** ** The mount orchestrator: mountpoints and the network *)

Ltac eta_url :=
  repeat match goal with x : url_t |- _ => destruct x end.

Section MountMore.

Context {G : Globals} {W : Type} {OS : Sys W}.

(** X12. [url_umount] tries both unmounts whatever the first one gives.  It
    forgets [mount] exactly when unmounting it succeeded
    ([util_umount] gave 0) and forgets [tmp_mount] exactly when
    unmounting it failed; no other field of the url changes. *)
Theorem url_umount_result (url : url_t) (s : state W) :
  let '(r1, w1) := util_umount (mount url) (world s) in
  let '(r2, w2) := util_umount (tmp_mount url) w1 in
  url_umount url s
  = Some (set_tmp_mount (if r2 =? 0 then tmp_mount url else None)
            (set_mount (if r1 =? 0 then None else mount url) url),
          {| config := config s; console := console s; world := w2 |}).
Proof.
  unfold url_umount. m_unfold.
  destruct (util_umount (mount url) (world s)) as [r1 w1] eqn:E1.
  cbn [world config console].
  assert (Ht : tmp_mount (if r1 =? 0 then set_mount None url else url)
               = tmp_mount url) by (destruct (r1 =? 0); reflexivity).
  rewrite Ht.
  destruct (util_umount (tmp_mount url) w1) as [r2 w2] eqn:E2.
  cbn [world config console].
  destruct (r1 =? 0), (r2 =? 0); cbn [negb]; url_simpl;
    destruct url; reflexivity.
Qed.

Lemma url_setup_device_server_keeps (url url' : url_t) (s s' : state W)
    (ok : Z) :
  url_setup_device_server url s = Some ((ok, url'), s') ->
  is_mountable url' = is_mountable url /\ is_network url' = is_network url
  /\ mount url' = mount url /\ tmp_mount url' = tmp_mount url
  /\ download url' = download url
  /\ ((scheme url =? inst_slp) = false ->
      url' = set_used_server (used_server url') url).
Proof.
  unfold url_setup_device_server. m_unfold. intros H.
  destruct (scheme url =? inst_slp); m_cases; url_simpl;
    repeat split; try reflexivity; try discriminate;
    intros _; destruct url; reflexivity.
Qed.

Lemma url_setup_device_keeps (url url' : url_t) (s s' : state W) (ok : Z) :
  url_setup_device url s = Some ((ok, url'), s') ->
  is_mountable url' = is_mountable url /\ is_network url' = is_network url
  /\ mount url' = mount url /\ tmp_mount url' = tmp_mount url
  /\ download url' = download url
  /\ ((scheme url =? inst_slp) = false ->
      url' = set_used_server (used_server url') url).
Proof.
  unfold url_setup_device. intros H.
  assert (Hsame : forall u, u = url ->
            is_mountable u = is_mountable url
            /\ is_network u = is_network url
            /\ mount u = mount url /\ tmp_mount u = tmp_mount url
            /\ download u = download url
            /\ ((scheme url =? inst_slp) = false ->
                u = set_used_server (used_server u) url)).
  { intros u ->. repeat split. intros _. now destruct url. }
  destruct (scheme url =? inst_file).
  { unfold ret in H. injection H as _ <- _. now apply Hsame. }
  destruct (used_device url) as [dev|].
  2:{ unfold ret in H. injection H as _ <- _. now apply Hsame. }
  destruct (negb (is_network url)).
  { m_unfold. m_cases; now apply Hsame. }
  unfold bind at 1 in H. unfold get_config at 1 in H.
  match type of H with
  | (if ?b then _ else _) _ = _ => destruct b
  end.
  { unfold ret in H. injection H as _ <- _. now apply Hsame. }
  match type of H with
  | (if ?b then _ else _) _ = _ => destruct b
  end.
  { unfold ret in H. injection H as _ <- _. now apply Hsame. }
  repeat (unfold bind at 1 in H;
          match type of H with
          | match ?m ?st with _ => _ end = _ =>
              let E := fresh "E" in
              destruct (m st) as [[? ?]|] eqn:E; [|discriminate]
          end;
          try match type of H with
              | (if ?b then _ else _) _ = _ => destruct b
              end;
          try (unfold ret in H; injection H as _ <- _; now apply Hsame)).
  all: try (eapply url_setup_device_server_keeps; exact H).
Qed.

Lemma dir_or_new_mountpoint_spec (dir mp : option string) (s s' : state W) :
  dir_or_new_mountpoint dir s = Some (mp, s') ->
  exists m, mp = Some m /\ forall d, dir = Some d -> m = d.
Proof.
  unfold dir_or_new_mountpoint. m_unfold. intros H.
  destruct dir as [d|]; m_cases; eexists; split; try reflexivity;
    intros d' Hd'; congruence.
Qed.

Lemma url_mount_disk_local_goes_on (url url' : url_t) (s s' : state W)
    (err : Z) (p : option string) :
  url_mount_disk_local url s = Some (Goes_on err p url', s') ->
  err = 0 /\ mount url' = mount url /\ is_mountable url' = is_mountable url.
Proof.
  unfold url_mount_disk_local. m_unfold. intros H.
  m_cases; try discriminate; url_simpl;
    repeat match goal with
           | H : Goes_on _ _ _ = Goes_on _ _ _ |- _ =>
               injection H as <- <- <-
           end; url_simpl; repeat split; reflexivity.
Qed.

Lemma url_mount_disk_network_mounts (url url' : url_t) (dir : option string)
    (s s' : state W) (err : Z) (p : option string) :
  url_mount_disk_network url dir s = Some (Goes_on err p url', s') ->
  mount url = None ->
  is_mountable url' = is_mountable url
  /\ (mount url' = None
      \/ exists m, mount url' = Some m /\ forall d, dir = Some d -> m = d)
  /\ ((scheme url =? inst_nfs) = false -> (scheme url =? inst_smb) = false ->
      url' = url
      /\ (err = 0 -> (scheme url =? inst_http) || (scheme url =? inst_ftp)
                     = true)).
Proof.
  unfold url_mount_disk_network, url_mount_disk_nfs, url_mount_disk_smb.
  intros H Hm.
  destruct (scheme url =? inst_nfs).
  { unfold bind at 1 in H.
    destruct (dir_or_new_mountpoint dir s) as [[mp s1]|] eqn:Ed;
      [|discriminate].
    apply dir_or_new_mountpoint_spec in Ed. destruct Ed as [m [-> Hd]].
    split; [|split; [|discriminate]];
      revert H; m_unfold; intros H; m_cases; try discriminate;
      repeat match goal with
             | H : Goes_on _ _ _ = Goes_on _ _ _ |- _ =>
                 injection H as <- <- <-
             end; url_simpl; try reflexivity; eauto. }
  destruct (scheme url =? inst_smb).
  { destruct (path url) as [pth|]; [|discriminate].
    destruct (negb (streq pth "/")).
    - split; [|split; [|discriminate]];
        revert H; m_unfold; intros H; m_cases; try discriminate;
        repeat match goal with
               | H : Goes_on _ _ _ = Goes_on _ _ _ |- _ =>
                   injection H as <- <- <-
               end; url_simpl; try reflexivity; eauto.
    - unfold bind at 1 in H. unfold bind at 1 in H.
      destruct (dir_or_new_mountpoint dir s) as [[mp s1]|] eqn:Ed;
        [|discriminate].
      apply dir_or_new_mountpoint_spec in Ed. destruct Ed as [m [-> Hd]].
      split; [|split; [|discriminate]];
        revert H; m_unfold; intros H; m_cases; try discriminate;
        repeat match goal with
               | H : Goes_on _ _ _ = Goes_on _ _ _ |- _ =>
                   injection H as <- <- <-
               end; url_simpl; try reflexivity; eauto. }
  destruct ((scheme url =? inst_http) || (scheme url =? inst_ftp));
    unfold ret in H; injection H as <- <- <- <-;
    (split; [reflexivity|split; [now left|]]); intros _ _;
    (split; [reflexivity|]); intros; try reflexivity; discriminate.
Qed.

Lemma url_mount_disk_mount_mounts (url url' : url_t) (dir p : option string)
    (s s' : state W) (ok : Z) :
  url_mount_disk_mount url dir p s = Some ((ok, url'), s') ->
  (mount url = None
   \/ exists m, mount url = Some m /\ forall d, dir = Some d -> m = d) ->
  if is_mountable url
  then ok <> 0 ->
       exists m, mount url' = Some m /\ forall d, dir = Some d -> m = d
  else ok = 1 /\ url' = url.
Proof.
  unfold url_mount_disk_mount. intros H Hm.
  destruct (is_mountable url).
  2:{ unfold ret in H. injection H as <- <- _. now split. }
  unfold bind at 1 in H. unfold sys at 1 in H.
  destruct (util_check_exist p (world s)) as [file_type w1].
  destruct (negb (file_type =? 0)).
  2:{ unfold ret in H. injection H as <- _ _. intros E. now contradiction E. }
  unfold bind at 1 in H.
  match type of H with
  | match ?m ?st with _ => _ end = _ =>
      destruct (m st) as [[copy s2]|]; [|discriminate]
  end.
  set (url1 := if file_type =? chr_r then set_is_file true url else url) in *.
  assert (Hm1 : mount url1 = mount url)
    by (subst url1; destruct (file_type =? chr_r); reflexivity).
  clearbody url1. rewrite <- Hm1 in Hm. clear Hm1.
  destruct copy.
  - unfold bind at 1 in H.
    destruct (dir_or_new_mountpoint dir s2) as [[mp s3]|] eqn:Ed;
      [|discriminate].
    apply dir_or_new_mountpoint_spec in Ed. destruct Ed as [m [-> Hd]].
    destruct (url_set (Some "file:/")) as [tmp_url|]; [|discriminate].
    revert H. m_unfold. intros H.
    m_cases; url_simpl; intros _; eauto.
  - destruct (mount url1) as [m0|] eqn:Em.
    + unfold ret in H. injection H as <- <- _. intros _.
      destruct Hm as [Hm|[m [Hm Hd]]]; [discriminate|].
      exists m0. split; [exact Em|].
      intros d Hdir. specialize (Hd d Hdir). congruence.
    + unfold bind at 1 in H.
      destruct (dir_or_new_mountpoint dir s2) as [[mp s3]|] eqn:Ed;
        [|discriminate].
      apply dir_or_new_mountpoint_spec in Ed. destruct Ed as [m [-> Hd]].
      revert H. m_unfold. intros H.
      m_cases; url_simpl; intros _; eauto.
Qed.

(** X15. What a successful [url_mount_disk] leaves in [url->mount], without
    a test function: for a mountable url the mountpoint is set, and it is
    [dir] when a [dir] was given. *)
Theorem url_mount_disk_mountpoint (url url' : url_t) (dir : option string)
    (s s' : state W) (ok : Z) :
  url_mount_disk url dir None s = Some ((ok, url'), s') ->
  ok <> 0 -> is_mountable url = true ->
  exists m, mount url' = Some m /\ forall d, dir = Some d -> m = d.
Proof.
  unfold url_mount_disk.
  destruct ((scheme url =? 0) || negb (is_some (path url))
            || (negb (is_some (used_device url))
                && negb (scheme url =? inst_file))).
  { unfold ret. intros H Hok. injection H as <- _ _. now contradiction Hok. }
  intros H Hok Hmnt.
  unfold bind at 1 in H.
  destruct (url_umount url s) as [[url1 s1]|] eqn:E1; [|discriminate].
  assert (Hf1 : is_mountable url1 = is_mountable url).
  { revert E1. unfold url_umount. m_unfold. intros E1.
    m_cases; url_simpl; reflexivity. }
  clear E1.
  unfold bind at 1 in H.
  match type of H with
  | match url_setup_device ?u s1 with _ => _ end = _ =>
      destruct (url_setup_device u s1) as [[[ok2 url2] s2]|] eqn:E2;
      [|discriminate]
  end.
  apply url_setup_device_keeps in E2. url_simpl.
  destruct E2 as [Hf2 [_ [Hm2 _]]].
  rewrite Hf1, Hmnt in Hf2. clear Hf1.
  destruct (ok2 =? 0).
  { unfold ret in H. injection H as <- _ _. now contradiction Hok. }
  unfold bind at 1 in H.
  match type of H with
  | match ?m s2 with _ => _ end = _ =>
      destruct (m s2) as [[r s3]|] eqn:E3; [|discriminate]
  end.
  assert (Hstep : match r with
                  | Return ok3 _ => ok3 = 0
                  | Goes_on _ _ url3 =>
                      is_mountable url3 = true
                      /\ (mount url3 = None
                          \/ exists m, mount url3 = Some m
                                       /\ forall d, dir = Some d -> m = d)
                  end).
  { destruct (negb (is_network url2)), r as [ok3 url3|err p3 url3].
    - now apply url_mount_disk_local_return in E3.
    - apply url_mount_disk_local_goes_on in E3.
      destruct E3 as [_ [Hm3 Hf3]].
      split; [congruence|left; congruence].
    - exfalso. eapply url_mount_disk_network_goes_on. exact E3.
    - apply url_mount_disk_network_mounts in E3; [|exact Hm2].
      destruct E3 as [Hf3 [Hm3 _]]. split; [congruence|exact Hm3]. }
  clear E3. destruct r as [ok3 url3|err p3 url3].
  { unfold ret in H. injection H as <- _ _. now contradiction Hok. }
  destruct Hstep as [Hf3 Hm3].
  unfold bind at 1 in H.
  match type of H with
  | match ?m s3 with _ => _ end = _ =>
      destruct (m s3) as [[[ok4 url4] s4]|] eqn:E4; [|discriminate]
  end.
  unfold bind at 1 in H. unfold ret at 1 in H.
  unfold url_mount_disk_finish in H.
  destruct (Z.eqb_spec ok4 0) as [E0|E0].
  { revert H. m_unfold. intros H. m_cases; lia. }
  unfold ret in H. injection H as <- <- _.
  destruct (err =? 0).
  - apply url_mount_disk_mount_mounts in E4; [|exact Hm3].
    rewrite Hf3 in E4. now apply E4.
  - unfold ret in E4. injection E4 as <- _ _. now contradiction E0.
Qed.

Lemma url_umount_touches (url url' : url_t) (s s' : state W) :
  url_umount url s = Some (url', s') ->
  url' = set_tmp_mount (tmp_mount url') (set_mount (mount url') url).
Proof.
  unfold url_umount. m_unfold. intros H. m_cases; g_cases; url_simpl;
    destruct url; reflexivity.
Qed.

(** X16. For a network url that is not mountable and is not nfs, smb or
    slp, [url_mount_disk] only sets up the network.  It succeeds only for
    http and ftp, with 1, and then nothing is mounted: [mount] and
    [tmp_mount] are empty.  Any other such scheme, tftp for one, is
    refused. *)
Theorem url_mount_disk_plain_network (url url' : url_t)
    (dir : option string) (s s' : state W) (ok : Z) :
  url_mount_disk url dir None s = Some ((ok, url'), s') ->
  is_network url = true -> is_mountable url = false ->
  (scheme url =? inst_nfs) = false -> (scheme url =? inst_smb) = false ->
  (scheme url =? inst_slp) = false ->
  ok = 0
  \/ ok = 1
     /\ (scheme url =? inst_http) || (scheme url =? inst_ftp) = true
     /\ mount url' = None /\ tmp_mount url' = None.
Proof.
  intros H Hnet Hmnt Hnfs Hsmb Hslp.
  destruct (Z.eqb_spec ok 0) as [->|Hok]; [now left|right].
  unfold url_mount_disk in H.
  destruct ((scheme url =? 0) || negb (is_some (path url))
            || (negb (is_some (used_device url))
                && negb (scheme url =? inst_file))).
  { unfold ret in H. injection H as <- _ _. now contradiction Hok. }
  unfold bind at 1 in H.
  destruct (url_umount url s) as [[url1 s1]|] eqn:E1; [|discriminate].
  apply url_umount_touches in E1.
  unfold bind at 1 in H.
  match type of H with
  | match url_setup_device ?u s1 with _ => _ end = _ =>
      destruct (url_setup_device u s1) as [[[ok2 url2] s2]|] eqn:E2;
      [|discriminate]
  end.
  apply url_setup_device_keeps in E2. url_simpl.
  destruct E2 as [_ [_ [_ [_ [_ E2]]]]].
  assert (Hs1 : scheme url1 = scheme url) by (rewrite E1; reflexivity).
  rewrite Hs1 in E2. specialize (E2 Hslp).
  assert (F2 : scheme url2 = scheme url /\ is_network url2 = true
               /\ is_mountable url2 = false /\ mount url2 = None
               /\ tmp_mount url2 = None).
  { rewrite E2. url_simpl. rewrite E1. url_simpl. tauto. }
  clear E1 E2 Hs1. destruct F2 as [Hs2 [Hn2 [Hf2 [Hm2 Ht2]]]].
  destruct (ok2 =? 0).
  { unfold ret in H. injection H as <- _ _. now contradiction Hok. }
  unfold bind at 1 in H. rewrite Hn2 in H. cbn [negb] in H.
  destruct (url_mount_disk_network url2 dir s2) as [[r s3]|] eqn:E3;
    [|discriminate].
  destruct r as [ok3 url3|err p3 url3].
  { exfalso. eapply url_mount_disk_network_goes_on. exact E3. }
  apply url_mount_disk_network_mounts in E3; [|exact Hm2].
  destruct E3 as [_ [_ E3]]. rewrite Hs2 in E3.
  destruct (E3 Hnfs Hsmb) as [-> Hplain]. clear E3.
  unfold bind at 1 in H.
  match type of H with
  | match ?m s3 with _ => _ end = _ =>
      destruct (m s3) as [[[ok4 url4] s4]|] eqn:E4; [|discriminate]
  end.
  unfold bind at 1 in H. unfold ret at 1 in H.
  unfold url_mount_disk_finish in H.
  destruct (Z.eqb_spec ok4 0) as [E0|E0].
  { revert H. m_unfold. intros H. m_cases; lia. }
  unfold ret in H. injection H as <- <- _.
  destruct (Z.eqb_spec err 0) as [->|Ee].
  - apply url_mount_disk_mount_mounts in E4; [|now left].
    rewrite Hf2 in E4. destruct E4 as [-> ->].
    split; [reflexivity|]. split; [now apply Hplain|]. now split.
  - unfold ret in E4. injection E4 as <- _ _. now contradiction E0.
Qed.

End MountMore.

Section SetupMore.

Context {G : Globals} {W : Type} {OS : Sys W}.

(** X13. A loopback or sit interface is never set up.  For a network url
    whose device name begins with "lo" or "sit", [url_setup_device]
    touches neither the network nor [config]: it answers 1 if [config]
    has the network configured for that very device, and 0 otherwise. *)
Theorem url_setup_device_loopback (url : url_t) (dev : string)
    (s : state W) :
  (scheme url =? inst_file) = false -> used_device url = Some dev ->
  is_network url = true ->
  is_prefix "lo" dev || is_prefix "sit" dev = true ->
  url_setup_device url s
  = Some ((if negb (net_configured (config s) =? 0)
              && match net_device (config s) with
                 | Some d => streq dev d
                 | None => false
                 end
           then 1 else 0, url), s).
Proof.
  intros Hf Hd Hn Hlo. unfold url_setup_device.
  rewrite Hf, Hd, Hn. cbn [negb].
  unfold bind at 1. unfold get_config at 1. rewrite Hlo.
  match goal with
  | |- context [if ?b then _ else _] => destruct b
  end; reflexivity.
Qed.

Lemma url_setup_device_dhcp_fails (url : url_t) (s s' : state W) :
  url_setup_device_dhcp url s = Some (false, s') ->
  net_configured (config s') = nc_none.
Proof.
  unfold url_setup_device_dhcp. m_unfold. intros H.
  m_cases; try discriminate; reflexivity.
Qed.

(** X14. A failed interface setup leaves the network marked as not
    configured.  When [url_setup_device] gives 0 for a network url with a
    device that is no loopback or sit interface (the url being neither
    wlan nor slp), [config.net.configured] is [nc_none] on return:
    whether the DHCP or BOOTP answer was incomplete, the activation
    failed or the server address did not check. *)
Theorem url_setup_device_failure (url url' : url_t) (dev : string)
    (s s' : state W) :
  url_setup_device url s = Some ((0, url'), s') ->
  (scheme url =? inst_file) = false -> used_device url = Some dev ->
  is_network url = true ->
  is_prefix "lo" dev || is_prefix "sit" dev = false ->
  is_wlan url = false -> (scheme url =? inst_slp) = false ->
  net_configured (config s') = nc_none.
Proof.
  intros H Hf Hd Hn Hlo Hw Hslp. unfold url_setup_device in H.
  rewrite Hf, Hd, Hn in H. cbn [negb] in H.
  unfold bind at 1 in H. unfold get_config at 1 in H. rewrite Hlo in H.
  match type of H with
  | (if ?b then _ else _) _ = _ => destruct b
  end.
  { unfold ret in H. discriminate H. }
  rewrite Hw in H.
  unfold bind at 1 in H. unfold sys_cfg_ at 1 in H.
  destruct (net_stop (config s) (world s)) as [c1 w1].
  unfold bind at 1 in H. unfold set_config at 1 in H.
  unfold bind at 1 in H. unfold set_config at 1 in H.
  unfold bind at 1 in H. unfold ret at 1 in H.
  cbn [Z.eqb negb] in H.
  unfold bind at 1 in H. unfold set_config at 1 in H.
  unfold bind at 1 in H.
  match type of H with
  | match url_setup_device_dhcp url ?st with _ => _ end = _ =>
      destruct (url_setup_device_dhcp url st) as [[answered s2]|] eqn:E2;
      [|discriminate]
  end.
  destruct answered; cbn [negb] in H.
  2:{ unfold ret in H. injection H as _ <-.
      eapply url_setup_device_dhcp_fails. exact E2. }
  clear E2. unfold bind at 1 in H. unfold sys_cfg at 1 in H.
  destruct (net_activate_ns (config s2) (world s2)) as [[r c3] w3].
  destruct (negb (r =? 0)).
  { revert H. m_unfold. intros H. injection H as _ <-. reflexivity. }
  unfold url_setup_device_server in H. rewrite Hslp in H.
  revert H. m_unfold. intros H. m_cases; try discriminate; reflexivity.
Qed.

End SetupMore.

(** ** The mount orchestrator: the search *)

Section SearchMore.

Context {G : Globals} {W : Type} {OS : Sys W}.

(** The log of the loop grows by at most one entry per device and ends
    with the first 1. *)
Lemma url_mount_loop_log_stops (hds : list hd_t) (url url' : url_t)
    (dir : option string) (test_func : option (url_t -> M W (Z * url_t)))
    (err found err' found' : Z) (log log' : list Z) (s s' : state W) :
  url_mount_loop_log hds url dir test_func err found log s
  = Some ((url', err', found', log'), s') ->
  exists l, log' = (log ++ l)%list
    /\ (length l <= length hds)%nat
    /\ forall l1 l2, l = (l1 ++ 1 :: l2)%list -> l2 = [].
Proof.
  revert url err found log s.
  induction hds as [|hd hds IH]; intros url err found log s;
    cbn [url_mount_loop_log].
  - unfold ret. intros H. injection H as _ _ _ <- _.
    exists []. rewrite app_nil_r. split; [reflexivity|].
    split; [reflexivity|]. intros [|? ?] ? E; discriminate E.
  - assert (Hskip : forall url1 err1 found1 s1,
              url_mount_loop_log hds url1 dir test_func err1 found1 log s1
              = Some (url', err', found', log', s') ->
              exists l, log' = (log ++ l)%list
                /\ (length l <= length (hd :: hds))%nat
                /\ forall l1 l2, l = (l1 ++ 1 :: l2)%list -> l2 = []).
    { intros url1 err1 found1 s1 H. apply IH in H.
      destruct H as [l [Hl [Hn Hs]]]. exists l. cbn [length].
      split; [exact Hl|]. split; [lia|exact Hs]. }
    destruct (url_mount_skips url hd); [apply Hskip|].
    destruct (url_mount_matched url hd =? 0); [apply Hskip|].
    clear Hskip. unfold bind at 1.
    destruct (url_mount_use url hd s) as [[url1 s1]|]; [|discriminate].
    unfold bind at 1.
    destruct (url_mount_disk url1 dir test_func s1) as [[[ok url2] s2]|];
      [|discriminate].
    assert (Hnext : forall url3 err3 found3 s3,
              ok <> 1 ->
              url_mount_loop_log hds url3 dir test_func err3 found3
                (log ++ [ok])%list s3
              = Some (url', err', found', log', s') ->
              exists l, log' = (log ++ l)%list
                /\ (length l <= length (hd :: hds))%nat
                /\ forall l1 l2, l = (l1 ++ 1 :: l2)%list -> l2 = []).
    { intros url3 err3 found3 s3 Hok H. apply IH in H.
      destruct H as [l [Hl [Hn Hs]]]. exists (ok :: l).
      rewrite <- app_assoc in Hl. cbn [app length] in *.
      split; [exact Hl|]. split; [lia|].
      intros [|x l1] l2 E; cbn [app] in E; injection E as E1 E2.
      - contradiction.
      - eapply Hs. exact E2. }
    destruct (Z.eqb_spec ok 0) as [E0|E0]; cbn [negb].
    + apply Hnext. lia.
    + destruct (Z.eqb_spec ok 1) as [E1|E1]; [|now apply Hnext].
      unfold ret. intros H. injection H as _ _ _ <- _.
      exists [ok]. cbn [length]. split; [reflexivity|]. split; [lia|].
      intros [|x [|y l1]] l2 E; cbn [app] in E; now injection E.
Qed.

(** X17. The search ends with the first device that is accepted with 1:
    in the order of the hardware list, [url_mount_disk] is called at
    most once per device, and no device is tried after one for which it
    returned 1 (a 2 means: accepted, go on).  [l] is what
    [url_mount_disk] returned, call by call. *)
Theorem url_mount_loop_stops (hds : list hd_t) (url url' : url_t)
    (dir : option string) (test_func : option (url_t -> M W (Z * url_t)))
    (err found err' found' : Z) (s s' : state W) :
  url_mount_loop hds url dir test_func err found s
  = Some ((url', err', found'), s') ->
  exists l,
    url_mount_loop_log hds url dir test_func err found [] s
    = Some ((url', err', found', l), s')
    /\ (length l <= length hds)%nat
    /\ forall l1 l2, l = (l1 ++ 1 :: l2)%list -> l2 = [].
Proof.
  intros H.
  rewrite (url_mount_loop_log_erase hds url dir test_func err found []) in H.
  destruct (url_mount_loop_log hds url dir test_func err found [] s)
    as [[[[[u e] f] l] s1]|] eqn:E; [|discriminate].
  injection H as <- <- <- <-. exists l. split; [reflexivity|].
  apply url_mount_loop_log_stops in E.
  destruct E as [l0 [Hl H]]. cbn [app] in Hl. subst l0. exact H.
Qed.

(** X18. One rejected device costs the url its device annotation.  When
    [url_mount] goes through the hardware list and [url_mount_disk]
    returned 0 for some device, the device hint is not tried and
    [url->used.device], [used.model], [used.hwaddr] and [used.unique_id]
    are all empty on return -- also when another device was accepted and
    [url_mount] returns 0, ok. *)
Theorem url_mount_rejection_clears_used (url url' url1 : url_t)
    (dir : option string) (test_func : option (url_t -> M W (Z * url_t)))
    (s s' s1 : state W) (c1 : config_t) (w1 w2 : W) (hds : list hd_t)
    (r err found : Z) (log : list Z) :
  scheme url <> 0 -> (scheme url =? inst_file) = false ->
  used_device url = None ->
  update_device_list (config s) (world s) = (c1, w1) ->
  hd_data c1 = true ->
  hd_list (url_mount_hw_item url) w1 = (hds, w2) ->
  url_mount url dir test_func s = Some ((r, url'), s') ->
  url_mount_loop_log hds url dir test_func 0 0 []
    {| config := c1; console := console s; world := w2 |}
  = Some ((url1, err, found, log), s1) ->
  existsb (fun ok => ok =? 0) log = true ->
  r = (if accepted log then 0 else 1)
  /\ url' = clear_used url1 /\ s' = s1
  /\ used_device url' = None /\ used_model url' = None
  /\ used_hwaddr url' = None /\ used_unique_id url' = None.
Proof.
  intros Hs Hfile Hused Hupd Hhd Hlist H Eloop Hrej. unfold url_mount in H.
  destruct (Z.eqb_spec (scheme url) 0) as [E|_]; [contradiction|].
  unfold bind at 1 in H. unfold sys_cfg_ at 1 in H. rewrite Hupd in H.
  unfold bind at 1 in H. unfold get_config at 1 in H. cbn [config] in H.
  rewrite Hhd, Hfile, Hused in H. cbn [negb orb is_some] in H.
  unfold bind at 1 in H. unfold sys at 1 in H. cbn [world] in H.
  rewrite Hlist in H.
  unfold bind at 1 in H. cbn [config console] in H.
  rewrite (url_mount_loop_log_erase hds url dir test_func 0 0 []) in H.
  rewrite Eloop in H.
  apply url_mount_loop_log_spec in Eloop.
  destruct Eloop as [l [Hl [Hacc [Hle [Herr _]]]]].
  cbn [app] in Hl. subst log. rewrite Hrej in Herr. subst err.
  cbn [Z.eqb andb negb] in H. unfold bind, ret in H.
  injection H as <- <- <-.
  split; [|repeat split].
  destruct (accepted l).
  - assert (0 < found) by now apply Hacc.
    destruct (Z.eqb_spec found 0); [lia|reflexivity].
  - destruct (Z.eqb_spec found 0) as [|Hn]; [reflexivity|].
    assert (Hf : 0 < found) by lia. apply Hacc in Hf. discriminate Hf.
Qed.

End SearchMore.

Ltac frame_solve :=
  eta_url; url_simpl;
  repeat match goal with
         | H : @eq url_t _ _ |- _ => injection H; clear H; intros
         end;
  subst; reflexivity.

Section MountFrame.

Context {G : Globals} {W : Type} {OS : Sys W}.

Lemma url_mounted_as_refl (u : url_t) : u = url_mounted_as u u.
Proof. now destruct u. Qed.

Lemma url_mounted_as_trans (u v w : url_t) :
  v = url_mounted_as v u -> w = url_mounted_as w v -> w = url_mounted_as w u.
Proof. unfold url_mounted_as. intros H1 H2. frame_solve. Qed.

Lemma url_mount_disk_local_frame (url : url_t) (s s' : state W) (r : step_t) :
  url_mount_disk_local url s = Some (r, s') ->
  match r with
  | Return _ u => u = url_mounted_as u url
  | Goes_on _ _ u => u = url_mounted_as u url
  end.
Proof.
  unfold url_mount_disk_local. m_unfold. intros H.
  m_cases; try discriminate; unfold url_mounted_as; url_simpl;
    eta_url; reflexivity.
Qed.

Lemma url_mount_disk_network_frame (url : url_t) (dir : option string)
    (s s' : state W) (r : step_t) :
  url_mount_disk_network url dir s = Some (r, s') ->
  match r with
  | Return _ u => u = url_mounted_as u url
  | Goes_on _ _ u => u = url_mounted_as u url
  end.
Proof.
  unfold url_mount_disk_network, url_mount_disk_nfs, url_mount_disk_smb,
    dir_or_new_mountpoint.
  m_unfold. intros H.
  m_cases; try discriminate; unfold url_mounted_as; url_simpl;
    eta_url; reflexivity.
Qed.

Lemma url_mount_disk_mount_frame (url url' : url_t) (dir p : option string)
    (s s' : state W) (ok : Z) :
  url_mount_disk_mount url dir p s = Some ((ok, url'), s') ->
  url' = url_mounted_as url' url.
Proof.
  unfold url_mount_disk_mount, dir_or_new_mountpoint.
  m_unfold. intros H.
  m_cases; try discriminate; unfold url_mounted_as; g_cases; url_simpl;
    eta_url; reflexivity.
Qed.

Lemma url_mount_disk_frame (url url' : url_t) (dir : option string)
    (test_func : option (url_t -> M W (Z * url_t))) (s s' : state W)
    (ok : Z) :
  keeps_url test_func -> (scheme url =? inst_slp) = false ->
  url_mount_disk url dir test_func s = Some ((ok, url'), s') ->
  url' = url_mounted_as url' url.
Proof.
  intros Hk Hslp. unfold url_mount_disk.
  destruct ((scheme url =? 0) || negb (is_some (path url))
            || (negb (is_some (used_device url))
                && negb (scheme url =? inst_file))).
  { unfold ret. intros H. injection H as _ <- _. apply url_mounted_as_refl. }
  intros H.
  unfold bind at 1 in H.
  destruct (url_umount url s) as [[url1 s1]|] eqn:E1; [|discriminate].
  apply url_umount_touches in E1.
  unfold bind at 1 in H.
  match type of H with
  | match url_setup_device ?u s1 with _ => _ end = _ =>
      destruct (url_setup_device u s1) as [[[ok2 url2] s2]|] eqn:E2;
      [|discriminate]
  end.
  apply url_setup_device_keeps in E2. url_simpl.
  destruct E2 as [_ [_ [_ [_ [_ E2]]]]].
  assert (Hs1 : scheme url1 = scheme url) by (rewrite E1; reflexivity).
  rewrite Hs1 in E2. specialize (E2 Hslp).
  assert (F2 : url2 = url_mounted_as url2 url).
  { clear - E1 E2. unfold url_mounted_as. frame_solve. }
  clear E1 E2 Hs1.
  destruct (ok2 =? 0).
  { unfold ret in H. injection H as _ <- _. exact F2. }
  unfold bind at 1 in H.
  match type of H with
  | match ?m s2 with _ => _ end = _ =>
      destruct (m s2) as [[r s3]|] eqn:E3; [|discriminate]
  end.
  assert (F3 : match r with
               | Return _ u => u = url_mounted_as u url2
               | Goes_on _ _ u => u = url_mounted_as u url2
               end).
  { destruct (negb (is_network url2)).
    - eapply url_mount_disk_local_frame. exact E3.
    - eapply url_mount_disk_network_frame. exact E3. }
  clear E3. destruct r as [ok3 url3|err p3 url3].
  { unfold ret in H. injection H as _ <- _.
    eapply url_mounted_as_trans; eassumption. }
  assert (F3' : url3 = url_mounted_as url3 url)
    by (eapply url_mounted_as_trans; eassumption).
  clear F2 F3.
  unfold bind at 1 in H.
  match type of H with
  | match ?m s3 with _ => _ end = _ =>
      destruct (m s3) as [[[ok4 url4] s4]|] eqn:E4; [|discriminate]
  end.
  assert (F4 : url4 = url_mounted_as url4 url).
  { destruct (err =? 0).
    - apply url_mount_disk_mount_frame in E4.
      eapply url_mounted_as_trans; eassumption.
    - unfold ret in E4. injection E4 as _ <- _. exact F3'. }
  clear E4 F3'.
  unfold bind at 1 in H.
  match type of H with
  | match ?m s4 with _ => _ end = _ =>
      destruct (m s4) as [[[ok5 url5] s5]|] eqn:E5; [|discriminate]
  end.
  assert (F5 : url5 = url_mounted_as url5 url).
  { destruct test_func as [test|].
    - destruct (negb (ok4 =? 0)).
      + apply Hk in E5. now subst url5.
      + unfold ret in E5. injection E5 as _ <- _. exact F4.
    - unfold ret in E5. injection E5 as _ <- _. exact F4. }
  clear E5 F4.
  revert H. unfold url_mount_disk_finish. m_unfold. intros H.
  m_cases; try exact F5.
  all: clear - F5; unfold url_mounted_as in *; frame_solve.
Qed.

Lemma url_mount_use_frame (url url' : url_t) (hd : hd_t) (s s' : state W) :
  url_mount_use url hd s = Some (url', s') ->
  url' = url_mounted_as url' url.
Proof.
  unfold url_mount_use. m_unfold. intros H.
  m_cases; unfold url_mounted_as; url_simpl; eta_url; reflexivity.
Qed.

Lemma url_mounted_as_scheme (u v : url_t) :
  v = url_mounted_as v u -> scheme v = scheme u.
Proof. intros ->. reflexivity. Qed.

Lemma url_mount_loop_frame (hds : list hd_t) (url url' : url_t)
    (dir : option string) (test_func : option (url_t -> M W (Z * url_t)))
    (err found err' found' : Z) (s s' : state W) :
  keeps_url test_func -> (scheme url =? inst_slp) = false ->
  url_mount_loop hds url dir test_func err found s
  = Some ((url', err', found'), s') ->
  url' = url_mounted_as url' url /\ (err = 0 \/ err = 1 -> err' = 0 \/ err' = 1).
Proof.
  intros Hk. revert url err found s.
  induction hds as [|hd hds IH]; intros url err found s Hslp;
    cbn [url_mount_loop].
  - unfold ret. intros H. injection H as <- <- _ _.
    split; [apply url_mounted_as_refl|tauto].
  - destruct (url_mount_skips url hd); [now apply IH|].
    destruct (url_mount_matched url hd =? 0); [now apply IH|].
    unfold bind at 1.
    destruct (url_mount_use url hd s) as [[url1 s1]|] eqn:E1; [|discriminate].
    apply url_mount_use_frame in E1.
    pose proof (url_mounted_as_scheme E1) as Hs1.
    unfold bind at 1.
    destruct (url_mount_disk url1 dir test_func s1) as [[[ok url2] s2]|]
      eqn:E2; [|discriminate].
    apply url_mount_disk_frame in E2; [|exact Hk|now rewrite Hs1].
    pose proof (url_mounted_as_scheme E2) as Hs2.
    assert (F2 : url2 = url_mounted_as url2 url)
      by (eapply url_mounted_as_trans; eassumption).
    clear E1 E2.
    set (url3 := if hd_is_hw_class hd hw_cdrom then set_is_cdrom true url2
                 else url2).
    assert (F3 : url3 = url_mounted_as url3 url).
    { subst url3. destruct (hd_is_hw_class hd hw_cdrom); [|exact F2].
      clear - F2. unfold url_mounted_as in *. frame_solve. }
    clearbody url3.
    destruct (negb (ok =? 0)).
    + destruct (ok =? 1).
      * unfold ret. intros H. injection H as <- <- _ _. tauto.
      * intros H. apply IH in H;
          [|rewrite (url_mounted_as_scheme F3); exact Hslp].
        destruct H as [H He]. split; [|exact He].
        eapply url_mounted_as_trans; [exact F3|exact H].
    + intros H. apply IH in H;
        [|rewrite (url_mounted_as_scheme F2); exact Hslp].
      destruct H as [H He]. split; [|intros _; apply He; now right].
      eapply url_mounted_as_trans; [exact F2|exact H].
Qed.

(** The fields of the url [url_mount] may change *)
Lemma url_mount_touches (url url' : url_t) (dir : option string)
    (test_func : option (url_t -> M W (Z * url_t))) (s s' : state W)
    (r : Z) :
  keeps_url test_func -> (scheme url =? inst_slp) = false ->
  url_mount url dir test_func s = Some ((r, url'), s') ->
  url' = url_mounted_as url' url /\ (r = 0 \/ r = 1).
Proof.
  intros Hk Hslp. unfold url_mount.
  destruct (scheme url =? 0).
  { unfold ret. intros H. injection H as <- <- _.
    split; [apply url_mounted_as_refl|now right]. }
  unfold bind at 1. unfold sys_cfg_ at 1.
  destruct (update_device_list (config s) (world s)) as [c1 w1].
  unfold bind at 1. unfold get_config at 1. cbn [config].
  destruct (negb (hd_data c1)).
  { unfold ret. intros H. injection H as <- <- _.
    split; [apply url_mounted_as_refl|now right]. }
  destruct ((scheme url =? inst_file) || is_some (used_device url)).
  { unfold bind at 1.
    match goal with
    | |- context [url_mount_disk url dir test_func ?st] =>
        destruct (url_mount_disk url dir test_func st)
          as [[[ok url1] s1]|] eqn:E1; [|discriminate]
    end.
    apply url_mount_disk_frame in E1; [|exact Hk|exact Hslp].
    unfold ret. intros H. injection H as <- <- _.
    split; [exact E1|]. destruct (negb (ok =? 0)); auto. }
  unfold bind at 1. unfold sys at 1. cbn [world].
  destruct (hd_list (url_mount_hw_item url) w1) as [hds w2].
  unfold bind at 1.
  match goal with
  | |- context [url_mount_loop hds url dir test_func 0 0 ?st] =>
      destruct (url_mount_loop hds url dir test_func 0 0 st)
        as [[[[url1 err] found] s1]|] eqn:E1; [|discriminate]
  end.
  apply url_mount_loop_frame in E1; [|exact Hk|exact Hslp].
  destruct E1 as [F1 He]. specialize (He (or_introl eq_refl)).
  unfold bind at 1.
  match goal with
  | |- match ?m s1 with _ => _ end = _ -> _ =>
      destruct (m s1) as [[[err2 url2] s2]|] eqn:E2; [|discriminate]
  end.
  assert (F2 : url2 = url_mounted_as url2 url /\ (err2 = 0 \/ err2 = 1)).
  { match type of E2 with
    | (if ?b then _ else _) _ = _ => destruct b
    end.
    - unfold bind at 1 in E2.
      match type of E2 with
      | match url_mount_disk ?u dir test_func s1 with _ => _ end = _ =>
          destruct (url_mount_disk u dir test_func s1)
            as [[[ok url3] s3]|] eqn:E3; [|discriminate];
          assert (F0 : u = url_mounted_as u url)
      end.
      { clear - F1. unfold url_mounted_as in *. frame_solve. }
      apply url_mount_disk_frame in E3;
        [|exact Hk|rewrite (url_mounted_as_scheme F0); exact Hslp].
      unfold ret in E2. injection E2 as <- <- _.
      split; [eapply url_mounted_as_trans; eassumption|].
      destruct (negb (ok =? 0)); auto.
    - unfold ret in E2. injection E2 as <- <- _. tauto. }
  clear E2. destruct F2 as [F2 He2].
  unfold ret. intros H. injection H as <- <- _.
  split.
  - destruct (negb (err2 =? 0)); [|exact F2].
    clear - F2. unfold url_mounted_as in *. frame_solve.
  - destruct (negb (found =? 0)); auto.
Qed.

(** X20. What [url_mount] may change.  For a url that is not slp, and with
    a test function that leaves the url alone, [url_mount] changes no
    field of the url other than [mount], [tmp_mount], the flags [is.file],
    [is.cdrom], [is.wlan] and the device annotation [used.*]: scheme,
    server, share, path, credentials, device hint, query and the other
    flags are what they were.  It returns 0 or 1. *)
Theorem url_mount_frame (url url' : url_t) (dir : option string)
    (test_func : option (url_t -> M W (Z * url_t))) (s s' : state W)
    (r : Z) :
  keeps_url test_func -> (scheme url =? inst_slp) = false ->
  url_mount url dir test_func s = Some ((r, url'), s') ->
  url' = url_mounted_as url' url /\ (r = 0 \/ r = 1).
Proof.
  intros Hk Hslp H.
  pose proof H as Ht. apply url_mount_touches in Ht; [|exact Hk|exact Hslp].
  destruct Ht as [Hu Hr].
  split; [exact Hu|exact Hr].
Qed.

End MountFrame.

(** ** Reading a file *)

Lemma str_skip_app (a b : string) : str_skip (String.length a) (a ++ b) = b.
Proof. induction a as [|c a IH]; [reflexivity|exact IH]. Qed.

Lemma str_skip_length (n : nat) (p : string) :
  (n <= String.length p)%nat ->
  exists pre, p = pre ++ str_skip n p /\ String.length pre = n.
Proof.
  revert p. induction n as [|n IH]; intros p Hn.
  - exists "". now split.
  - destruct p as [|c p]; cbn [String.length] in Hn; [lia|].
    destruct (IH p ltac:(lia)) as [pre [Hp Hl]].
    exists (String c pre). cbn [append str_skip String.length].
    split; [now f_equal|lia].
Qed.

Lemma length_append (a b : string) :
  String.length (a ++ b) = (String.length a + String.length b)%nat.
Proof. induction a as [|c a IH]; cbn; [reflexivity|now rewrite IH]. Qed.

(** X21. The digest check accepts a file exactly when the name in the
    [config.sha1] entry is the end of the url's path: the comparison of
    lines 1303-1305 holds if and only if the path is some text followed
    by the entry's value. *)
Theorem sha1_path_matches_suffix (path value : string) :
  sha1_path_matches path value = true <-> exists pre, path = pre ++ value.
Proof.
  unfold sha1_path_matches, streq. cbv zeta. split.
  - intros H. apply andb_true_iff in H. destruct H as [Hle Heq].
    apply Nat.leb_le in Hle. apply String.eqb_eq in Heq.
    destruct (@str_skip_length (String.length path - String.length value)
                path ltac:(lia)) as [pre [Hp _]].
    exists pre. now rewrite Heq in Hp.
  - intros [pre ->]. rewrite length_append.
    apply andb_true_iff. split; [apply Nat.leb_le; lia|].
    replace (String.length pre + String.length value
             - String.length value)%nat
      with (String.length pre) by lia.
    rewrite str_skip_app. apply String.eqb_refl.
Qed.

Section ReadFileFacts.

Context {G : Globals} {W : Type} {OS : Sys W} {FS : Sys_file W}.

(** X22. Creating the directories of [dst] can only fail in [mkdir]:
    [url_read_file_dirs] always returns, and what it returns is 0 or the
    non-zero answer of [mkdir] for a non-empty prefix of [dst] that ends
    before a '/'. *)
Theorem url_read_file_dirs_fails_in_mkdir (pre rest : string) (s : state W) :
  exists err s',
    url_read_file_dirs pre rest s = Some (err, s')
    /\ (err = 0
        \/ exists dir q w,
             fst (sys_mkdir dir w) = err /\ dir <> ""
             /\ pre ++ rest = dir ++ String "/" q).
Proof.
  revert pre s.
  induction rest as [|a rest IH]; intros pre s; cbn [url_read_file_dirs].
  - unfold ret. eauto.
  - assert (Hnext : forall b s1,
              (Ascii.eqb a "/" = true -> b = "/") ->
              (Ascii.eqb a "/" = false -> b = String a "") ->
              exists err s',
                url_read_file_dirs (pre ++ b) rest s1 = Some (err, s')
                /\ (err = 0
                    \/ exists dir q w,
                         fst (sys_mkdir dir w) = err /\ dir <> ""
                         /\ pre ++ String a rest = dir ++ String "/" q)).
    { intros b s1 Hb1 Hb2.
      destruct (IH (pre ++ b) s1) as [err [s' [E H]]].
      exists err, s'. split; [exact E|].
      destruct H as [H|[dir [q [w [Hm [Hd Hp]]]]]]; [now left|right].
      exists dir, q, w. split; [exact Hm|]. split; [exact Hd|].
      rewrite <- Hp.
      destruct (Ascii.eqb_spec a "/") as [->|Hne].
      - rewrite (Hb1 eq_refl). clear.
        induction pre as [|c pre IHp]; cbn; [reflexivity|now rewrite IHp].
      - rewrite (Hb2 eq_refl). clear.
        induction pre as [|c pre IHp]; cbn; [reflexivity|now rewrite IHp]. }
    destruct (Ascii.eqb a "/") eqn:Ea;
      [|apply Hnext; [intros E; discriminate E|reflexivity]].
    apply Ascii.eqb_eq in Ea. subst a.
    unfold bind at 1.
    destruct (str_nonempty pre) eqn:Ep.
    + unfold bind at 1. unfold sys at 1.
      destruct (util_check_exist (Some pre) (world s)) as [t w1].
      destruct (negb (t =? chr_d)).
      * unfold sys at 1. cbn [world].
        destruct (sys_mkdir pre w1) as [e w2] eqn:Em.
        destruct (Z.eqb_spec e 0) as [->|He]; cbn [negb].
        -- apply Hnext; [reflexivity|intros E; discriminate E].
        -- unfold ret. do 2 eexists. split; [reflexivity|]. right.
           exists pre, rest, w1. rewrite Em. split; [reflexivity|].
           split; [|reflexivity]. intros ->. discriminate Ep.
      * unfold ret at 1. cbn [Z.eqb negb].
        apply Hnext; [reflexivity|intros E; discriminate E].
    + unfold ret at 1. cbn [Z.eqb negb].
      apply Hnext; [reflexivity|intros E; discriminate E].
Qed.


End ReadFileFacts.

Section ReadFileSrc.

Context {G : Globals} {W : Type} {OS : Sys W} {FS : Sys_file W}.

Lemma test_and_copy_keeps_url (src : option string) (dst : string)
    (label : option string) (flags : Z) :
  keeps_url (Some (test_and_copy src dst label flags)).
Proof.
  intros u s r u' s'. unfold test_and_copy.
  unfold bind at 1.
  match goal with
  | |- match ?m s with _ => _ end = _ -> _ =>
      destruct (m s) as [[[v|] s1]|]; [| |discriminate]
  end.
  2:{ unfold ret. intros H. now injection H as _ <- _. }
  destruct (path v); [|discriminate].
  destruct src; [|discriminate].
  unfold bind at 1. unfold get_config at 1.
  match goal with
  | |- match url_set ?x with _ => _ end _ = _ -> _ =>
      destruct (url_set x); [|discriminate]
  end.
  unfold bind at 1.
  match goal with
  | |- match url_read ?x s1 with _ => _ end = _ -> _ =>
      destruct (url_read x s1) as [[d' sr]|]; [|discriminate]
  end.
  destruct (negb (err d' =? 0)).
  - unfold ret. intros H. now injection H as _ <- _.
  - unfold bind at 1.
    destruct (test_and_copy_sha1 flags d' sr) as [[[] sq]|]; [|discriminate].
    unfold ret. intros H. now injection H as _ <- _.
Qed.

(** X24. Without [src], [url_read_file] takes the file name from the url
    and does not put it back.  For a url without a mountpoint (and not
    slp) the call either fails early with 1 and the url as it was (a
    directory of [dst] could not be made; an nfs path without '/'), or
    it leaves the url with a changed path, whether or not the file could
    be read: for nfs the path up to its last '/', for the other schemes
    "/" if the url is mountable and "" if it is not.  Beyond the path
    only what [url_mount] may change has changed. *)
Theorem url_read_file_takes_src_from_path (u : url_t) (url' : option url_t)
    (dir label : option string) (dst : string) (flags : Z)
    (s s' : state W) (err : Z) :
  mount u = None -> (scheme u =? inst_slp) = false ->
  url_read_file_fn (Some u) dir None (Some dst) label flags s
  = Some ((err, url'), s') ->
  err = 1 /\ url' = Some u
  \/ exists v new_path,
       url' = Some v
       /\ v = url_mounted_as v (set_path (Some new_path) u)
       /\ if scheme u =? inst_nfs
          then exists p file, path u = Some p
                 /\ strrchr_cut "/" p = Some (new_path, file)
          else new_path = (if is_mountable u then "/" else "").
Proof.
  intros Hm Hslp. unfold url_read_file_fn.
  unfold bind at 1. unfold sys_ at 1.
  unfold bind at 1.
  match goal with
  | |- match url_read_file_dirs "" dst ?st with _ => _ end = _ -> _ =>
      destruct (url_read_file_dirs "" dst st) as [[e s1]|]; [|discriminate]
  end.
  destruct (negb (e =? 0)).
  { unfold ret. intros H. injection H as <- <- _. now left. }
  rewrite Hm. cbn [is_some negb andb].
  assert (Htail : forall src1 new_path,
            (match mount (set_path (Some new_path) u) with
             | Some m =>
                 match url_set (Some ("file:" ++ m)) with
                 | None => fault
                 | Some file_url =>
                     bind (test_and_copy src1 dst label flags file_url)
                       (fun v => let '(ok, _) := v in
                                 ret (if negb (ok =? 0) then 0 else 1,
                                      Some (set_path (Some new_path) u)))
                 end
             | None =>
                 if is_mountable (set_path (Some new_path) u)
                    && negb (scheme (set_path (Some new_path) u)
                             =? inst_file)
                 then
                   bind (url_mount (set_path (Some new_path) u) dir
                           (Some (test_and_copy src1 dst label flags)))
                     (fun v => let '(err, u) := v in ret (err, Some u))
                 else
                   bind (test_and_copy src1 dst label flags
                           (set_path (Some new_path) u))
                     (fun v => let '(ok, _) := v in
                               ret (if negb (ok =? 0) then 0 else 1,
                                    Some (set_path (Some new_path) u)))
             end) s1 = Some ((err, url'), s') ->
            exists v, url' = Some v
              /\ v = url_mounted_as v (set_path (Some new_path) u)).
  { intros src1 new_path. cbn [mount is_mountable scheme set_path].
    rewrite Hm.
    destruct (is_mountable u && negb (scheme u =? inst_file)).
    - unfold bind at 1.
      destruct (url_mount (set_path (Some new_path) u) dir
                  (Some (test_and_copy src1 dst label flags)) s1)
        as [[[r v] sm]|] eqn:Em; [|discriminate].
      apply url_mount_touches in Em;
        [|apply test_and_copy_keeps_url|exact Hslp].
      unfold ret. intros H. injection H as _ <- _.
      exists v. split; [reflexivity|apply Em].
    - unfold bind at 1.
      destruct (test_and_copy src1 dst label flags
                  (set_path (Some new_path) u) s1)
        as [[[ok v] sm]|]; [|discriminate].
      unfold ret. intros H. injection H as _ <- _.
      eexists. split; [reflexivity|apply url_mounted_as_refl]. }
  unfold bind at 1. unfold url_read_file_src.
  destruct (scheme u =? inst_nfs) eqn:Enfs.
  - destruct (path u) as [p|] eqn:Ep; [|discriminate].
    destruct (strrchr_cut "/" p) as [[parent file]|] eqn:Ec.
    2:{ unfold ret. intros H. injection H as <- <- _. now left. }
    unfold ret at 1. intros H. right.
    apply Htail in H. destruct H as [v [-> Hv]].
    exists v, parent. split; [reflexivity|]. split; [exact Hv|].
    exists p, file. now split.
  - unfold ret at 1. intros H. right.
    apply Htail in H. destruct H as [v [-> Hv]].
    exists v, (if is_mountable u then "/" else "").
    split; [reflexivity|]. split; [exact Hv|reflexivity].
Qed.

End ReadFileSrc.

(** ** Finding the instsys *)

Section FindInstsys.

Context {G : Globals} {W : Type} {OS : Sys W} {FS : Sys_file W}
        {IS : Sys_instsys W}.

(** A url that is not mountable is read directly; if that succeeds, the
    url had no mountpoint and has lost its path. *)
Lemma url_read_file_direct (u : url_t) (url' : option url_t)
    (dir label : option string) (dst : string) (flags : Z)
    (s s' : state W) :
  is_mountable u = false -> (scheme u =? inst_nfs) = false ->
  url_read_file_fn (Some u) dir None (Some dst) label flags s
  = Some ((0, url'), s') ->
  mount u = None /\ url' = Some (set_path (Some "") u).
Proof.
  intros Hm Hnfs. unfold url_read_file_fn.
  unfold bind at 1. unfold sys_ at 1.
  unfold bind at 1.
  match goal with
  | |- match url_read_file_dirs "" dst ?st with _ => _ end = _ -> _ =>
      destruct (url_read_file_dirs "" dst st) as [[e s1]|]; [|discriminate]
  end.
  destruct (negb (e =? 0)).
  { unfold ret. intros H. discriminate H. }
  cbn [is_some negb andb].
  destruct (mount u) as [m|] eqn:Emount; cbn [is_some].
  { unfold ret. intros H. discriminate H. }
  unfold bind at 1. unfold url_read_file_src. rewrite Hnfs, Hm.
  unfold ret at 1. cbn [mount is_mountable scheme set_path].
  rewrite Emount, Hm. cbn [andb].
  unfold bind at 1.
  match goal with
  | |- match ?m s1 with _ => _ end = _ -> _ =>
      destruct (m s1) as [[[ok v] sm]|]; [|discriminate]
  end.
  unfold ret. intros H. injection H as _ <- _. now split.
Qed.

(** X26. What a successful [url_find_instsys] leaves in a url that is read
    rather than mounted (http, ftp, tftp), when no second instsys is to
    be loaded: the download was mounted at [dir] and [url->mount] is
    [dir], and [url->path] is the empty string -- the name of the file
    is no longer in the url; [url->download] is set if
    [config.download.instsys] or [config.rescue] is.  Nothing else in
    the url has changed. *)
Theorem url_find_instsys_read (u : url_t) (r : option url_t)
    (dir : option string) (s s' : state W) :
  url_find_instsys (Some u) dir s = Some ((0, r), s') ->
  is_mountable u = false -> (scheme u =? inst_nfs) = false ->
  is_some (config_url_instsys2 (world s)) && negb (config_rescue (world s))
  && language_xfonts (world s) = false ->
  r = Some (set_mount dir
              (set_path (Some "")
                 (if config_download_instsys (world s)
                     || config_rescue (world s)
                  then set_download true u else u))).
Proof.
  intros H Hm Hnfs Hget. unfold url_find_instsys in H.
  unfold bind at 1 in H. unfold sys_read at 1 in H.
  unfold bind at 1 in H. unfold sys_read at 1 in H.
  unfold bind at 1 in H. unfold sys_read at 1 in H.
  cbv zeta in H. rewrite Hget in H.
  destruct ((scheme u =? 0) || (scheme u =? inst_rel)
            || negb (is_some (path u))).
  { unfold ret in H. discriminate H. }
  unfold bind at 1 in H. unfold sys_read at 1 in H.
  set (u0 := if config_download_instsys (world s) || config_rescue (world s)
             then set_download true u else u) in *.
  assert (Hm0 : is_mountable u0 = false)
    by (subst u0; now destruct (_ || _)).
  assert (Hnfs0 : (scheme u0 =? inst_nfs) = false)
    by (subst u0; now destruct (_ || _)).
  clearbody u0.
  unfold bind at 1 in H. unfold url_find_instsys_load in H.
  rewrite Hm0 in H.
  unfold bind at 1 in H. unfold sys at 1 in H.
  destruct (new_download (world s)) as [file_name w1].
  unfold bind at 1 in H.
  match type of H with
  | match match url_read_file_fn ?a ?b ?c ?d ?e ?f ?st with _ => _ end
    with _ => _ end = _ =>
      destruct (url_read_file_fn a b c d e f st) as [[[e1 r1] s1]|] eqn:Er;
      [|discriminate]
  end.
  destruct r1 as [v|]; [|discriminate].
  unfold bind at 1 in H.
  destruct (Z.eqb_spec e1 0) as [->|Hne].
  - apply url_read_file_direct in Er; [|exact Hm0|exact Hnfs0].
    destruct Er as [_ Ev].
    assert (Hv : v = set_path (Some "") u0) by congruence.
    subst v. clear Ev.
    unfold sys at 1 in H.
    destruct (util_mount_ro (Some file_name) dir (world s1)) as [e2 w2].
    cbv beta iota delta [ret] in H. rewrite andb_false_r in H.
    injection H as He Hr _. subst e2. now rewrite <- Hr.
  - cbv beta iota delta [ret] in H. rewrite andb_false_r in H.
    injection H as He _. now contradiction Hne.
Qed.

End FindInstsys.

(** ** insmod.c: the names of versioned symbols *)

(** *** Strings by position *)

Lemma str_take_skip (n : nat) (s : string) :
  str_take n s ++ str_skip n s = s.
Proof.
  revert s. induction n as [|n IH]; intros [|a s]; cbn; try reflexivity.
  now rewrite IH.
Qed.

Lemma str_take_length (n : nat) (s : string) :
  (n <= String.length s)%nat -> String.length (str_take n s) = n.
Proof.
  revert s. induction n as [|n IH]; intros [|a s]; cbn; intros H;
    try reflexivity; try lia.
  rewrite IH by lia. reflexivity.
Qed.

Lemma str_skip_add (n m : nat) (s : string) :
  str_skip (n + m) s = str_skip m (str_skip n s).
Proof.
  revert s. induction n as [|n IH]; intros s; cbn [Nat.add str_skip].
  - reflexivity.
  - destruct s as [|a s]; [now destruct m|apply IH].
Qed.

Lemma str_at_skip (n : nat) (s : string) :
  str_at n s = match str_skip n s with String a _ => a | EmptyString => NUL end.
Proof.
  unfold str_at. revert s.
  induction n as [|n IH]; intros [|a s]; cbn; try reflexivity. apply IH.
Qed.

Lemma str_take_all (s : string) : str_take (String.length s) s = s.
Proof. induction s as [|a s IH]; cbn; [reflexivity|now rewrite IH]. Qed.

Lemma str_free_of_take (c : ascii) (n : nat) (s : string) :
  str_free_of c s = true -> str_free_of c (str_take n s) = true.
Proof.
  revert s. induction n as [|n IH]; intros [|a s]; cbn; try reflexivity.
  intros H. apply andb_true_iff in H. destruct H as [-> H]. now apply IH.
Qed.

Lemma str_free_of_skip (c : ascii) (n : nat) (s : string) :
  str_free_of c s = true -> str_free_of c (str_skip n s) = true.
Proof.
  revert s. induction n as [|n IH]; intros [|a s]; cbn; try reflexivity.
  - now intros ->.
  - intros H. apply andb_true_iff in H. destruct H as [_ H]. now apply IH.
Qed.

(** *** strcmp *)

Lemma code_inj (x y : ascii) : code x = code y -> x = y.
Proof.
  unfold code. intros H. apply N2Z.inj in H.
  rewrite <- (ascii_N_embedding x), <- (ascii_N_embedding y). now rewrite H.
Qed.

Lemma strcmp_refl (a : string) : strcmp a a = 0.
Proof.
  induction a as [|x a IH]; cbn [strcmp]; [reflexivity|].
  now rewrite Ascii.eqb_refl.
Qed.

Lemma strcmp_eq (a b : string) :
  str_free_of NUL a = true -> str_free_of NUL b = true ->
  strcmp a b = 0 -> a = b.
Proof.
  revert b. induction a as [|x a IH]; intros [|y b] Ha Hb;
    cbn [strcmp str_free_of] in *.
  - reflexivity.
  - intros H. apply andb_true_iff in Hb. destruct Hb as [Hy _].
    apply negb_true_iff, Ascii.eqb_neq in Hy.
    exfalso. apply Hy. apply code_inj. change (code NUL) with 0. lia.
  - intros H. apply andb_true_iff in Ha. destruct Ha as [Hx _].
    apply negb_true_iff, Ascii.eqb_neq in Hx.
    exfalso. apply Hx. apply code_inj. change (code NUL) with 0. lia.
  - apply andb_true_iff in Ha, Hb. destruct Ha as [_ Ha], Hb as [_ Hb].
    destruct (Ascii.eqb_spec x y) as [->|Hne].
    + intros H. f_equal. now apply IH.
    + intros H. exfalso. apply Hne. apply code_inj. lia.
Qed.

Section NcvFacts.

Variable ncv_prefix : string.
Variable obj_elf_hash_n : string -> nat -> Z.

(** The test for a version at position [n] of [s], as [ncv_strcmp]
    writes it, finds the names of the form [base_R<prefix><crc>]. *)
Lemma ncv_version_test (n : nat) (s : string) :
  str_free_of NUL s = true -> str_free_of NUL ncv_prefix = true ->
  Nat.eqb (String.length s) (n + 10 + ncv_plen ncv_prefix)
  && Ascii.eqb (str_at n s) "_"
  && Ascii.eqb (str_at (n + 1) s) "R"
  && negb (negb (Nat.eqb (ncv_plen ncv_prefix) 0)
           && negb (strncmp (str_skip (n + 2) s) ncv_prefix
                      (ncv_plen ncv_prefix) =? 0)) = true
  <-> exists crc,
        String.length crc = 8%nat
        /\ s = ncv_versioned ncv_prefix (str_take n s) crc
        /\ String.length (str_take n s) = n.
Proof.
  intros Hs Hp. unfold ncv_plen, ncv_versioned. split.
  - intros H.
    apply andb_true_iff in H. destruct H as [H H4].
    apply andb_true_iff in H. destruct H as [H H3].
    apply andb_true_iff in H. destruct H as [H1 H2].
    apply Nat.eqb_eq in H1.
    apply Ascii.eqb_eq in H2, H3.
    rewrite str_at_skip in H2, H3.
    rewrite str_skip_add in H3.
    pose proof (str_take_skip n s) as Hsplit.
    assert (Hlen1 : String.length (str_take n s) = n)
      by (apply str_take_length; lia).
    assert (Hlen2 : String.length (str_skip n s)
                    = (10 + String.length ncv_prefix)%nat).
    { rewrite <- Hsplit in H1 at 1. rewrite length_append, Hlen1 in H1. lia. }
    destruct (str_skip n s) as [|c1 s2] eqn:E2; [discriminate Hlen2|].
    subst c1. cbn [str_skip] in H3.
    destruct s2 as [|c2 s3] eqn:E3; [discriminate Hlen2|].
    subst c2.
    assert (E4 : str_skip (n + 2) s = s3).
    { rewrite str_skip_add, E2. reflexivity. }
    rewrite E4 in H4.
    cbn [String.length] in Hlen2.
    assert (Hpre : str_take (String.length ncv_prefix) s3 = ncv_prefix).
    { destruct (Nat.eqb_spec (String.length ncv_prefix) 0) as [E0|N0].
      - rewrite E0. destruct ncv_prefix; [now destruct s3|discriminate E0].
      - cbn [negb andb] in H4. apply negb_true_iff, negb_false_iff in H4.
        apply Z.eqb_eq in H4. unfold strncmp in H4.
        rewrite str_take_all in H4.
        apply strcmp_eq in H4; [exact H4| |exact Hp].
        apply str_free_of_take.
        rewrite <- Hsplit, str_free_of_app in Hs.
        apply andb_true_iff in Hs. destruct Hs as [_ Hs].
        cbn [str_free_of] in Hs.
        apply andb_true_iff in Hs. destruct Hs as [_ Hs].
        apply andb_true_iff in Hs. destruct Hs as [_ Hs]. exact Hs. }
    exists (str_skip (String.length ncv_prefix) s3).
    split; [|split; [|exact Hlen1]].
    + pose proof (str_take_skip (String.length ncv_prefix) s3) as H5.
      rewrite Hpre in H5.
      assert (H6 : String.length s3 = (8 + String.length ncv_prefix)%nat)
        by lia.
      rewrite <- H5, length_append in H6. lia.
    + rewrite <- Hsplit at 1. f_equal. cbn [append]. do 2 f_equal.
      rewrite <- Hpre at 1. now rewrite str_take_skip.
  - intros [crc [Hc [Hv Hn]]].
    set (base := str_take n s) in *. clearbody base. subst s n.
    rewrite !length_append. cbn [String.length append].
    rewrite ?length_append, Hc.
    assert (El : Nat.eqb (String.length base
                          + (2 + (String.length ncv_prefix + 8)))
                   (String.length base + 10 + String.length ncv_prefix)
                 = true) by (apply Nat.eqb_eq; lia).
    rewrite El.
    rewrite !str_at_skip, !str_skip_add, !str_skip_length_app.
    cbn [str_skip andb]. rewrite !Ascii.eqb_refl. cbn [andb].
    unfold strncmp. rewrite str_take_app, str_take_all, strcmp_refl.
    cbn [Z.eqb negb]. now rewrite andb_false_r.
Qed.

(** X27. Which names [ncv_strcmp] takes for equal.  Two symbol names
    compare equal exactly when they are the same string, or one of them
    is the other followed by a version: "_R", the prefix and a crc of
    eight characters. *)
Theorem ncv_strcmp_zero (a b : string) :
  str_free_of NUL a = true -> str_free_of NUL b = true ->
  str_free_of NUL ncv_prefix = true ->
  ncv_strcmp ncv_prefix a b = 0
  <-> a = b
      \/ (exists crc, String.length crc = 8%nat
                      /\ b = ncv_versioned ncv_prefix a crc)
      \/ (exists crc, String.length crc = 8%nat
                      /\ a = ncv_versioned ncv_prefix b crc).
Proof.
  intros Ha Hb Hp. unfold ncv_strcmp. cbv zeta.
  pose proof (ncv_version_test (String.length a) b Hb Hp) as T1.
  pose proof (ncv_version_test (String.length b) a Ha Hp) as T2.
  assert (L : forall base crc,
             String.length (ncv_versioned ncv_prefix base crc)
             = (String.length base + 2 + String.length ncv_prefix
                + String.length crc)%nat).
  { intros base crc. unfold ncv_versioned.
    rewrite length_append. cbn [append String.length].
    rewrite length_append. lia. }
  assert (V : forall base crc,
             str_take (String.length base) (ncv_versioned ncv_prefix base crc)
             = base)
    by (intros base crc; apply str_take_app).
  match type of T1 with
  | ?t = true <-> _ => destruct t eqn:E1
  end.
  - (* b carries a version *)
    destruct T1 as [T1 _]. destruct (T1 eq_refl) as [crc [Hc [Hv Hn]]].
    unfold strncmp. rewrite str_take_all. split.
    + intros H. apply strcmp_eq in H;
        [|exact Ha|now apply str_free_of_take].
      right. left. exists crc. split; [exact Hc|].
      rewrite <- H in Hv. exact Hv.
    + intros [E|[[crc' [Hc' E]]|[crc' [Hc' E]]]].
      * exfalso. subst b. rewrite str_take_all in Hv.
        apply (f_equal String.length) in Hv. rewrite L in Hv. lia.
      * rewrite E, V. apply strcmp_refl.
      * exfalso. apply (f_equal String.length) in E, Hv.
        rewrite L in E, Hv. rewrite Hn in Hv. lia.
  - match type of T2 with
    | ?t = true <-> _ => destruct t eqn:E2
    end.
    + (* a carries a version *)
      destruct T2 as [T2 _]. destruct (T2 eq_refl) as [crc [Hc [Hv Hn]]].
      unfold strncmp. rewrite str_take_all. split.
      * intros H. apply strcmp_eq in H;
          [|now apply str_free_of_take|exact Hb].
        right. right. exists crc. split; [exact Hc|].
        rewrite H in Hv. exact Hv.
      * intros [E|[[crc' [Hc' E]]|[crc' [Hc' E]]]].
        -- exfalso. subst b. rewrite str_take_all in Hv.
           apply (f_equal String.length) in Hv. rewrite L in Hv. lia.
        -- exfalso. apply (f_equal String.length) in E, Hv.
           rewrite L in E, Hv. rewrite Hn in Hv. lia.
        -- rewrite E at 1. rewrite V. apply strcmp_refl.
    + (* neither does *)
      split.
      * intros H. left. now apply strcmp_eq.
      * intros [E|[[crc' [Hc' E]]|[crc' [Hc' E]]]].
        -- subst b. apply strcmp_refl.
        -- exfalso. destruct T1 as [_ T1].
           assert (Ht : false = true); [|discriminate Ht].
           apply T1. exists crc'. rewrite E at 2 3. rewrite V.
           split; [exact Hc'|]. split; [exact E|reflexivity].
        -- exfalso. destruct T2 as [_ T2].
           assert (Ht : false = true); [|discriminate Ht].
           apply T2. exists crc'. rewrite E at 2 3. rewrite V.
           split; [exact Hc'|]. split; [exact E|reflexivity].
Qed.

(** X28. The version is dropped from the hash: for a name with a version,
    [base_R<prefix><crc>] with a base that is not empty and a crc of
    eight characters, [ncv_symbol_hash] hashes the characters of the
    base and no more. *)
Theorem ncv_symbol_hash_versioned (base crc : string) :
  base <> "" -> String.length crc = 8%nat ->
  ncv_symbol_hash ncv_prefix obj_elf_hash_n
    (ncv_versioned ncv_prefix base crc)
  = obj_elf_hash_n (ncv_versioned ncv_prefix base crc) (String.length base).
Proof.
  intros Hb Hc. unfold ncv_symbol_hash, ncv_versioned, ncv_plen. cbv zeta.
  rewrite !length_append. cbn [String.length append].
  rewrite ?length_append, Hc.
  set (n := String.length base). set (k := String.length ncv_prefix).
  assert (Hn : (0 < n)%nat)
    by (subst n; destruct base; [now contradiction Hb|cbn; lia]).
  assert (E1 : Nat.ltb (10 + k) (n + (2 + (k + 8))) = true)
    by (apply Nat.ltb_lt; lia).
  rewrite E1.
  replace (n + (2 + (k + 8)) - 10 - k)%nat with n by lia.
  replace (n + (2 + (k + 8)) - 9 - k)%nat with (n + 1)%nat by lia.
  replace (n + (2 + (k + 8)) - (8 + k))%nat with (n + 2)%nat by lia.
  replace (n + (2 + (k + 8)) - (10 + k))%nat with n by lia.
  subst n k.
  rewrite !str_at_skip, !str_skip_add, !str_skip_length_app.
  cbn [str_skip andb]. rewrite !Ascii.eqb_refl. cbn [andb].
  unfold strncmp. rewrite str_take_app, str_take_all, strcmp_refl.
  cbn [Z.eqb negb]. now rewrite andb_false_r.
Qed.

End NcvFacts.

(** ** The further properties on concrete calls *)

Lemma url_progress_unchanged_silent_witness :
  let d := set_label_shown true
             (set_percent 50 (set_p_now 1 (set_p_total 2 url_data_new))) in
  url_progress (G := example_globals) example_config d 1 = (0, d, []).
Proof.
  intros d.
  apply (@url_progress_unchanged_silent example_globals example_config d).
  - reflexivity.
  - vm_compute. discriminate.
  - reflexivity.
Defined.

Lemma progress_percent_monotone_witness :
  let d := set_p_now 10 (set_p_total 100 url_data_new) in
  let d' := set_p_now 20 (set_p_total 100 url_data_new) in
  progress_percent d = 10 /\ progress_percent d' = 20
  /\ progress_percent d <= progress_percent d'.
Proof.
  intros d d'. split; [reflexivity|]. split; [reflexivity|].
  apply (@progress_percent_monotone d d'); vm_compute;
    try reflexivity; try discriminate; split; discriminate.
Defined.

Lemma url_write_cb_counts_witness :
  let buffer := repeat Byte.x41 300 in
  let d := set_file_name (Some "/download/file_0") url_data_new in
  exists d' s',
    url_write_cb (G := example_globals) (OS := script_sys example_script)
      buffer d (init_state O) = Some ((300, d'), s')
    /\ err d' = 0 /\ p_now d' = 300 /\ buf_len d' = 0
    /\ to_uint32 (p_now d' + buf_len d')
       = to_uint32 (p_now d + buf_len d + 300).
Proof.
  intros buffer d.
  destruct (url_write_cb (G := example_globals)
              (OS := script_sys example_script) buffer d (init_state O))
    as [[[n d'] s']|] eqn:E; [|vm_compute in E; discriminate E].
  pose proof E as E'. vm_compute in E'. injection E' as Hn Hd Hs.
  assert (He : err d' = 0) by (rewrite <- Hd; reflexivity).
  assert (Hp : p_now d' = 300) by (rewrite <- Hd; reflexivity).
  assert (Hl : buf_len d' = 0) by (rewrite <- Hd; reflexivity).
  exists d', s'. rewrite <- Hn. split; [reflexivity|].
  split; [exact He|]. split; [exact Hp|]. split; [exact Hl|].
  apply (@url_write_cb_counts example_globals nat
           (script_sys example_script) buffer d d' (init_state O) s' n).
  - intros fd tmp w. reflexivity.
  - exact E.
  - vm_compute. split; discriminate.
  - intros H. discriminate H.
  - exact He.
Defined.

Lemma url_read_complete_witness :
  let d := set_file_name (Some "/download/file_0")
             (set_url (Some (example_url "http://server/boot/root"))
                url_data_new) in
  exists d' s',
    url_read (G := example_globals)
      (OS := machine_sys example_script example_machine) d (init_state O)
    = Some (d', s')
    /\ err d' = 0
    /\ sha1 d' = Some (string_of_list_byte
                         (repeat Byte.x41 300 ++ repeat Byte.x42 300)%list)
    /\ to_uint32 (p_now d') = 600 /\ buf_len d' = 0.
Proof.
  intros d.
  destruct (url_read (G := example_globals)
              (OS := machine_sys example_script example_machine) d
              (init_state O))
    as [[d' s']|] eqn:E; [|vm_compute in E; discriminate E].
  pose proof E as E'. vm_compute in E'. injection E' as Hd Hs.
  assert (He : err d' = 0) by (rewrite <- Hd; reflexivity).
  exists d', s'. split; [reflexivity|]. split; [exact He|].
  destruct (@url_read_complete example_globals nat
              (machine_sys example_script example_machine) d d'
              (init_state O) s')
    as [proxy_url [d1 [s1 [events [msg [_ [Hc [Hsha [Hp Hl]]]]]]]]].
  - intros fd tmp w. reflexivity.
  - exact E.
  - vm_compute. repeat split; discriminate.
  - reflexivity.
  - exact He.
  - injection Hc as <- _.
    split; [exact Hsha|]. split; [exact Hp|exact Hl].
Defined.

Lemma url_read_invalid_proxy_witness :
  let d := set_file_name (Some "/download/file_0")
             (set_url (Some (example_url "http://server/boot/root"))
                url_data_new) in
  let s := {| config := set_proxy (Some (example_url "http://proxy:3128"))
                          example_config;
              console := []; world := O |} in
  exists d' s',
    url_read (G := example_globals)
      (OS := machine_sys example_script bad_proxy_machine) d s
    = Some (d', s')
    /\ err d' = 105
    /\ err_buf d' = "invalid proxy address: proxy"
    /\ p_now d' = 0 /\ sha1_ctx d' = [] /\ sha1 d' = None.
Proof.
  intros d s.
  destruct (url_read (G := example_globals)
              (OS := machine_sys example_script bad_proxy_machine) d s)
    as [[d' s']|] eqn:E; [|vm_compute in E; discriminate E].
  exists d', s'. split; [reflexivity|].
  apply (@url_read_invalid_proxy example_globals nat
           (machine_sys example_script bad_proxy_machine) d d' s s'
           (example_url "http://proxy:3128") (Some "proxy") O O 1).
  - reflexivity.
  - reflexivity.
  - reflexivity.
  - discriminate.
  - reflexivity.
  - vm_compute. discriminate.
  - vm_compute. discriminate.
  - exact E.
Defined.

Lemma url_setup_device_loopback_witness :
  let url := set_used_device (Some "lo")
               (example_url "http://localhost/boot/root") in
  url_setup_device (G := example_globals) (OS := script_sys example_script)
    url (init_state O)
  = Some ((0, url), init_state O).
Proof.
  intros url.
  apply (@url_setup_device_loopback example_globals nat
           (script_sys example_script) url "lo" (init_state O));
    reflexivity.
Defined.

Lemma url_setup_device_failure_witness :
  let url := set_used_device (Some "eth0")
               (example_url "http://server/boot/root") in
  let s := {| config := set_net_configured nc_dhcp example_config;
              console := []; world := O |} in
  exists url' s',
    url_setup_device (G := example_globals)
      (OS := machine_sys example_script bad_proxy_machine) url s
    = Some ((0, url'), s')
    /\ net_configured (config s) = nc_dhcp
    /\ net_configured (config s') = nc_none.
Proof.
  intros url s.
  assert (E : exists url' s',
             url_setup_device (G := example_globals)
               (OS := machine_sys example_script bad_proxy_machine) url s
             = Some ((0, url'), s'))
    by (do 2 eexists; vm_compute; reflexivity).
  destruct E as [url' [s' E]]. exists url', s'.
  split; [exact E|]. split; [reflexivity|].
  apply (@url_setup_device_failure example_globals nat
           (machine_sys example_script bad_proxy_machine) url url' "eth0"
           s s' E); reflexivity.
Defined.

Lemma url_mount_disk_mountpoint_witness :
  let url := set_used_device (Some "/dev/sdb1") (example_url "disk:/repo") in
  exists url' s',
    url_mount_disk (G := example_globals) (OS := script_sys example_script)
      url (Some "/mnt") None (init_state O) = Some ((1, url'), s')
    /\ mount url' = Some "/mnt".
Proof.
  intros url.
  assert (E : exists url' s',
             url_mount_disk (G := example_globals)
               (OS := script_sys example_script)
               url (Some "/mnt") None (init_state O) = Some ((1, url'), s'))
    by (do 2 eexists; vm_compute; reflexivity).
  destruct E as [url' [s' E]]. exists url', s'.
  split; [exact E|].
  destruct (@url_mount_disk_mountpoint example_globals nat
              (script_sys example_script) url url' (Some "/mnt")
              (init_state O) s' 1 E) as [m [Hm Hd]].
  - discriminate.
  - reflexivity.
  - rewrite Hm. f_equal. apply Hd. reflexivity.
Defined.

Lemma url_mount_disk_plain_network_witness :
  let url := set_used_device (Some "eth0")
               (example_url "http://server/boot/root") in
  exists url' s',
    url_mount_disk (G := example_globals) (OS := script_sys example_script)
      url None None (init_state O) = Some ((1, url'), s')
    /\ mount url' = None /\ tmp_mount url' = None.
Proof.
  intros url.
  assert (E : exists url' s',
             url_mount_disk (G := example_globals)
               (OS := script_sys example_script)
               url None None (init_state O) = Some ((1, url'), s'))
    by (do 2 eexists; vm_compute; reflexivity).
  destruct E as [url' [s' E]]. exists url', s'.
  split; [exact E|].
  destruct (@url_mount_disk_plain_network example_globals nat
              (script_sys example_script) url url' None
              (init_state O) s' 1 E) as [H|[_ [_ H]]];
    try reflexivity.
  - discriminate H.
  - exact H.
Defined.

Lemma url_mount_loop_stops_witness :
  let url := example_url "disk:/repo" in
  exists url' s',
    url_mount_loop (G := example_globals)
      (OS := machine_sys two_disks_script example_machine)
      (on_hd_list two_disks_script) url None None 0 0 (init_state O)
    = Some ((url', 1, 1), s')
    /\ url_mount_loop_log (G := example_globals)
         (OS := machine_sys two_disks_script example_machine)
         (on_hd_list two_disks_script) url None None 0 0 [] (init_state O)
       = Some ((url', 1, 1, [0; 1]), s').
Proof.
  intros url.
  assert (E : exists url' s',
             url_mount_loop (G := example_globals)
               (OS := machine_sys two_disks_script example_machine)
               (on_hd_list two_disks_script) url None None 0 0 (init_state O)
             = Some ((url', 1, 1), s'))
    by (do 2 eexists; vm_compute; reflexivity).
  destruct E as [url' [s' E]]. exists url', s'. split; [exact E|].
  destruct (@url_mount_loop_stops example_globals nat
              (machine_sys two_disks_script example_machine)
              (on_hd_list two_disks_script) url url' None None 0 0 1 1
              (init_state O) s' E) as [l [Hlog _]].
  rewrite Hlog. pose proof Hlog as Hl. vm_compute in Hl.
  injection Hl as _ Hl _. now rewrite Hl.
Defined.

Lemma url_mount_rejection_clears_used_witness :
  let url := example_url "disk:/repo" in
  exists url' s',
    url_mount (G := example_globals)
      (OS := machine_sys two_disks_script example_machine)
      url None None (init_state O) = Some ((0, url'), s')
    /\ mount url' = Some "/mounts/mp_1" /\ used_device url' = None.
Proof.
  intros url.
  destruct (url_mount (G := example_globals)
              (OS := machine_sys two_disks_script example_machine)
              url None None (init_state O))
    as [[[r url'] s']|] eqn:E; [|vm_compute in E; discriminate E].
  destruct (url_mount_loop_log (G := example_globals)
              (OS := machine_sys two_disks_script example_machine)
              (on_hd_list two_disks_script) url None None 0 0 []
              (init_state O))
    as [[[[[url1 err] found] log] s1]|] eqn:El;
    [|vm_compute in El; discriminate El].
  pose proof El as El'. vm_compute in El'. injection El' as Hu _ _ Hlog _.
  destruct (@url_mount_rejection_clears_used example_globals nat
              (machine_sys two_disks_script example_machine)
              url url' url1 None None (init_state O) s' s1
              example_config O O (on_hd_list two_disks_script)
              r err found log)
    as [Hr [Hurl [_ [Hdev _]]]];
    try reflexivity; try discriminate.
  - exact E.
  - exact El.
  - rewrite <- Hlog. reflexivity.
  - rewrite <- Hlog in Hr. cbn in Hr. subst r.
    exists url', s'. split; [reflexivity|]. split; [|exact Hdev].
    rewrite Hurl, <- Hu. reflexivity.
Defined.

Lemma url_mount_result_witness :
  let url := example_url "disk:/repo" in
  exists url' s',
    url_mount (G := example_globals)
      (OS := machine_sys two_disks_script example_machine)
      url None None (init_state O) = Some ((0, url'), s').
Proof.
  intros url.
  destruct (url_mount (G := example_globals)
              (OS := machine_sys two_disks_script example_machine)
              url None None (init_state O))
    as [[[r url'] s']|] eqn:E; [|vm_compute in E; discriminate E].
  destruct (@url_mount_result example_globals nat
              (machine_sys two_disks_script example_machine)
              url url' None None (init_state O) s'
              example_config O O (on_hd_list two_disks_script) r)
    as [url1 [err [found [log [s1 [Hlog Hr]]]]]];
    try reflexivity; try discriminate.
  - exact E.
  - vm_compute in Hlog. injection Hlog as _ _ _ Hlog _.
    rewrite <- Hlog in Hr. cbn in Hr. subst r.
    exists url', s'. reflexivity.
Defined.

Lemma url_mount_frame_witness :
  let url := example_url "disk:/repo" in
  exists r url' s',
    url_mount (G := example_globals)
      (OS := machine_sys two_disks_script example_machine)
      url None None (init_state O) = Some ((r, url'), s')
    /\ url' = url_mounted_as url' url /\ (r = 0 \/ r = 1).
Proof.
  intros url.
  assert (E : exists r url' s',
             url_mount (G := example_globals)
               (OS := machine_sys two_disks_script example_machine)
               url None None (init_state O) = Some ((r, url'), s'))
    by (do 3 eexists; vm_compute; reflexivity).
  destruct E as [r [url' [s' E]]]. exists r, url', s'.
  split; [exact E|].
  apply (@url_mount_frame example_globals nat
           (machine_sys two_disks_script example_machine)
           url url' None None (init_state O) s' r).
  - exact I.
  - reflexivity.
  - exact E.
Defined.


Lemma url_read_file_takes_src_from_path_witness :
  let u := example_url "http://server/boot/root" in
  exists v s',
    url_read_file_fn (G := example_globals)
      (OS := machine_sys example_script example_machine)
      (FS := example_files)
      (Some u) None None (Some "/download/file_0") None 0 (init_state O)
    = Some ((0, Some v), s')
    /\ path u = Some "boot/root" /\ path v = Some "".
Proof.
  intros u.
  assert (E : exists v s',
             url_read_file_fn (G := example_globals)
               (OS := machine_sys example_script example_machine)
               (FS := example_files)
               (Some u) None None (Some "/download/file_0") None 0
               (init_state O)
             = Some ((0, Some v), s'))
    by (do 2 eexists; vm_compute; reflexivity).
  destruct E as [v [s' E]]. exists v, s'. split; [exact E|].
  split; [reflexivity|].
  destruct (@url_read_file_takes_src_from_path example_globals nat
              (machine_sys example_script example_machine) example_files
              u (Some v) None None "/download/file_0" 0
              (init_state O) s' 0)
    as [[H _]|[v' [new_path [Hv [Hf Hp]]]]].
  - reflexivity.
  - reflexivity.
  - exact E.
  - discriminate H.
  - injection Hv as <-. rewrite Hf. cbn in Hp. subst new_path. reflexivity.
Defined.


Lemma url_find_instsys_read_witness :
  let u := example_url "http://server/boot/root" in
  exists v s',
    url_find_instsys (G := example_globals)
      (OS := machine_sys example_script example_machine)
      (FS := example_files) (IS := example_instsys)
      (Some u) (Some "/mounts/instsys") (init_state O)
    = Some ((0, Some v), s')
    /\ path u = Some "boot/root" /\ mount u = None
    /\ path v = Some "" /\ mount v = Some "/mounts/instsys"
    /\ download v = true.
Proof.
  intros u.
  assert (E : exists v s',
             url_find_instsys (G := example_globals)
               (OS := machine_sys example_script example_machine)
               (FS := example_files) (IS := example_instsys)
               (Some u) (Some "/mounts/instsys") (init_state O)
             = Some ((0, Some v), s'))
    by (do 2 eexists; vm_compute; reflexivity).
  destruct E as [v [s' E]]. exists v, s'. split; [exact E|].
  split; [reflexivity|]. split; [reflexivity|].
  pose proof (@url_find_instsys_read example_globals nat
                (machine_sys example_script example_machine)
                example_files example_instsys
                u (Some v) (Some "/mounts/instsys") (init_state O) s' E)
    as H.
  assert (Hv : Some v
               = Some (set_mount (Some "/mounts/instsys")
                         (set_path (Some "") (set_download true u))))
    by (apply H; reflexivity).
  injection Hv as ->. repeat split.
Defined.

Lemma ncv_strcmp_zero_witness :
  ncv_strcmp "smp_" "printk" "printk_Rsmp_1b7d4074" = 0
  /\ ncv_strcmp "smp_" "printk_Rsmp_1b7d4074" "printk" = 0.
Proof.
  split.
  - apply (@ncv_strcmp_zero "smp_" "printk" "printk_Rsmp_1b7d4074");
      try reflexivity.
    right. left. exists "1b7d4074". split; reflexivity.
  - apply (@ncv_strcmp_zero "smp_" "printk_Rsmp_1b7d4074" "printk");
      try reflexivity.
    right. right. exists "1b7d4074". split; reflexivity.
Defined.

Lemma ncv_symbol_hash_versioned_witness :
  let hash := fun (s : string) (n : nat) => Z.of_nat n in
  ncv_symbol_hash "smp_" hash "printk_Rsmp_1b7d4074" = 6.
Proof.
  intros hash.
  apply (@ncv_symbol_hash_versioned "smp_" hash "printk" "1b7d4074").
  - discriminate.
  - reflexivity.
Defined.

